(** * Bot-Base: placeholder expansion, theme merging and the command handlers

    A shallow embedding of [main.py].

    - Values.  What [json.loads] returns is a [json]: [None], a bool, an
      int (unbounded, [Z]), a float (binary64, [PrimFloat.float]), a str,
      a list or a dict.  A Python [dict] is an association list in
      insertion order (the order is observable: iterating a dict walks its
      keys in that order).  A Python [str] is held as the [string] of the
      bytes of its UTF-8 encoding; a character is a byte that opens a
      sequence together with the bytes that continue it.
    - The interpreter.  Two things depend on it and are those of
      CPython 3.11 with its default settings: the characters [int] takes
      for digits and blanks (the tables of Unicode 14.0), and the limit of
      4300 decimal digits on the conversions between [int] and [str] in
      base 10, which [json.dump], [json.load] and [json.loads] make.
    - Dynamic typing.  The operations the program applies to values of
      unknown type ([k in x], [x[k]], [x.get(k)], [x[k] = v], iteration,
      truthiness) are functions on [json] that raise what Python raises
      when the type does not fit.
    - Effects.  The handlers run in a state-and-exception monad over the
      state of [config.json] and the trace of calls made to the chat
      platform and to the logger.  The file is absent, or [json.load]
      reads a document from it, or [json.load] rejects its text; the last
      is what a [json.dump] that fails half-way leaves behind.  Opening,
      reading and writing the file succeed as operations of the file
      system, and so do the platform's send calls.  A handler's own
      [try]/[except] clauses are modelled; an exception they let through
      is the handler's result.
    - Mutation.  [apply_theme] changes its argument in place.  Its callers
      pass a value that nothing else refers to (fresh from [json.loads],
      or from a [load_config()] whose result is never saved), so the
      functional reading is the same. *)

From Stdlib Require Import String Ascii List ZArith Bool Lia Arith.
From Stdlib Require Import Floats.PrimFloat.
From Stdlib Require Import DecimalString.
Import ListNotations.

Local Open Scope string_scope.
Local Open Scope list_scope.

(** ** JSON values *)

Unset Elimination Schemes.
Inductive json : Type :=
| JNull
| JBool (b : bool)
| JInt (z : Z)
| JFloat (f : float)
| JStr (s : string)
| JList (items : list json)
| JDict (kvs : list (string * json)).
Set Elimination Schemes.

(** Induction over the tree: the hypotheses for containers speak about
    every element, respectively every value. *)
Definition json_tree_ind (P : json -> Prop)
  (Hnull : P JNull)
  (Hbool : forall b, P (JBool b))
  (Hint : forall z, P (JInt z))
  (Hfloat : forall f, P (JFloat f))
  (Hstr : forall s, P (JStr s))
  (Hlist : forall items, Forall P items -> P (JList items))
  (Hdict : forall kvs, Forall (fun kv => P (snd kv)) kvs -> P (JDict kvs)) :
  forall v, P v :=
  fix go (v : json) : P v :=
    match v with
    | JNull => Hnull
    | JBool b => Hbool b
    | JInt z => Hint z
    | JFloat f => Hfloat f
    | JStr s => Hstr s
    | JList items =>
        Hlist items
          ((fix all (l : list json) : Forall P l :=
              match l with
              | [] => Forall_nil P
              | x :: l' => Forall_cons x (go x) (all l')
              end) items)
    | JDict kvs =>
        Hdict kvs
          ((fix all (l : list (string * json)) : Forall (fun kv => P (snd kv)) l :=
              match l with
              | [] => Forall_nil _
              | kv :: l' => Forall_cons kv (go (snd kv)) (all l')
              end) kvs)
    end.

(** ** Exceptions and results *)

Inductive exc : Type :=
| ValueError
| JSONDecodeError
| TypeError
| AttributeError
| KeyError
| HTTPException
| Forbidden.

(** [isinstance(e, cls)] for the classes the handlers catch:
    [json.JSONDecodeError] derives from [ValueError], [discord.Forbidden]
    from [discord.HTTPException]. *)
Definition exc_isinstance (e cls : exc) : bool :=
  match cls, e with
  | ValueError, (ValueError | JSONDecodeError) => true
  | JSONDecodeError, JSONDecodeError => true
  | TypeError, TypeError => true
  | AttributeError, AttributeError => true
  | KeyError, KeyError => true
  | HTTPException, (HTTPException | Forbidden) => true
  | Forbidden, Forbidden => true
  | _, _ => false
  end.

Inductive result (A : Type) : Type :=
| Ok (a : A)
| Raise (e : exc).
Arguments Ok {A} a.
Arguments Raise {A} e.

Definition bind_result {A B : Type} (r : result A) (k : A -> result B) : result B :=
  match r with
  | Ok a => k a
  | Raise e => Raise e
  end.

Notation "'let*' x ':=' r 'in' k" := (bind_result r (fun x => k))
  (at level 10, x name, r at level 100, k at level 200).

(** A list comprehension [[f(e) for e in items]]: the first exception ends it. *)
Fixpoint comprehension {A B : Type} (f : A -> result B) (items : list A) : result (list B) :=
  match items with
  | [] => Ok []
  | e :: rest =>
      let* y := f e in
      let* ys := comprehension f rest in
      Ok (y :: ys)
  end.

(** ** Python strings *)

Module PyStr.

(** [old in s] for two strings: [old] occurs somewhere in [s]. *)
Fixpoint contains (old s : string) : bool :=
  String.prefix old s ||
  match s with
  | EmptyString => false
  | String _ s' => contains old s'
  end.

(** [s.replace(old, new)] for a non-empty [old]: scanning from the left,
    every occurrence that does not overlap an earlier one is replaced.
    [skip] counts the characters of the occurrence being consumed. *)
Fixpoint replace_from (old new : string) (skip : nat) (s : string) : string :=
  match s with
  | EmptyString => EmptyString
  | String c s' =>
      match skip with
      | S k => replace_from old new k s'
      | O =>
          if String.prefix old s
          then new ++ replace_from old new (String.length old - 1) s'
          else String c (replace_from old new 0 s')
      end
  end.

Definition replace (old new s : string) : string := replace_from old new 0 s.

(** [s.strip(chars)] for a one-character [chars]: every leading and every
    trailing copy of the character is removed. *)
Fixpoint lstrip (c : ascii) (s : string) : string :=
  match s with
  | String a s' => if Ascii.eqb a c then lstrip c s' else s
  | EmptyString => EmptyString
  end.

Fixpoint rstrip (c : ascii) (s : string) : string :=
  match s with
  | EmptyString => EmptyString
  | String a s' =>
      match rstrip c s' with
      | EmptyString => if Ascii.eqb a c then EmptyString else String a EmptyString
      | r => String a r
      end
  end.

Definition strip (c : ascii) (s : string) : string := rstrip c (lstrip c s).

(** Drop the first [n] characters. *)
Fixpoint drop (n : nat) (s : string) : string :=
  match n, s with
  | S k, String _ s' => drop k s'
  | _, _ => s
  end.

(** [str(n)] for an integer. *)
Definition of_int (n : Z) : string := NilZero.string_of_int (Z.to_int n).

(** The characters [int] skips around a literal: tab, line feed, vertical
    tab, form feed, carriage return and the blank. *)
Definition is_space (c : ascii) : bool :=
  let n := nat_of_ascii c in
  ((9 <=? n)%nat && (n <=? 13)%nat) || (n =? 32)%nat.

Fixpoint skip_spaces (s : string) : string :=
  match s with
  | String c s' => if is_space c then skip_spaces s' else s
  | EmptyString => EmptyString
  end.

(** The value of a character as a digit: [0-9], then [a-z] and [A-Z]
    standing for 10 to 35. *)
Definition digit_value (c : ascii) : option Z :=
  let n := Z.of_nat (nat_of_ascii c) in
  if ((48 <=? n) && (n <=? 57))%Z then Some (n - 48)%Z
  else if ((97 <=? n) && (n <=? 122))%Z then Some (n - 87)%Z
  else if ((65 <=? n) && (n <=? 90))%Z then Some (n - 55)%Z
  else None.

Definition hex_digit (c : ascii) : option Z :=
  match digit_value c with
  | Some d => if (d <? 16)%Z then Some d else None
  | None => None
  end.

(** The digits of a base-16 literal, single underscores allowed between
    them.  Returns the value, the number of digits, and what follows the
    last digit; [None] for a doubled or trailing underscore. *)
Fixpoint scan_hex (s : string) (acc : Z) (digits : nat) (prev_underscore : bool)
  : option (Z * nat * string) :=
  match s with
  | EmptyString => if prev_underscore then None else Some (acc, digits, s)
  | String c s' =>
      if Ascii.eqb c "_" then
        if prev_underscore then None else scan_hex s' acc digits true
      else
        match hex_digit c with
        | Some d => scan_hex s' (16 * acc + d)%Z (S digits) false
        | None => if prev_underscore then None else Some (acc, digits, s)
        end
  end.

(** [int(s, 16)] on ASCII text: blanks, an optional sign, an optional
    [0x] or [0X] (after which one underscore may stand), at least one
    digit, blanks. *)
Definition int16_ascii (s : string) : result Z :=
  let s1 := skip_spaces s in
  let '(sign, s2) :=
    match s1 with
    | String "+" r => (1%Z, r)
    | String "-" r => ((-1)%Z, r)
    | _ => (1%Z, s1)
    end in
  let s3 :=
    match s2 with
    | String "0" (String x r) =>
        if Ascii.eqb x "x" || Ascii.eqb x "X"
        then match r with String "_" r' => r' | _ => r end
        else s2
    | _ => s2
    end in
  match s3 with
  | String "_" _ => Raise ValueError
  | _ =>
      match scan_hex s3 0%Z 0 false with
      | Some (z, S _, rest) =>
          match skip_spaces rest with
          | EmptyString => Ok (sign * z)%Z
          | _ => Raise ValueError
          end
      | _ => Raise ValueError
      end
  end.

(** The characters beyond ASCII that [int] accepts, by code point: the
    white-space characters, and the decimal digits, which come in runs
    [(first, last)] that count 0 to 9 from [first] (the run from 120782
    holds five such series). *)
Definition unicode_spaces : list Z :=
  [133; 160; 5760; 8192; 8193; 8194; 8195; 8196; 8197; 8198; 8199; 8200;
   8201; 8202; 8232; 8233; 8239; 8287; 12288]%Z.

Definition unicode_digit_runs : list (Z * Z) :=
  [(1632, 1641); (1776, 1785); (1984, 1993); (2406, 2415); (2534, 2543);
   (2662, 2671); (2790, 2799); (2918, 2927); (3046, 3055); (3174, 3183);
   (3302, 3311); (3430, 3439); (3558, 3567); (3664, 3673); (3792, 3801);
   (3872, 3881); (4160, 4169); (4240, 4249); (6112, 6121); (6160, 6169);
   (6470, 6479); (6608, 6617); (6784, 6793); (6800, 6809); (6992, 7001);
   (7088, 7097); (7232, 7241); (7248, 7257); (42528, 42537); (43216, 43225);
   (43264, 43273); (43472, 43481); (43504, 43513); (43600, 43609);
   (44016, 44025); (65296, 65305); (66720, 66729); (68912, 68921);
   (69734, 69743); (69872, 69881); (69942, 69951); (70096, 70105);
   (70384, 70393); (70736, 70745); (70864, 70873); (71248, 71257);
   (71360, 71369); (71472, 71481); (71904, 71913); (72016, 72025);
   (72784, 72793); (73040, 73049); (73120, 73129); (92768, 92777);
   (92864, 92873); (93008, 93017); (120782, 120831); (123200, 123209);
   (123632, 123641); (125264, 125273); (130032, 130041)]%Z.

Definition unicode_decimal (cp : Z) : option Z :=
  match find (fun run => (fst run <=? cp) && (cp <=? snd run))%Z unicode_digit_runs with
  | Some (first, _) => Some ((cp - first) mod 10)%Z
  | None => None
  end.

(** What [int] puts for a character beyond ASCII before it reads the
    literal: a blank for white space, the ASCII digit for a decimal digit;
    any other character makes the literal invalid. *)
Definition ascii_of_code_point (cp : Z) : option ascii :=
  if existsb (Z.eqb cp) unicode_spaces then Some " "%char
  else
    match unicode_decimal cp with
    | Some d => Some (ascii_of_nat (Z.to_nat (48 + d)))
    | None => None
    end.

(** The ASCII text [int] reads in place of [s].  The bytes are decoded as
    they come: [pending] bytes still continue the character whose code
    point has reached [cp], and [least] is the least code point that needs
    a sequence of this length.  Bytes that are no UTF-8 text give [None]. *)
Fixpoint ascii_form_from (pending : nat) (cp least : Z) (s : string) : option string :=
  match s with
  | EmptyString =>
      match pending with
      | O => Some EmptyString
      | S _ => None
      end
  | String c s' =>
      let n := Z.of_nat (nat_of_ascii c) in
      match pending with
      | O =>
          if (n <? 128)%Z then option_map (String c) (ascii_form_from 0 0 0 s')
          else if (n <? 192)%Z then None
          else if (n <? 224)%Z then ascii_form_from 1 (n - 192) 128 s'
          else if (n <? 240)%Z then ascii_form_from 2 (n - 224) 2048 s'
          else if (n <? 248)%Z then ascii_form_from 3 (n - 240) 65536 s'
          else None
      | S k =>
          if ((128 <=? n) && (n <? 192))%Z then
            let cp' := (64 * cp + (n - 128))%Z in
            match k with
            | S _ => ascii_form_from k cp' least s'
            | O =>
                if (cp' <? least)%Z then None
                else
                  match ascii_of_code_point cp' with
                  | Some a => option_map (String a) (ascii_form_from 0 0 0 s')
                  | None => None
                  end
            end
          else None
      end
  end.

Definition ascii_form (s : string) : option string := ascii_form_from 0 0 0 s.

(** [int(s, 16)]. *)
Definition int16 (s : string) : result Z :=
  match ascii_form s with
  | Some text => int16_ascii text
  | None => Raise ValueError
  end.

(** The characters of a [str], as iterating over it gives them. *)
Definition is_continuation (c : ascii) : bool :=
  let n := nat_of_ascii c in
  (128 <=? n)%nat && (n <? 192)%nat.

Fixpoint chars (s : string) : list string :=
  match s with
  | EmptyString => []
  | String c s' =>
      let continued :=
        match s' with
        | String d _ => is_continuation d
        | EmptyString => false
        end in
      match chars s' with
      | x :: rest =>
          if continued then String c x :: rest
          else String c EmptyString :: x :: rest
      | [] => [String c EmptyString]
      end
  end.

End PyStr.

(** ** The limit on conversions between integers and decimal text *)

Module PyInt.

(** [sys.get_int_max_str_digits()]: [str(n)] and [int(literal)] in base 10
    raise [ValueError] when the number has more decimal digits than
    this; the sign does not count. *)
Definition max_str_digits : Z := 4300.

(** The least number with more digits than that, [10 ^ 4300], computed
    once. *)
Definition str_bound : Z := Eval vm_compute in (10 ^ max_str_digits)%Z.

Definition convertible (n : Z) : bool := (Z.abs n <? str_bound)%Z.

End PyInt.

(** ** Python dicts: association lists in insertion order *)

Module PyDict.

Fixpoint lookup (k : string) (kvs : list (string * json)) : option json :=
  match kvs with
  | [] => None
  | (k', v) :: rest => if String.eqb k' k then Some v else lookup k rest
  end.

Definition has_key (k : string) (kvs : list (string * json)) : bool :=
  match lookup k kvs with
  | Some _ => true
  | None => false
  end.

(** [d[k] = v]: an existing key keeps its position, a new key goes last. *)
Fixpoint set (k : string) (v : json) (kvs : list (string * json)) : list (string * json) :=
  match kvs with
  | [] => [(k, v)]
  | (k', v') :: rest =>
      if String.eqb k' k then (k', v) :: rest else (k', v') :: set k v rest
  end.

(** [d.update(other)]: the pairs of [other] are stored one after the other. *)
Definition update (other kvs : list (string * json)) : list (string * json) :=
  fold_left (fun d kv => set (fst kv) (snd kv) d) other kvs.

End PyDict.

(** ** The dynamically typed operations the program applies to JSON values *)

(** [bool(v)]. *)
Definition truthy (v : json) : bool :=
  match v with
  | JNull => false
  | JBool b => b
  | JInt z => negb (Z.eqb z 0)
  | JFloat f => negb (PrimFloat.eqb f 0)
  | JStr s => negb (String.eqb s "")
  | JList items => match items with [] => false | _ => true end
  | JDict kvs => match kvs with [] => false | _ => true end
  end.

(** [k == e] for a string [k]: only an equal string compares equal. *)
Definition str_equals (k : string) (e : json) : bool :=
  match e with
  | JStr s => String.eqb s k
  | _ => false
  end.

(** [k in x] for a string [k]. *)
Definition py_in (k : string) (x : json) : result bool :=
  match x with
  | JDict kvs => Ok (PyDict.has_key k kvs)
  | JList items => Ok (existsb (str_equals k) items)
  | JStr s => Ok (PyStr.contains k s)
  | _ => Raise TypeError
  end.

Definition py_not_in (k : string) (x : json) : result bool :=
  let* b := py_in k x in Ok (negb b).

(** [x[k]] for a string [k]. *)
Definition py_getitem (x : json) (k : string) : result json :=
  match x with
  | JDict kvs =>
      match PyDict.lookup k kvs with
      | Some v => Ok v
      | None => Raise KeyError
      end
  | _ => Raise TypeError
  end.

(** [x.get(k)]: only dicts have the method. *)
Definition py_get (x : json) (k : string) : result json :=
  match x with
  | JDict kvs =>
      match PyDict.lookup k kvs with
      | Some v => Ok v
      | None => Ok JNull
      end
  | _ => Raise AttributeError
  end.

(** [x[k] = v] for a string [k]; the result is the object after the store. *)
Definition py_setitem (x : json) (k : string) (v : json) : result json :=
  match x with
  | JDict kvs => Ok (JDict (PyDict.set k v kvs))
  | _ => Raise TypeError
  end.

(** [x.update(other)] for a dict literal [other]. *)
Definition py_update (x : json) (other : list (string * json)) : result json :=
  match x with
  | JDict kvs => Ok (JDict (PyDict.update other kvs))
  | _ => Raise AttributeError
  end.

(** [for e in x]: the elements of a list, the keys of a dict, the
    characters of a string. *)
Definition py_iter (x : json) : result (list json) :=
  match x with
  | JList items => Ok items
  | JDict kvs => Ok (map (fun kv => JStr (fst kv)) kvs)
  | JStr s => Ok (map JStr (PyStr.chars s))
  | _ => Raise TypeError
  end.

(** [any(k in x for k in keys)]: stops at the first hit. *)
Fixpoint py_any_in (keys : list string) (x : json) : result bool :=
  match keys with
  | [] => Ok false
  | k :: rest =>
      let* b := py_in k x in
      if b then Ok true else py_any_in rest x
  end.

(** [json.dump] can write the value: no integer in it is beyond the limit
    of [str].  These are also the values [json.load] and [json.loads] can
    return, as they read an integer with [int]. *)
Fixpoint dumpable (v : json) : bool :=
  match v with
  | JInt n => PyInt.convertible n
  | JList items => forallb dumpable items
  | JDict kvs => forallb (fun kv => dumpable (snd kv)) kvs
  | _ => true
  end.

(** ** The member record and the placeholder expander *)

Module Role.
Record t := { id : Z }.
End Role.

Module Channel.
Record t := { id : Z; mention : string }.
End Channel.

Module Guild.
Record t := {
  id : Z;
  get_role : json -> result (option Role.t);
  get_channel : json -> result (option Channel.t)
}.
End Guild.

Module Member.
Record t := {
  id : Z;
  name : string;
  guild : Guild.t;
  add_roles : Role.t -> result unit
}.

(** The mention token of a member is made from the identifier of the
    user: the library defines the attribute as [f'<@{self._user.id}>']. *)
Definition mention (member : t) : string := "<@" ++ PyStr.of_int (id member) ++ ">".
End Member.

Fixpoint replace_placeholders (obj : json) (member : Member.t) : json :=
  match obj with
  | JStr s =>
      JStr (PyStr.replace "{username}" (Member.name member)
              (PyStr.replace "{user}" (Member.mention member) s))
  | JList items =>
      JList (map (fun item => replace_placeholders item member) items)
  | JDict kvs =>
      JDict (map (fun kv => let '(k, v) := kv in (k, replace_placeholders v member)) kvs)
  | _ => obj
  end.

(** ** The world the handlers run in *)

Module Interaction.
Record t := { guild_id : option Z; channel : Channel.t }.
End Interaction.

(** [str(x)] for an identifier that may be [None]. *)
Definition str_of_id (x : option Z) : string :=
  match x with
  | Some n => PyStr.of_int n
  | None => "None"
  end.

(** The state of [config.json]: it does not exist; or [json.load] reads
    [document] from it; or [json.load] rejects its text with [e]
    ([JSONDecodeError] for text that is cut off, [ValueError] for an
    integer literal beyond the limit of [int]).  What [json.load] reads
    holds no integer beyond that limit; where a statement depends on it,
    it says so of the document ([dumpable]). *)
Inductive file : Type :=
| Absent
| Holds (document : json)
| Unreadable (e : exc).

Section Bot.

(** The parts of the runtime and of the chat library the handlers call:
    [json.loads], which returns a value or raises,
    [discord.Embed.from_dict], and the text [str(e)] of an exception. *)
Variable json_loads : string -> result json.
Variable Embed : Type.
Variable Embed_from_dict : json -> result Embed.
Variable exc_str : exc -> string.

(** The calls a handler makes to the platform and to the logger, in the
    order it makes them.  The platform calls themselves are taken to
    succeed, except [add_roles], whose outcome the member record gives. *)
Inductive event : Type :=
| Respond (content : string) (ephemeral : bool)
| RespondEmbed (title description : string) (color : Z) (fields : list (string * string))
| ChannelSend (channel : Channel.t) (content : json) (embeds : list Embed)
| AddRoles (role : Role.t)
| LogError (message : string).

(** [config_file] is the state of [config.json]. *)
Record world : Type := { config_file : file; trace : list event }.

Definition M (A : Type) : Type := world -> result A * world.

Definition ret {A : Type} (a : A) : M A := fun w => (Ok a, w).

Definition bind {A B : Type} (m : M A) (k : A -> M B) : M B :=
  fun w =>
    match m w with
    | (Ok a, w') => k a w'
    | (Raise e, w') => (Raise e, w')
    end.

Definition lift {A : Type} (r : result A) : M A := fun w => (r, w).

Definition emit (e : event) : M unit :=
  fun w => (Ok tt, {| config_file := config_file w; trace := trace w ++ [e] |}).

(** [try: body except ...: handler]; what the body did before it raised stays done. *)
Definition try_except {A : Type} (body : M A) (handler : exc -> M A) : M A :=
  fun w =>
    match body w with
    | (Ok a, w') => (Ok a, w')
    | (Raise e, w') => handler e w'
    end.

Notation "x <- m ;; k" := (bind m (fun x => k))
  (at level 100, m at next level, right associativity).
Notation "m ;; k" := (bind m (fun _ => k))
  (at level 100, right associativity).

Definition load_config : M json :=
  fun w =>
    match config_file w with
    | Absent => (Ok (JDict []), w)
    | Holds document => (Ok document, w)
    | Unreadable e => (Raise e, w)
    end.

(** [open(CONFIG_FILE, 'w')] empties the file, and [json.dump] writes the
    text piece by piece; at the first integer that [str] refuses it raises
    [ValueError], and the file is left with the text written so far, which
    ends before the value of a key (or is empty) and so is rejected by
    [json.load] with [JSONDecodeError]. *)
Definition save_config (data : json) : M unit :=
  fun w =>
    if dumpable data
    then (Ok tt, {| config_file := Holds data; trace := trace w |})
    else (Raise ValueError,
          {| config_file := Unreadable JSONDecodeError; trace := trace w |}).

(** ** The theme merger *)

Definition set_color (primary_color : json) (embed_dict : json) : result json :=
  let* absent := py_not_in "color" embed_dict in
  if absent then py_setitem embed_dict "color" primary_color else Ok embed_dict.

Definition apply_theme (data : json) (guild_id : string) : M json :=
  config <- load_config ;;
  lift
    (let* no_guild := py_not_in guild_id config in
     let* no_theme :=
       if no_guild then Ok true
       else let* entry := py_getitem config guild_id in py_not_in "theme" entry in
     if no_theme then Ok data
     else
       let* entry := py_getitem config guild_id in
       let* theme := py_getitem entry "theme" in
       let* primary_color := py_get theme "primary" in
       if negb (truthy primary_color) then Ok data
       else
         let* has_embeds := py_in "embeds" data in
         if has_embeds then
           let* embeds := py_getitem data "embeds" in
           let* items := py_iter embeds in
           let* colored := comprehension (set_color primary_color) items in
           py_setitem data "embeds" (JList colored)
         else
           let* embed_like := py_any_in ["title"; "description"; "fields"] data in
           if embed_like then set_color primary_color data else Ok data).

(** ** Building the embeds of a message (the same statements in
    [on_member_join] and in [embed_command]) *)

Definition embeds_of (data : json) : result (list Embed) :=
  let* has_embeds := py_in "embeds" data in
  if has_embeds then
    let* embeds := py_getitem data "embeds" in
    let* items := py_iter embeds in
    comprehension Embed_from_dict items
  else
    let* embed_like := py_any_in ["title"; "description"; "fields"; "color"] data in
    if embed_like then let* e := Embed_from_dict data in Ok [e] else Ok [].

(** ** The member-join event *)

Definition on_member_join (member : Member.t) : M unit :=
  config <- load_config ;;
  let guild_id := PyStr.of_int (Guild.id (Member.guild member)) in
  absent <- lift (py_not_in guild_id config) ;;
  if absent then ret tt
  else
    settings <- lift (py_getitem config guild_id) ;;
    role_id <- lift (py_get settings "role_id") ;;
    (if truthy role_id then
       role <- lift (Guild.get_role (Member.guild member) role_id) ;;
       match role with
       | Some r =>
           try_except
             (emit (AddRoles r) ;; lift (Member.add_roles member r))
             (fun e =>
                if exc_isinstance e Forbidden
                then emit (LogError ("Cannot assign welcome role in "
                                       ++ PyStr.of_int (Guild.id (Member.guild member))))
                else lift (Raise e))
       | None => ret tt
       end
     else ret tt) ;;
    channel_id <- lift (py_get settings "channel_id") ;;
    configured <-
      (if truthy channel_id
       then embed_data <- lift (py_get settings "embed_data") ;; ret (truthy embed_data)
       else ret false) ;;
    if configured then
      channel <- lift (Guild.get_channel (Member.guild member) channel_id) ;;
      match channel with
      | Some ch =>
          try_except
            (raw_data <- lift (py_getitem settings "embed_data") ;;
             data <- apply_theme raw_data guild_id ;;
             let data := replace_placeholders data member in
             content <- lift (py_get data "content") ;;
             embeds <- lift (embeds_of data) ;;
             emit (ChannelSend ch content (firstn 10 embeds)))
            (fun e => emit (LogError ("Failed to send welcome message: " ++ exc_str e)))
      | None => ret tt
      end
    else ret tt.

(** ** The three commands *)

Definition theme_command (interaction : Interaction.t)
    (primary : string) (secondary : option string) : M unit :=
  try_except
    (p_int <- lift (PyStr.int16 (PyStr.strip "#" primary)) ;;
     s_int <- lift
       (match secondary with
        | Some s =>
            if truthy (JStr s)
            then let* n := PyStr.int16 (PyStr.strip "#" s) in Ok (Some n)
            else Ok None
        | None => Ok None
        end) ;;
     config <- load_config ;;
     let guild_id := str_of_id (Interaction.guild_id interaction) in
     absent <- lift (py_not_in guild_id config) ;;
     config <- (if absent then lift (py_setitem config guild_id (JDict [])) else ret config) ;;
     entry <- lift (py_getitem config guild_id) ;;
     entry <- lift
       (py_setitem entry "theme"
          (JDict [("primary", JInt p_int);
                  ("secondary", match s_int with Some n => JInt n | None => JNull end)])) ;;
     (* the entry was changed in place: the config holds the changed entry *)
     config <- lift (py_setitem config guild_id entry) ;;
     save_config config ;;
     emit (RespondEmbed "Theme Updated" ("Primary color set to " ++ primary) p_int
             (match s_int, secondary with
              | Some n, Some s => if negb (Z.eqb n 0) then [("Secondary", s)] else []
              | _, _ => []
              end)))
    (fun e =>
       if exc_isinstance e ValueError
       then emit (Respond "Invalid hex color format. Use format like #FF5733." true)
       else
         emit (LogError ("Theme error: " ++ exc_str e)) ;;
         emit (Respond "Failed to save theme." true)).

Definition embed_command (interaction : Interaction.t) (embed_json : string) : M unit :=
  try_except
    (data <- lift (json_loads embed_json) ;;
     data <- apply_theme data (str_of_id (Interaction.guild_id interaction)) ;;
     content <- lift (py_get data "content") ;;
     embeds <- lift (embeds_of data) ;;
     if negb (truthy content) && match embeds with [] => true | _ => false end
     then emit (Respond "JSON must contain 'content' or 'embeds'." true)
     else
       emit (Respond "Embed posted successfully." true) ;;
       emit (ChannelSend (Interaction.channel interaction) content (firstn 10 embeds)))
    (fun e =>
       if exc_isinstance e JSONDecodeError
       then emit (Respond "Error: Invalid JSON format." true)
       else
         emit (LogError ("Embed error: " ++ exc_str e)) ;;
         emit (Respond ("Error parsing data: " ++ exc_str e) true)).

Definition welcome_command (interaction : Interaction.t) (channel : Channel.t)
    (embed_json : string) (role : option Role.t) : M unit :=
  try_except
    (data <- lift (json_loads embed_json) ;;
     content <- lift (py_get data "content") ;;
     usable <-
       (if truthy content then ret true
        else
          embeds <- lift (py_get data "embeds") ;;
          if truthy embeds then ret true
          else title <- lift (py_get data "title") ;; ret (truthy title)) ;;
     if negb usable then emit (Respond "Invalid JSON." true)
     else
       config <- load_config ;;
       let guild_id := str_of_id (Interaction.guild_id interaction) in
       absent <- lift (py_not_in guild_id config) ;;
       config <- (if absent then lift (py_setitem config guild_id (JDict [])) else ret config) ;;
       entry <- lift (py_getitem config guild_id) ;;
       entry <- lift
         (py_update entry
            [("channel_id", JInt (Channel.id channel));
             ("embed_data", data);
             ("role_id", match role with Some r => JInt (Role.id r) | None => JNull end)]) ;;
       (* the entry was changed in place: the config holds the changed entry *)
       config <- lift (py_setitem config guild_id entry) ;;
       save_config config ;;
       emit (Respond ("Welcome message set to " ++ Channel.mention channel ++ ".") false))
    (fun e =>
       if exc_isinstance e JSONDecodeError
       then emit (Respond "Error: Invalid JSON format." true)
       else lift (Raise e)).

End Bot.

Arguments Respond {Embed} content ephemeral.
Arguments RespondEmbed {Embed} title description color fields.
Arguments ChannelSend {Embed} channel content embeds.
Arguments AddRoles {Embed} role.
Arguments LogError {Embed} message.
Arguments Build_world {Embed} config_file trace.
Arguments config_file {Embed} w.
Arguments trace {Embed} w.
Arguments ret {Embed A} a _.
Arguments bind {Embed A B} m k _.
Arguments lift {Embed A} r _.
Arguments emit {Embed} e _.
Arguments try_except {Embed A} body handler _.
Arguments load_config {Embed} _.
Arguments save_config {Embed} data _.
Arguments apply_theme {Embed} data guild_id _.
Arguments embeds_of {Embed} Embed_from_dict data.
Arguments on_member_join {Embed} Embed_from_dict exc_str member _.
Arguments theme_command {Embed} exc_str interaction primary secondary _.
Arguments embed_command json_loads {Embed} Embed_from_dict exc_str interaction embed_json _.
Arguments welcome_command json_loads {Embed} interaction channel embed_json role _.

(** [load_config()] returns: the file is absent, or it holds a document. *)
Definition readable {Embed : Type} (w : world Embed) : bool :=
  match config_file w with
  | Unreadable _ => false
  | _ => true
  end.

(** What [load_config()] returns or raises. *)
Definition loaded {Embed : Type} (w : world Embed) : result json :=
  match config_file w with
  | Absent => Ok (JDict [])
  | Holds d => Ok d
  | Unreadable e => Raise e
  end.

(** The document the handlers read: [load_config()] as a function of the
    world.  Where [load_config()] raises there is no document, and
    [JNull] stands in: no object, so nothing a store is asked to be. *)
Definition document {Embed : Type} (w : world Embed) : json :=
  match config_file w with
  | Absent => JDict []
  | Holds d => d
  | Unreadable _ => JNull
  end.

(** ** A concrete runtime for running the handlers

    The theorems below hold for every [json_loads], [Embed.from_dict] and
    [str(e)].  To run a handler on a concrete command they are instantiated
    here: [Runtime.loads] decodes the JSON documents written without
    fractions, exponents and [\u] escapes (it raises [JSONDecodeError] on
    everything else), an embed is represented by the dict it was built
    from, and an exception prints as its class name. *)

Module Runtime.

Definition dquote : ascii := ascii_of_nat 34.
Definition backslash : ascii := ascii_of_nat 92.

(** JSON text is written with ['] for the double quote in the examples. *)
Fixpoint q (s : string) : string :=
  match s with
  | EmptyString => EmptyString
  | String c s' => String (if Ascii.eqb c "'" then dquote else c) (q s')
  end.

Definition is_ws (c : ascii) : bool :=
  let n := nat_of_ascii c in
  (n =? 32)%nat || (n =? 9)%nat || (n =? 10)%nat || (n =? 13)%nat.

Fixpoint skip_ws (s : string) : string :=
  match s with
  | String c s' => if is_ws c then skip_ws s' else s
  | EmptyString => EmptyString
  end.

Definition unescape (c : ascii) : option ascii :=
  if Ascii.eqb c dquote then Some dquote
  else if Ascii.eqb c backslash then Some backslash
  else if Ascii.eqb c "/" then Some "/"%char
  else if Ascii.eqb c "b" then Some (ascii_of_nat 8)
  else if Ascii.eqb c "f" then Some (ascii_of_nat 12)
  else if Ascii.eqb c "n" then Some (ascii_of_nat 10)
  else if Ascii.eqb c "r" then Some (ascii_of_nat 13)
  else if Ascii.eqb c "t" then Some (ascii_of_nat 9)
  else None.

(** The characters of a string literal after its opening quote. *)
Fixpoint scan_string (s : string) : option (string * string) :=
  match s with
  | EmptyString => None
  | String c s' =>
      if Ascii.eqb c dquote then Some (EmptyString, s')
      else if Ascii.eqb c backslash then
        match s' with
        | String e s'' =>
            match unescape e, scan_string s'' with
            | Some c', Some (body, rest) => Some (String c' body, rest)
            | _, _ => None
            end
        | EmptyString => None
        end
      else if (nat_of_ascii c <? 32)%nat then None
      else
        match scan_string s' with
        | Some (body, rest) => Some (String c body, rest)
        | None => None
        end
  end.

Definition decimal_digit (c : ascii) : option Z :=
  let n := Z.of_nat (nat_of_ascii c) in
  if ((48 <=? n) && (n <=? 57))%Z then Some (n - 48)%Z else None.

Fixpoint scan_decimal (s : string) (acc : Z) : Z * string :=
  match s with
  | String c s' =>
      match decimal_digit c with
      | Some d => scan_decimal s' (10 * acc + d)%Z
      | None => (acc, s)
      end
  | EmptyString => (acc, s)
  end.

(** An integer literal: [0], or a non-zero digit and more digits; a
    fraction or an exponent after it is outside the subset. *)
Definition scan_integer (s : string) : option (Z * string) :=
  match s with
  | String c s' =>
      match decimal_digit c with
      | Some d =>
          let '(n, rest) := if (d =? 0)%Z then (0%Z, s') else scan_decimal s' d in
          match rest with
          | String x _ =>
              if Ascii.eqb x "." || Ascii.eqb x "e" || Ascii.eqb x "E"
              then None else Some (n, rest)
          | EmptyString => Some (n, rest)
          end
      | None => None
      end
  | EmptyString => None
  end.

(** An integer as [int] reads it: a literal beyond the limit is refused
    with [ValueError] where it stands. *)
Definition integer (negative : bool) (s : string) : result (json * string) :=
  match scan_integer s with
  | Some (n, rest) =>
      if PyInt.convertible n
      then Ok (JInt (if negative then - n else n), rest)
      else Raise ValueError
  | None => Raise JSONDecodeError
  end.

Fixpoint value (fuel : nat) (s : string) : result (json * string) :=
  match fuel with
  | O => Raise JSONDecodeError
  | S fuel' =>
      match skip_ws s with
      | String c r =>
          if Ascii.eqb c "n" then
            if String.prefix "ull" r then Ok (JNull, PyStr.drop 3 r)
            else Raise JSONDecodeError
          else if Ascii.eqb c "t" then
            if String.prefix "rue" r then Ok (JBool true, PyStr.drop 3 r)
            else Raise JSONDecodeError
          else if Ascii.eqb c "f" then
            if String.prefix "alse" r then Ok (JBool false, PyStr.drop 4 r)
            else Raise JSONDecodeError
          else if Ascii.eqb c dquote then
            match scan_string r with
            | Some (body, rest) => Ok (JStr body, rest)
            | None => Raise JSONDecodeError
            end
          else if Ascii.eqb c "[" then
            match skip_ws r with
            | String "]" rest => Ok (JList [], rest)
            | _ => elements fuel' r []
            end
          else if Ascii.eqb c "{" then
            match skip_ws r with
            | String "}" rest => Ok (JDict [], rest)
            | _ => members fuel' r []
            end
          else if Ascii.eqb c "-" then integer true r
          else integer false (String c r)
      | EmptyString => Raise JSONDecodeError
      end
  end
with elements (fuel : nat) (s : string) (seen : list json) : result (json * string) :=
  match fuel with
  | O => Raise JSONDecodeError
  | S fuel' =>
      match value fuel' s with
      | Ok (v, rest) =>
          match skip_ws rest with
          | String "," rest' => elements fuel' rest' (v :: seen)
          | String "]" rest' => Ok (JList (rev (v :: seen)), rest')
          | _ => Raise JSONDecodeError
          end
      | Raise e => Raise e
      end
  end
with members (fuel : nat) (s : string) (seen : list (string * json)) : result (json * string) :=
  match fuel with
  | O => Raise JSONDecodeError
  | S fuel' =>
      match skip_ws s with
      | String c r =>
          if Ascii.eqb c dquote then
            match scan_string r with
            | Some (key, rest) =>
                match skip_ws rest with
                | String ":" rest' =>
                    match value fuel' rest' with
                    | Ok (v, rest'') =>
                        match skip_ws rest'' with
                        | String "," more => members fuel' more (PyDict.set key v seen)
                        | String "}" more => Ok (JDict (PyDict.set key v seen), more)
                        | _ => Raise JSONDecodeError
                        end
                    | Raise e => Raise e
                    end
                | _ => Raise JSONDecodeError
                end
            | None => Raise JSONDecodeError
            end
          else Raise JSONDecodeError
      | EmptyString => Raise JSONDecodeError
      end
  end.

Definition loads (s : string) : result json :=
  match value (S (String.length s)) s with
  | Ok (v, rest) =>
      match skip_ws rest with
      | EmptyString => Ok v
      | _ => Raise JSONDecodeError
      end
  | Raise e => Raise e
  end.

Definition Embed : Type := json.

Definition from_dict (data : json) : result Embed :=
  match data with
  | JDict _ => Ok data
  | _ => Raise AttributeError
  end.

Definition exc_str (e : exc) : string :=
  match e with
  | ValueError => "ValueError"
  | JSONDecodeError => "JSONDecodeError"
  | TypeError => "TypeError"
  | AttributeError => "AttributeError"
  | KeyError => "KeyError"
  | HTTPException => "HTTPException"
  | Forbidden => "Forbidden"
  end.

End Runtime.

(** ** Concrete guilds, channels and members for the scenarios *)

Module Scenario.

Definition channel (n : Z) : Channel.t :=
  {| Channel.id := n; Channel.mention := "<#" ++ PyStr.of_int n ++ ">" |}.

Definition role (n : Z) : Role.t := {| Role.id := n |}.

(** A guild that knows the listed roles and channels by their integer
    identifiers and nothing else. *)
Definition guild (n : Z) (roles channels : list Z) : Guild.t :=
  {| Guild.id := n;
     Guild.get_role := fun x =>
       match x with
       | JInt r => Ok (if existsb (Z.eqb r) roles then Some (role r) else None)
       | _ => Ok None
       end;
     Guild.get_channel := fun x =>
       match x with
       | JInt c => Ok (if existsb (Z.eqb c) channels then Some (channel c) else None)
       | _ => Ok None
       end |}.

(** The member with the given user identifier, whose roles can be set. *)
Definition member (user_id : Z) (name : string) (g : Guild.t) : Member.t :=
  {| Member.id := user_id;
     Member.name := name;
     Member.guild := g;
     Member.add_roles := fun _ => Ok tt |}.

(** A world whose configuration file holds [store], with nothing done yet. *)
Definition world_with (store : json) : world Runtime.Embed :=
  {| config_file := Holds store; trace := [] |}.

(** The world before the configuration file exists. *)
Definition fresh_world : world Runtime.Embed :=
  {| config_file := Absent; trace := [] |}.

(** The world after a write of the configuration file has failed. *)
Definition torn_world : world Runtime.Embed :=
  {| config_file := Unreadable JSONDecodeError; trace := [] |}.

(** [c * n]: the string of [n] copies of a character. *)
Fixpoint copies (n : nat) (c : ascii) : string :=
  match n with
  | O => EmptyString
  | S k => String c (copies k c)
  end.

(** The string whose UTF-8 encoding is the given bytes. *)
Definition utf8 (bytes : list nat) : string :=
  string_of_list_ascii (map ascii_of_nat bytes).

(** An interaction in guild [g], invoked in channel [c]. *)
Definition interaction (g c : Z) : Interaction.t :=
  {| Interaction.guild_id := Some g; Interaction.channel := channel c |}.

(** The store after [theme primary:#000000] in guild 1. *)
Definition black_theme_store : json :=
  JDict [("1", JDict [("theme", JDict [("primary", JInt 0); ("secondary", JNull)])])].

End Scenario.

(** ** What the specification says, in its own words *)

Module Spec.

(** One pass over a string leaf: an occurrence of [{user}] becomes the
    mention token, an occurrence of [{username}] becomes the plain name,
    every other character stays.  (Occurrences of the two tokens never
    overlap, so the pass is the only reading of "every occurrence".) *)
Fixpoint expand_from (mention name : string) (skip : nat) (s : string) : string :=
  match s with
  | EmptyString => EmptyString
  | String c s' =>
      match skip with
      | S k => expand_from mention name k s'
      | O =>
          if String.prefix "{user}" s then mention ++ expand_from mention name 5 s'
          else if String.prefix "{username}" s then name ++ expand_from mention name 9 s'
          else String c (expand_from mention name 0 s')
      end
  end.

Definition expand (member : Member.t) (s : string) : string :=
  expand_from (Member.mention member) (Member.name member) 0 s.

(** The structurally identical value with [f] applied to every string leaf. *)
Fixpoint map_strings (f : string -> string) (v : json) : json :=
  match v with
  | JStr s => JStr (f s)
  | JList items => JList (map (map_strings f) items)
  | JDict kvs => JDict (map (fun kv => (fst kv, map_strings f (snd kv))) kvs)
  | _ => v
  end.

Definition has_token (s : string) : bool :=
  PyStr.contains "{user}" s || PyStr.contains "{username}" s.

(** No string leaf contains a token. *)
Fixpoint token_free (v : json) : bool :=
  match v with
  | JStr s => negb (has_token s)
  | JList items => forallb token_free items
  | JDict kvs => forallb (fun kv => token_free (snd kv)) kvs
  | _ => true
  end.

(** The shape of a value: its tree with the contents of the scalars erased. *)
Unset Elimination Schemes.
Inductive shape : Type :=
| SNull | SBool | SInt | SFloat | SStr
| SList (items : list shape)
| SDict (kvs : list (string * shape)).

Fixpoint shape_of (v : json) : shape :=
  match v with
  | JNull => SNull
  | JBool _ => SBool
  | JInt _ => SInt
  | JFloat _ => SFloat
  | JStr _ => SStr
  | JList items => SList (map shape_of items)
  | JDict kvs => SDict (map (fun kv => (fst kv, shape_of (snd kv))) kvs)
  end.

(** [only_tokens_changed v w]: [w] is [v] except, possibly, in string
    leaves of [v] that contain a token. *)
Inductive only_tokens_changed : json -> json -> Prop :=
| otc_null : only_tokens_changed JNull JNull
| otc_bool b : only_tokens_changed (JBool b) (JBool b)
| otc_int z : only_tokens_changed (JInt z) (JInt z)
| otc_float f : only_tokens_changed (JFloat f) (JFloat f)
| otc_str s s' :
    (has_token s = false -> s' = s) ->
    only_tokens_changed (JStr s) (JStr s')
| otc_list items items' :
    Forall2 only_tokens_changed items items' ->
    only_tokens_changed (JList items) (JList items')
| otc_dict kvs kvs' :
    Forall2 (fun kv kv' => fst kv = fst kv' /\ only_tokens_changed (snd kv) (snd kv')) kvs kvs' ->
    only_tokens_changed (JDict kvs) (JDict kvs').
Set Elimination Schemes.

Fixpoint has_char (c : ascii) (s : string) : bool :=
  match s with
  | EmptyString => false
  | String a s' => Ascii.eqb a c || has_char c s'
  end.

(** A mention token the way the platform writes it, [<@id>]: it begins
    with a character that does not occur in [{username}], and no [{]
    occurs in it. *)
Definition plain_mention (m : string) : bool :=
  match m with
  | EmptyString => false
  | String h _ => negb (has_char h "{username}") && negb (has_char "{" m)
  end.

Definition is_dict (v : json) : bool :=
  match v with
  | JDict _ => true
  | _ => false
  end.

(** The store is an object of guild entries and the guild's entry, if
    there is one, is an object. *)
Definition entry_ok (config : json) (guild_id : string) : bool :=
  match config with
  | JDict guilds =>
      match PyDict.lookup guild_id guilds with
      | None => true
      | Some entry => is_dict entry
      end
  | _ => false
  end.

(** The fields of the guild's entry, none if the guild has no entry. *)
Definition entry_of (config : json) (guild_id : string) : list (string * json) :=
  match config with
  | JDict guilds =>
      match PyDict.lookup guild_id guilds with
      | Some (JDict entry) => entry
      | _ => []
      end
  | _ => []
  end.

(** The store with the guild's entry replaced. *)
Definition with_entry (config : json) (guild_id : string) (entry : list (string * json)) : json :=
  match config with
  | JDict guilds => JDict (PyDict.set guild_id (JDict entry) guilds)
  | _ => config
  end.

(** The store, as far as one guild's theme goes, is built the way the
    commands build it: an object of guild entries, the guild's entry (if
    any) an object, its theme (if any) an object. *)
Definition store_ok (config : json) (guild_id : string) : bool :=
  match config with
  | JDict guilds =>
      match PyDict.lookup guild_id guilds with
      | None => true
      | Some (JDict entry) =>
          match PyDict.lookup "theme" entry with
          | None => true
          | Some theme => is_dict theme
          end
      | Some _ => false
      end
  | _ => false
  end.

(** The primary color stored for the guild: [None] when the guild has no
    stored theme, [Some JNull] when the theme has no primary color. *)
Definition stored_primary (config : json) (guild_id : string) : option json :=
  match config with
  | JDict guilds =>
      match PyDict.lookup guild_id guilds with
      | Some (JDict entry) =>
          match PyDict.lookup "theme" entry with
          | Some (JDict theme) =>
              Some (match PyDict.lookup "primary" theme with
                    | Some c => c
                    | None => JNull
                    end)
          | _ => None
          end
      | _ => None
      end
  | _ => None
  end.

(** A message payload: an object whose [embeds], when present, is a list
    of objects. *)
Definition payload_ok (data : json) : bool :=
  match data with
  | JDict kvs =>
      match PyDict.lookup "embeds" kvs with
      | None => true
      | Some (JList embeds) => forallb is_dict embeds
      | Some _ => false
      end
  | _ => false
  end.

(** Set [color] on an embed-shaped object only if it does not define one. *)
Definition color_if_absent (c : json) (embed : json) : json :=
  match embed with
  | JDict kvs =>
      if PyDict.has_key "color" kvs then embed
      else JDict (PyDict.set "color" c kvs)
  | _ => embed
  end.

(** The payload with the color merged into each embed-shaped object: the
    elements of the list under [embeds], or else the payload itself if it
    carries one of the keys [title], [description], [fields]. *)
Definition merge_color (c : json) (payload : json) : json :=
  match payload with
  | JDict kvs =>
      match PyDict.lookup "embeds" kvs with
      | Some (JList embeds) =>
          JDict (PyDict.set "embeds" (JList (map (color_if_absent c) embeds)) kvs)
      | Some _ => payload
      | None =>
          if PyDict.has_key "title" kvs || PyDict.has_key "description" kvs
             || PyDict.has_key "fields" kvs
          then color_if_absent c payload
          else payload
      end
  | _ => payload
  end.


(** The value the theme command reads from a hex-color string. *)
Definition hex_color (s : string) : result Z := PyStr.int16 (PyStr.strip "#" s).

(** The value it reads from the optional secondary color: an absent or
    empty string is not parsed and stands for no color. *)
Definition secondary_color (secondary : option string) : result (option Z) :=
  match secondary with
  | Some s =>
      if String.eqb s "" then Ok None
      else match hex_color s with
           | Ok n => Ok (Some n)
           | Raise e => Raise e
           end
  | None => Ok None
  end.

(** The theme object the command stores. *)
Definition theme_object (p : Z) (s : option Z) : json :=
  JDict [("primary", JInt p);
         ("secondary", match s with Some n => JInt n | None => JNull end)].

(** [d.get(k)] on the fields of an object. *)
Definition get (k : string) (kvs : list (string * json)) : json :=
  match PyDict.lookup k kvs with
  | Some v => v
  | None => JNull
  end.

(** The welcome command's test on the payload, as the claim words it (one
    of the keys is there) and as the command makes it (one of them holds a
    truthy value). *)
Definition has_welcome_key (kvs : list (string * json)) : bool :=
  PyDict.has_key "content" kvs || PyDict.has_key "embeds" kvs || PyDict.has_key "title" kvs.

Definition has_welcome_content (kvs : list (string * json)) : bool :=
  truthy (get "content" kvs) || truthy (get "embeds" kvs) || truthy (get "title" kvs).

(** The three fields the welcome command stores. *)
Definition welcome_fields (channel : Channel.t) (data : json) (role : option Role.t)
  : list (string * json) :=
  [("channel_id", JInt (Channel.id channel));
   ("embed_data", data);
   ("role_id", match role with Some r => JInt (Role.id r) | None => JNull end)].

(** "A primary color is configured", read as presence: the theme stores a
    value for it. *)
Definition present (c : json) : bool :=
  match c with
  | JNull => false
  | _ => true
  end.

End Spec.

(** ** The rest of the program: the error hook and the way a command runs *)

(** The errors the command tree hands to its error hook: a failed
    permission check, or an exception raised by the command's body. *)
Inductive app_error : Type :=
| MissingPermissions
| CommandInvokeError (original : exc).

Section Hook.

Variable Embed : Type.

(** The text [f"{error}"] of an error. *)
Variable error_str : app_error -> string.

Definition is_response (e : event Embed) : bool :=
  match e with
  | Respond _ _ | RespondEmbed _ _ _ _ => true
  | _ => false
  end.

(** [MyBot.on_tree_error]; [is_done] is [interaction.response.is_done()]. *)
Definition on_tree_error (is_done : bool) (error : app_error) : M Embed unit :=
  match error with
  | MissingPermissions =>
      emit (Respond "You need Administrator permissions to use this command." true)
  | _ =>
      bind (emit (LogError ("Interaction error: " ++ error_str error)))
        (fun _ =>
           if negb is_done
           then emit (Respond "An internal error occurred." true)
           else ret tt)
  end.

(** A command as the tree runs it: the check installed by
    [has_permissions(administrator=True)] first; then the body; an
    exception that leaves the body goes to the error hook, which sees
    whether the body has already answered. *)
Definition run_command (administrator : bool) (body : M Embed unit) : M Embed unit :=
  fun w =>
    if negb administrator then on_tree_error false MissingPermissions w
    else
      match body w with
      | (Ok a, w') => (Ok a, w')
      | (Raise e, w') =>
          on_tree_error
            (existsb is_response (skipn (List.length (trace w)) (trace w')))
            (CommandInvokeError e) w'
      end.

End Hook.

Arguments is_response {Embed} e.
Arguments on_tree_error {Embed} error_str is_done error _.
Arguments run_command {Embed} error_str administrator body _.

(** ** The two halves of the theme merger *)

(** The guards of [apply_theme] (lines 43 to 49): the primary color to
    merge, [None] when the payload is to be returned as it is. *)
Definition color_to_merge (config : json) (guild_id : string) : result (option json) :=
  let* no_guild := py_not_in guild_id config in
  let* no_theme :=
    if no_guild then Ok true
    else let* entry := py_getitem config guild_id in py_not_in "theme" entry in
  if no_theme then Ok None
  else
    let* entry := py_getitem config guild_id in
    let* theme := py_getitem entry "theme" in
    let* primary_color := py_get theme "primary" in
    if negb (truthy primary_color) then Ok None else Ok (Some primary_color).

(** The statements after the guards (lines 51 to 61). *)
Definition color_payload (primary_color : json) (data : json) : result json :=
  let* has_embeds := py_in "embeds" data in
  if has_embeds then
    let* embeds := py_getitem data "embeds" in
    let* items := py_iter embeds in
    let* colored := comprehension (set_color primary_color) items in
    py_setitem data "embeds" (JList colored)
  else
    let* embed_like := py_any_in ["title"; "description"; "fields"] data in
    if embed_like then set_color primary_color data else Ok data.

(** The merger as a function of the document it loads. *)
Definition themed (config : json) (guild_id : string) (data : json) : result json :=
  let* c := color_to_merge config guild_id in
  match c with
  | Some primary_color => color_payload primary_color data
  | None => Ok data
  end.

(** The content and the embeds a handler reads off a payload before it
    sends it (lines 108 to 113 and 168 to 173). *)
Definition message_of {Embed : Type} (Embed_from_dict : json -> result Embed) (data : json)
  : result (json * list Embed) :=
  let* content := py_get data "content" in
  let* embeds := embeds_of Embed_from_dict data in
  Ok (content, embeds).

Section Outcomes.

Variable Embed : Type.
Variable Embed_from_dict : json -> result Embed.
Variable exc_str : exc -> string.

(** What the embed command does, input by input: the events it adds,
    given what [json.loads] and [load_config] return or raise. *)
Definition embed_events (i : Interaction.t) (stored decoded : result json)
  : list (event Embed) :=
  match (let* v := decoded in
         let* config := stored in
         let* data := themed config (str_of_id (Interaction.guild_id i)) v in
         message_of Embed_from_dict data) with
  | Ok (content, embeds) =>
      if negb (truthy content) && match embeds with [] => true | _ => false end
      then [Respond "JSON must contain 'content' or 'embeds'." true]
      else [Respond "Embed posted successfully." true;
            ChannelSend (Interaction.channel i) content (firstn 10 embeds)]
  | Raise e =>
      if exc_isinstance e JSONDecodeError
      then [Respond "Error: Invalid JSON format." true]
      else [LogError ("Embed error: " ++ exc_str e);
            Respond ("Error parsing data: " ++ exc_str e) true]
  end.

End Outcomes.

Arguments embed_events {Embed} Embed_from_dict exc_str i stored decoded.

(** ** Observations on traces, stores and color strings *)

Module Obs.

Section Events.

Context {Embed : Type}.

Definition is_send (e : event Embed) : bool :=
  match e with
  | ChannelSend _ _ _ => true
  | _ => false
  end.

Definition is_role_attempt (e : event Embed) : bool :=
  match e with
  | AddRoles _ => true
  | _ => false
  end.

(** A reply that only the caller sees. *)
Definition is_private (e : event Embed) : bool :=
  match e with
  | Respond _ ephemeral => ephemeral
  | _ => false
  end.

Definition count (p : event Embed -> bool) (evs : list (event Embed)) : nat :=
  List.length (filter p evs).

(** Every message sent carries at most ten embeds. *)
Definition embeds_capped (evs : list (event Embed)) : Prop :=
  forall ch content embeds,
    In (ChannelSend ch content embeds) evs -> (List.length embeds <= 10)%nat.

(** Events of a handler that answers nobody: no reply, at most [roles]
    role assignments tried, at most [sends] messages sent, each with at
    most ten embeds. *)
Definition quiet (roles sends : nat) (evs : list (event Embed)) : Prop :=
  count is_response evs = 0%nat
  /\ (count is_role_attempt evs <= roles)%nat
  /\ (count is_send evs <= sends)%nat
  /\ embeds_capped evs.

(** A computation that leaves the configuration file alone and adds to
    the trace events that satisfy [P]. *)
Definition appends {A : Type} (P : list (event Embed) -> Prop) (m : M Embed A) : Prop :=
  forall w,
    exists r evs,
      m w = (r, {| config_file := config_file w; trace := trace w ++ evs |}) /\ P evs.

End Events.

(** The entry the store holds for a guild, if any. *)
Definition entry (config : json) (guild_id : string) : option json :=
  match config with
  | JDict guilds => PyDict.lookup guild_id guilds
  | _ => None
  end.

(** A string of base-16 digits and the number it writes. *)
Fixpoint all_hex (ds : string) : bool :=
  match ds with
  | EmptyString => true
  | String c r =>
      match PyStr.hex_digit c with
      | Some _ => all_hex r
      | None => false
      end
  end.

Fixpoint hex_value_from (acc : Z) (ds : string) : Z :=
  match ds with
  | EmptyString => acc
  | String c r =>
      match PyStr.hex_digit c with
      | Some d => hex_value_from (16 * acc + d) r
      | None => acc
      end
  end.

Definition hex_value (ds : string) : Z := hex_value_from 0 ds.

(** A JSON value that is neither a string nor a container. *)
Definition is_plain_scalar (v : json) : bool :=
  match v with
  | JNull | JBool _ | JInt _ | JFloat _ => true
  | _ => false
  end.

(** A payload the merger cannot color: a plain scalar, or an object whose
    [embeds] is a plain scalar or a list with a plain scalar in it. *)
Definition unmergeable (data : json) : bool :=
  match data with
  | JDict kvs =>
      match PyDict.lookup "embeds" kvs with
      | Some (JList embeds) => existsb is_plain_scalar embeds
      | Some e => is_plain_scalar e
      | None => false
      end
  | _ => is_plain_scalar data
  end.

(** What [x[k] = v] or [x.update(...)] raises on an entry that is no
    object, in a store that is one; a store that is no object raises
    [TypeError] before. *)
Definition update_error (config : json) : exc :=
  match config with
  | JDict _ => AttributeError
  | _ => TypeError
  end.

(** An object with none of the keys that make a payload carry embeds. *)
Definition no_embed_keys (kvs : list (string * json)) : bool :=
  negb (PyDict.has_key "embeds" kvs || PyDict.has_key "title" kvs
        || PyDict.has_key "description" kvs || PyDict.has_key "fields" kvs
        || PyDict.has_key "color" kvs).

(** An entry whose welcome half is switched off: the channel or the
    payload is missing, null, 0 or empty. *)
Definition welcome_disabled (fields : list (string * json)) : bool :=
  negb (truthy (Spec.get "channel_id" fields) && truthy (Spec.get "embed_data" fields)).

(** The exceptions the operations on JSON values raise. *)
Definition is_lookup_error (e : exc) : bool :=
  match e with
  | TypeError | AttributeError | KeyError => true
  | _ => false
  end.

(** The color the merger works with on a well-built store: the stored
    primary color when it is truthy. *)
Definition merged_color (config : json) (guild_id : string) : option json :=
  match Spec.stored_primary config guild_id with
  | Some c => if truthy c then Some c else None
  | None => None
  end.

End Obs.

(** * Properties *)

(** ** Strings *)

Lemma prefix_cons (a c : ascii) (p s : string) :
  String.prefix (String a p) (String c s) = Ascii.eqb a c && String.prefix p s.
Proof.
  simpl. destruct (ascii_dec a c) as [->|Hne].
  - now rewrite Ascii.eqb_refl.
  - destruct (Ascii.eqb_spec a c); [contradiction | reflexivity].
Qed.

Lemma prefix_split (p s : string) :
  String.prefix p s = true -> s = (p ++ PyStr.drop (String.length p) s)%string.
Proof.
  revert s. induction p as [|a p IH]; intros s H.
  - now destruct s.
  - destruct s as [|c s]; [discriminate|].
    rewrite prefix_cons in H. apply andb_prop in H as [Hac Hp].
    apply Ascii.eqb_eq in Hac. subst c. simpl. f_equal. now apply IH.
Qed.

Lemma replace_from_skip (old new r s : string) :
  PyStr.replace_from old new (String.length r) (r ++ s)%string
  = PyStr.replace_from old new 0 s.
Proof.
  induction r as [|c r IH]; simpl.
  - now destruct s.
  - exact IH.
Qed.

(** The defining equations of [str.replace]. *)
Lemma replace_nil (old new : string) : PyStr.replace old new "" = "".
Proof. reflexivity. Qed.

Lemma replace_hit (old new rest : string) :
  old <> "" ->
  PyStr.replace old new (old ++ rest)%string = (new ++ PyStr.replace old new rest)%string.
Proof.
  intros Hne. destruct old as [|a old]; [contradiction|].
  unfold PyStr.replace.
  change (String a old ++ rest)%string with (String a (old ++ rest)%string).
  cbn [PyStr.replace_from].
  assert (Hp : String.prefix (String a old) (String a (old ++ rest)%string) = true).
  { clear. rewrite prefix_cons, Ascii.eqb_refl. simpl.
    induction old as [|b old IH]; [now destruct rest|].
    change (String b old ++ rest)%string with (String b (old ++ rest)%string).
    now rewrite prefix_cons, Ascii.eqb_refl. }
  rewrite Hp. f_equal.
  cbn [String.length]. rewrite Nat.sub_1_r. cbn [Nat.pred].
  apply replace_from_skip.
Qed.

Lemma replace_miss (old new : string) (c : ascii) (s : string) :
  String.prefix old (String c s) = false ->
  PyStr.replace old new (String c s) = String c (PyStr.replace old new s).
Proof. intros H. unfold PyStr.replace. cbn [PyStr.replace_from]. now rewrite H. Qed.

Lemma replace_absent (old new s : string) :
  PyStr.contains old s = false -> PyStr.replace old new s = s.
Proof.
  induction s as [|c s IH]; intros H; [reflexivity|].
  cbn [PyStr.contains] in H. apply orb_false_elim in H as [Hp Hc].
  rewrite replace_miss by assumption. f_equal. now apply IH.
Qed.

Lemma has_char_false_cons (h a : ascii) (p : string) :
  Spec.has_char h (String a p) = false -> a <> h /\ Spec.has_char h p = false.
Proof.
  cbn [Spec.has_char]. intros H. apply orb_false_elim in H as [Ha Hp].
  split; [|exact Hp]. intros ->. now rewrite Ascii.eqb_refl in Ha.
Qed.

(** A string none of whose characters opens the pattern passes through
    [replace] untouched, whatever follows it. *)
Lemma replace_through (a : ascii) (old new m x : string) :
  Spec.has_char a m = false ->
  PyStr.replace (String a old) new (m ++ x)%string
  = (m ++ PyStr.replace (String a old) new x)%string.
Proof.
  induction m as [|b m IH]; intros H; [reflexivity|].
  apply has_char_false_cons in H as [Hba Hm].
  change (String b m ++ x)%string with (String b (m ++ x)%string).
  rewrite replace_miss.
  - cbn [append]. f_equal. now apply IH.
  - rewrite prefix_cons. destruct (Ascii.eqb_spec a b); [congruence | reflexivity].
Qed.

(** If a pattern [p] shows at the head of [s.replace(old, h :: m)] and the
    character [h] does not occur in [p], then [p] was at the head of [s]. *)
Lemma prefix_of_replace (old : string) (h : ascii) (m p : string) :
  Spec.has_char h p = false ->
  forall s,
    String.prefix p (PyStr.replace old (String h m) s) = true ->
    String.prefix p s = true.
Proof.
  induction p as [|a p IH]; intros Hh s H.
  - now destruct s.
  - apply has_char_false_cons in Hh as [Hah Hp].
    destruct s as [|c s]; [discriminate|].
    unfold PyStr.replace in H. cbn [PyStr.replace_from] in H.
    destruct (String.prefix old (String c s)).
    + change (String h m ++ ?t)%string with (String h (m ++ t)%string) in H.
      rewrite prefix_cons in H. apply andb_prop in H as [H _].
      apply Ascii.eqb_eq in H. contradiction.
    + rewrite prefix_cons in H |- *. apply andb_prop in H as [Hac H].
      rewrite Hac. cbn [andb]. now apply IH.
Qed.

(** ** C1: sequential replacement is the one-pass expansion *)

Section Expansion.

Variable member : Member.t.

Local Abbreviation R1 := (PyStr.replace "{user}" (Member.mention member)).
Local Abbreviation R2 := (PyStr.replace "{username}" (Member.name member)).

(** How the three functions move over the two tokens: plain evaluation. *)
Lemma expand_hit_user (rest : string) :
  Spec.expand member ("{user}" ++ rest)%string
  = (Member.mention member ++ Spec.expand member rest)%string.
Proof. destruct rest; reflexivity. Qed.

Lemma expand_hit_username (rest : string) :
  Spec.expand member ("{username}" ++ rest)%string
  = (Member.name member ++ Spec.expand member rest)%string.
Proof. destruct rest; reflexivity. Qed.

Lemma user_pass_over_username (rest : string) :
  R1 ("{username}" ++ rest)%string = ("{username}" ++ R1 rest)%string.
Proof. destruct rest; reflexivity. Qed.

Lemma expand_miss (c : ascii) (s : string) :
  String.prefix "{user}" (String c s) = false ->
  String.prefix "{username}" (String c s) = false ->
  Spec.expand member (String c s) = String c (Spec.expand member s).
Proof.
  intros HT HU. unfold Spec.expand. cbn [Spec.expand_from]. now rewrite HT, HU.
Qed.

(** A leaf without a token is its own one-pass expansion. *)
Lemma expand_without_token (s : string) :
  Spec.has_token s = false -> Spec.expand member s = s.
Proof.
  unfold Spec.has_token. induction s as [|c s IH]; intros H; [reflexivity|].
  apply orb_false_elim in H as [HT HU].
  cbn [PyStr.contains] in HT, HU.
  apply orb_false_elim in HT as [HT HT'], HU as [HU HU'].
  rewrite expand_miss by assumption. f_equal. apply IH.
  now rewrite HT', HU'.
Qed.

Hypothesis mention_plain : Spec.plain_mention (Member.mention member) = true.

Lemma mention_plain_inv :
  exists h m,
    Member.mention member = String h m /\
    Spec.has_char h "username}" = false /\
    Spec.has_char "{" (Member.mention member) = false.
Proof.
  revert mention_plain. destruct (Member.mention member) as [|h m]; [discriminate|].
  cbn [Spec.plain_mention]. intros H. apply andb_prop in H as [Hh Hbrace].
  apply negb_true_iff in Hh, Hbrace.
  exists h, m. repeat split; [|exact Hbrace].
  apply has_char_false_cons in Hh. apply Hh.
Qed.

Lemma sequential_is_one_pass_bounded (n : nat) :
  forall s, (String.length s <= n)%nat -> R2 (R1 s) = Spec.expand member s.
Proof.
  destruct mention_plain_inv as (h & m & Em & Hh & Hbrace).
  induction n as [|n IH]; intros s Hlen.
  - destruct s; [reflexivity | simpl in Hlen; lia].
  - destruct s as [|c s]; [reflexivity|].
    destruct (String.prefix "{user}" (String c s)) eqn:HT.
    + (* the leaf opens with {user} *)
      pose proof (prefix_split _ _ HT) as E. cbn [String.length] in E.
      remember (PyStr.drop 6 (String c s)) as rest eqn:Er. rewrite E.
      rewrite expand_hit_user, replace_hit by discriminate.
      rewrite replace_through by exact Hbrace.
      f_equal. apply IH.
      apply (f_equal String.length) in E. simpl in E, Hlen. lia.
    + destruct (String.prefix "{username}" (String c s)) eqn:HU.
      * (* the leaf opens with {username} *)
        pose proof (prefix_split _ _ HU) as E. cbn [String.length] in E.
        remember (PyStr.drop 10 (String c s)) as rest eqn:Er. rewrite E.
        rewrite expand_hit_username, user_pass_over_username.
        rewrite replace_hit by discriminate.
        f_equal. apply IH.
        apply (f_equal String.length) in E. simpl in E, Hlen. lia.
      * (* no token here: the character is copied by all three *)
        rewrite expand_miss by assumption.
        rewrite (replace_miss "{user}") by exact HT.
        rewrite replace_miss.
        -- f_equal. apply IH. simpl in Hlen. lia.
        -- destruct (String.prefix "{username}" (String c (R1 s))) eqn:HU'; [|reflexivity].
           rewrite prefix_cons in HU'. apply andb_prop in HU' as [Hc Hp].
           rewrite Em in Hp. apply prefix_of_replace in Hp; [|exact Hh].
           rewrite prefix_cons, Hc, Hp in HU. discriminate.
Qed.

Lemma sequential_is_one_pass (s : string) : R2 (R1 s) = Spec.expand member s.
Proof. apply (sequential_is_one_pass_bounded (String.length s)). lia. Qed.

End Expansion.

(** The builtins on sample arguments. *)
Example replace_samples :
  PyStr.replace "{user}" "X" "a{user}{user}b{use{user}r}" = "aXXb{useXr}"
  /\ PyStr.replace "aa" "b" "aaaaa" = "bba"
  /\ PyStr.strip "#" "##a#b##" = "a#b"
  /\ PyStr.strip "#" "###" = ""
  /\ PyStr.of_int (-7) = "-7".
Proof. repeat split. Qed.

Example int16_samples :
  PyStr.int16 "FF5733" = Ok 16734003%Z
  /\ PyStr.int16 " -0x_ff_0 " = Ok (-4080)%Z
  /\ PyStr.int16 "0x" = Raise ValueError
  /\ PyStr.int16 "f__f" = Raise ValueError
  /\ PyStr.int16 "ff_" = Raise ValueError
  /\ PyStr.int16 "_ff" = Raise ValueError
  /\ PyStr.int16 "+ 1" = Raise ValueError
  /\ PyStr.int16 "" = Raise ValueError
  /\ PyStr.int16 "GG5733" = Raise ValueError.
Proof. repeat split. Qed.

(** Beyond ASCII: the Arabic-Indic digit one (U+0661, the bytes 217 161)
    is a digit, the no-break space (U+00A0, the bytes 194 160) and the
    ideographic space (U+3000, the bytes 227 128 128) are blanks, the
    fullwidth digits (from U+FF10, the bytes 239 188 144) are digits; a
    letter with an accent (U+00E9), a superscript two (U+00B2) and the
    control character 28, which [str.isspace] takes for a blank, are
    refused. *)
Example int16_unicode_samples :
  PyStr.int16 (Scenario.utf8 [217; 161]) = Ok 1%Z
  /\ PyStr.int16 (Scenario.utf8 [194; 160; 102; 102]) = Ok 255%Z
  /\ PyStr.int16 (Scenario.utf8 [102; 102; 227; 128; 128]) = Ok 255%Z
  /\ PyStr.int16 (Scenario.utf8 [239; 188; 145; 239; 188; 144]) = Ok 16%Z
  /\ PyStr.int16 (Scenario.utf8 [45; 48; 120; 217; 169; 95; 102]) = Ok (-159)%Z
  /\ PyStr.int16 (Scenario.utf8 [102; 195; 169]) = Raise ValueError
  /\ PyStr.int16 (Scenario.utf8 [194; 178]) = Raise ValueError
  /\ PyStr.int16 (Scenario.utf8 [28; 49]) = Raise ValueError.
Proof. repeat split. Qed.

(** Iterating over a string gives its characters, whatever their length
    in bytes: here [a], U+00E9, U+0661 and U+1D7CE. *)
Example chars_sample :
  PyStr.chars (Scenario.utf8 [97; 195; 169; 217; 161; 240; 157; 159; 142])
  = [Scenario.utf8 [97]; Scenario.utf8 [195; 169]; Scenario.utf8 [217; 161];
     Scenario.utf8 [240; 157; 159; 142]].
Proof. reflexivity. Qed.

(** The limit of [str]: 4300 digits pass, 4301 do not, whatever the sign;
    in base 16 that is 3571 digits [f]. *)
Example convertible_samples :
  PyInt.str_bound = (10 ^ 4300)%Z
  /\ PyInt.convertible (10 ^ 4300 - 1) = true
  /\ PyInt.convertible (10 ^ 4300) = false
  /\ PyInt.convertible (- (10 ^ 4300 - 1)) = true
  /\ PyInt.convertible (16 ^ 3571 - 1) = true
  /\ PyInt.convertible (16 ^ 3572 - 1) = false.
Proof. do 5 (split; [vm_compute; reflexivity|]). vm_compute. reflexivity. Qed.

Example replace_placeholders_sample :
  replace_placeholders
    (JDict [("content", JStr "hi {user}, aka {username}!"); ("n", JInt 3);
            ("embeds", JList [JDict [("title", JStr "{username}{user}")]; JBool true])])
    (Scenario.member 99 "neo" (Scenario.guild 1 [] []))
  = JDict [("content", JStr "hi <@99>, aka neo!"); ("n", JInt 3);
           ("embeds", JList [JDict [("title", JStr "neo<@99>")]; JBool true])].
Proof. reflexivity. Qed.

(** The two replacements are made one after the other, so the text the
    first brings in is scanned by the second; a replacement text made of
    characters of [{username}] could complete a token with the text
    around it. *)
Example replace_twice_sample :
  PyStr.replace "{username}" "bob" (PyStr.replace "{user}" "ser" "{u{user}name}") = "bob".
Proof. reflexivity. Qed.

(** The decimal text of a number holds no brace, and so a mention token
    holds none either; it begins with [<]. *)
Lemma has_char_app (c : ascii) (a b : string) :
  Spec.has_char c (a ++ b)%string = Spec.has_char c a || Spec.has_char c b.
Proof.
  induction a as [|x a IH]; [reflexivity|].
  cbn [append Spec.has_char]. now rewrite IH, orb_assoc.
Qed.

Lemma string_of_uint_no_brace (d : Decimal.uint) :
  Spec.has_char "{" (NilEmpty.string_of_uint d) = false.
Proof. induction d; cbn [NilEmpty.string_of_uint Spec.has_char]; trivial. Qed.

Lemma of_int_no_brace (n : Z) : Spec.has_char "{" (PyStr.of_int n) = false.
Proof.
  unfold PyStr.of_int, NilZero.string_of_int, NilZero.string_of_uint.
  destruct (Z.to_int n) as [d|d]; destruct d; try reflexivity;
    match goal with
    | |- context [NilEmpty.string_of_uint ?u] =>
        pose proof (string_of_uint_no_brace u) as H;
        cbn [NilEmpty.string_of_uint Spec.has_char] in H |- *; exact H
    end.
Qed.

Lemma mention_is_plain (member : Member.t) :
  Spec.plain_mention (Member.mention member) = true.
Proof.
  unfold Member.mention.
  change ("<@" ++ PyStr.of_int (Member.id member) ++ ">")%string
    with (String "<" (String "@" (PyStr.of_int (Member.id member) ++ ">")%string)).
  cbn [Spec.plain_mention]. apply andb_true_intro. split; [reflexivity|].
  cbn [Spec.has_char]. rewrite has_char_app, of_int_no_brace. reflexivity.
Qed.

(** C1: for every JSON value and every member, the expander returns the
    structurally identical value in which every string leaf has every
    occurrence of [{user}] replaced by the mention token and every
    occurrence of [{username}] replaced by the plain name; the other
    scalars are returned unchanged. *)
Theorem replace_placeholders_expands (v : json) (member : Member.t) :
  replace_placeholders v member = Spec.map_strings (Spec.expand member) v.
Proof.
  induction v as [| | | | s | items IH | kvs IH] using json_tree_ind; try reflexivity.
  - cbn [replace_placeholders Spec.map_strings]. f_equal.
    apply sequential_is_one_pass, mention_is_plain.
  - cbn [replace_placeholders Spec.map_strings]. f_equal.
    induction IH as [|x l Hx _ IHl]; [reflexivity|].
    cbn [map]. now rewrite Hx, IHl.
  - cbn [replace_placeholders Spec.map_strings]. f_equal.
    induction IH as [|[k x] l Hx _ IHl]; [reflexivity|].
    cbn [map fst snd] in *. now rewrite Hx, IHl.
Qed.

(** ** C2: the shape is kept and only leaves with a token change *)

Lemma replace_without_token (member : Member.t) (s : string) :
  Spec.has_token s = false ->
  PyStr.replace "{username}" (Member.name member)
    (PyStr.replace "{user}" (Member.mention member) s) = s.
Proof.
  unfold Spec.has_token. intros H. apply orb_false_elim in H as [HT HU].
  rewrite (replace_absent "{user}") by exact HT.
  now apply replace_absent.
Qed.

(** C2: for every JSON value [v] and member [m], expanding placeholders
    keeps the shape of [v] (a list stays a list of the same length, a
    mapping keeps its keys, a scalar keeps its type), and only string
    leaves that contain [{user}] or [{username}] may differ from the
    input: every other leaf is returned equal. *)
Theorem replace_placeholders_preserves (v : json) (member : Member.t) :
  Spec.shape_of (replace_placeholders v member) = Spec.shape_of v
  /\ Spec.only_tokens_changed v (replace_placeholders v member).
Proof.
  induction v as [| | | | s | items IH | kvs IH] using json_tree_ind;
    try (split; [reflexivity | constructor]).
  - (* a string leaf *)
    intros H. now apply replace_without_token.
  - (* a list: element by element *)
    cbn [replace_placeholders Spec.shape_of].
    enough (map Spec.shape_of (map (fun item => replace_placeholders item member) items)
            = map Spec.shape_of items
            /\ Forall2 Spec.only_tokens_changed items
                 (map (fun item => replace_placeholders item member) items))
      as [Hs Hf] by (split; [now rewrite Hs | now constructor]).
    induction IH as [|x l [Hx Hx'] _ [IHs IHf]]; [split; constructor|].
    cbn [map]. split; [now rewrite Hx, IHs | now constructor].
  - (* a mapping: key by key, the keys as they were *)
    cbn [replace_placeholders Spec.shape_of].
    set (f := fun kv : string * json => let '(k, x) := kv in (k, replace_placeholders x member)).
    enough (map (fun kv => (fst kv, Spec.shape_of (snd kv))) (map f kvs)
            = map (fun kv => (fst kv, Spec.shape_of (snd kv))) kvs
            /\ Forall2 (fun kv kv' => fst kv = fst kv'
                                      /\ Spec.only_tokens_changed (snd kv) (snd kv'))
                 kvs (map f kvs))
      as [Hs Hf] by (split; [now rewrite Hs | now constructor]).
    induction IH as [|[k x] l [Hx Hx'] _ [IHs IHf]]; [split; constructor|].
    cbn [map fst snd f] in *. split; [now rewrite Hx, IHs | now constructor].
Qed.

(** ** C3: expansion of a token-free value changes nothing *)

(** C3: for every JSON value [v] and member [m] such that no string leaf
    of the expansion of [v] contains [{user}] or [{username}], expanding
    that result a second time returns it unchanged. *)
Theorem replace_placeholders_idempotent (v : json) (member : Member.t) :
  Spec.token_free (replace_placeholders v member) = true ->
  replace_placeholders (replace_placeholders v member) member
  = replace_placeholders v member.
Proof.
  (* any token-free value is a fixed point, whatever it was expanded from *)
  generalize (replace_placeholders v member). clear v. intros w.
  induction w as [| | | | s | items IH | kvs IH] using json_tree_ind;
    intros H; try reflexivity.
  - cbn [Spec.token_free] in H. apply negb_true_iff in H.
    cbn [replace_placeholders]. f_equal. now apply replace_without_token.
  - cbn [Spec.token_free] in H. cbn [replace_placeholders]. f_equal.
    induction IH as [|x l Hx _ IHl]; [reflexivity|].
    cbn [forallb] in H. apply andb_prop in H as [H1 H2].
    cbn [map]. now rewrite Hx, IHl.
  - cbn [Spec.token_free] in H. cbn [replace_placeholders]. f_equal.
    induction IH as [|[k x] l Hx _ IHl]; [reflexivity|].
    cbn [forallb fst snd] in *. apply andb_prop in H as [H1 H2].
    cbn [map]. now rewrite Hx, IHl.
Qed.

Lemma replace_placeholders_idempotent_witness :
  let m := Scenario.member 99 "neo" (Scenario.guild 1 [] []) in
  let v := JDict [("content", JStr "hi {user}"); ("n", JList [JInt 1; JStr "{username}"])] in
  Spec.token_free (replace_placeholders v m) = true
  /\ replace_placeholders (replace_placeholders v m) m = replace_placeholders v m.
Proof.
  split; [reflexivity|].
  apply replace_placeholders_idempotent. reflexivity.
Defined.

(** ** C4 and C10: the theme merger *)

Lemma set_color_dict (c : json) (kvs : list (string * json)) :
  set_color c (JDict kvs) = Ok (Spec.color_if_absent c (JDict kvs)).
Proof.
  unfold set_color, py_not_in, Spec.color_if_absent. cbn [py_in bind_result].
  now destruct (PyDict.has_key "color" kvs).
Qed.

Lemma set_color_all (c : json) (embeds : list json) :
  forallb Spec.is_dict embeds = true ->
  comprehension (set_color c) embeds = Ok (map (Spec.color_if_absent c) embeds).
Proof.
  induction embeds as [|e l IH]; intros H; [reflexivity|].
  cbn [forallb] in H. apply andb_prop in H as [He Hl].
  destruct e; try discriminate.
  cbn [comprehension map]. rewrite set_color_dict. cbn [bind_result].
  now rewrite IH.
Qed.

Lemma any_embed_key (kvs : list (string * json)) :
  py_any_in ["title"; "description"; "fields"] (JDict kvs)
  = Ok (PyDict.has_key "title" kvs || PyDict.has_key "description" kvs
        || PyDict.has_key "fields" kvs).
Proof.
  cbn [py_any_in py_in bind_result].
  destruct (PyDict.has_key "title" kvs), (PyDict.has_key "description" kvs),
    (PyDict.has_key "fields" kvs); reflexivity.
Qed.

Lemma load_config_loaded {Embed : Type} (w : world Embed) :
  load_config w = (loaded w, w).
Proof. unfold load_config, loaded. now destruct (config_file w). Qed.

Lemma loaded_document {Embed : Type} (w : world Embed) :
  readable w = true -> loaded w = Ok (document w).
Proof. unfold readable, loaded, document. now destruct (config_file w). Qed.

Lemma load_config_document {Embed : Type} (w : world Embed) :
  readable w = true -> load_config w = (Ok (document w), w).
Proof. intros H. now rewrite load_config_loaded, loaded_document. Qed.

(** A file that cannot be read has no document to speak of: whatever is
    known of the document beyond its being [JNull] shows that the file was
    read. *)
Lemma document_readable {Embed : Type} (w : world Embed) :
  document w <> JNull -> readable w = true.
Proof. unfold document, readable. destruct (config_file w); congruence. Qed.

Ltac store_is_readable :=
  first
    [ assumption
    | apply document_readable;
      let E := fresh "E" in
      intros E;
      match goal with
      | H : context [document _] |- _ => rewrite E in H; discriminate H
      end ].

Lemma lookup_set_same (k : string) (v : json) (kvs : list (string * json)) :
  PyDict.lookup k (PyDict.set k v kvs) = Some v.
Proof.
  induction kvs as [|[k' v'] l IH]; cbn [PyDict.set PyDict.lookup].
  - now rewrite String.eqb_refl.
  - destruct (String.eqb k' k) eqn:E; cbn [PyDict.lookup]; now rewrite E.
Qed.

Lemma lookup_set_other (k k0 : string) (v : json) (kvs : list (string * json)) :
  k0 <> k -> PyDict.lookup k0 (PyDict.set k v kvs) = PyDict.lookup k0 kvs.
Proof.
  intros Hne. induction kvs as [|[k' v'] l IH]; cbn [PyDict.set PyDict.lookup].
  - destruct (String.eqb_spec k k0); [congruence | reflexivity].
  - destruct (String.eqb_spec k' k) as [->|Hk]; cbn [PyDict.lookup].
    + destruct (String.eqb_spec k k0); [congruence | reflexivity].
    + now rewrite IH.
Qed.

(** What the merge does to one embed-shaped object: a [color] it defines
    is kept, a missing one becomes the primary color, and no other key is
    touched. *)
Lemma color_if_absent_fields (c : json) (kvs : list (string * json)) :
  exists kvs',
    Spec.color_if_absent c (JDict kvs) = JDict kvs'
    /\ PyDict.lookup "color" kvs'
       = Some (match PyDict.lookup "color" kvs with Some c0 => c0 | None => c end)
    /\ forall k, k <> "color" -> PyDict.lookup k kvs' = PyDict.lookup k kvs.
Proof.
  unfold Spec.color_if_absent, PyDict.has_key.
  destruct (PyDict.lookup "color" kvs) as [c0|] eqn:E.
  - exists kvs. repeat split; assumption.
  - exists (PyDict.set "color" c kvs). repeat split.
    + apply lookup_set_same.
    + intros k Hk. now apply lookup_set_other.
Qed.

(** C4, as stated, fails for a stored primary color of 0: the store left
    by [theme primary:#000000] has a primary color configured, the payload
    [{"title": "x"}] defines no color, yet the merger returns the payload
    unchanged where the claim asks for [color] set to 0. *)
Lemma C4_counterexample :
  let data := JDict [("title", JStr "x")] in
  let w := Scenario.world_with Scenario.black_theme_store in
  Spec.stored_primary (document w) "1" = Some (JInt 0)
  /\ Spec.present (JInt 0) = true
  /\ Spec.merge_color (JInt 0) data = JDict [("title", JStr "x"); ("color", JInt 0)]
  /\ apply_theme data "1" w = (Ok data, w).
Proof. repeat split. Qed.

(** C4 (amended): for every guild identifier and message payload, on a
    well-built store, the theme merger returns the payload unchanged when
    the guild has no stored theme or the stored primary color is absent,
    null or 0 (falsy); otherwise it sets the [color] field of each
    embed-shaped object in the payload (each element of the list under
    [embeds], or else the payload itself if it carries [title],
    [description] or [fields]) to the stored primary color exactly when
    that object does not already define [color], and leaves an
    already-present [color] unchanged.  The world is left as it was. *)
Theorem apply_theme_merges {Embed : Type} (w : world Embed) (data : json) (guild_id : string) :
  Spec.store_ok (document w) guild_id = true ->
  Spec.payload_ok data = true ->
  apply_theme data guild_id w
  = (Ok (match Spec.stored_primary (document w) guild_id with
         | Some c => if truthy c then Spec.merge_color c data else data
         | None => data
         end), w).
Proof.
  intros Hstore Hdata. unfold apply_theme, bind. rewrite load_config_document by store_is_readable.
  unfold lift. f_equal.
  unfold Spec.store_ok in Hstore. unfold Spec.stored_primary.
  destruct (document w) as [| | | | | |guilds]; try discriminate.
  unfold py_not_in at 1. cbn [py_in bind_result]. unfold PyDict.has_key.
  cbn [py_getitem].
  destruct (PyDict.lookup guild_id guilds) as [entry|]; [|reflexivity].
  destruct entry as [| | | | | |entry]; try discriminate.
  cbn [negb bind_result]. unfold py_not_in. cbn [py_in bind_result py_getitem].
  unfold PyDict.has_key.
  destruct (PyDict.lookup "theme" entry) as [theme|]; [|reflexivity].
  destruct theme as [| | | | | |theme]; try discriminate.
  cbn [negb bind_result py_get].
  set (c := match PyDict.lookup "primary" theme with Some c => c | None => JNull end).
  replace (match PyDict.lookup "primary" theme with Some v => Ok v | None => Ok JNull end)
    with (Ok c) by (subst c; now destruct (PyDict.lookup "primary" theme)).
  cbn [bind_result]. destruct (truthy c); [|reflexivity].
  cbn [negb]. unfold Spec.payload_ok in Hdata. unfold Spec.merge_color.
  destruct data as [| | | | | |kvs]; try discriminate.
  cbn [py_in bind_result py_getitem]. unfold PyDict.has_key at 1.
  destruct (PyDict.lookup "embeds" kvs) as [embeds|].
  - destruct embeds as [| | | | |embeds|]; try discriminate.
    cbn [bind_result py_iter]. rewrite set_color_all by exact Hdata.
    reflexivity.
  - rewrite any_embed_key. cbn [bind_result].
    destruct (PyDict.has_key "title" kvs || PyDict.has_key "description" kvs
              || PyDict.has_key "fields" kvs); [|reflexivity].
    apply set_color_dict.
Qed.

Lemma apply_theme_merges_witness :
  let w := Scenario.world_with
             (JDict [("1", JDict [("theme", JDict [("primary", JInt 255); ("secondary", JNull)])])]) in
  let data := JDict [("content", JStr "c");
                     ("embeds", JList [JDict [("title", JStr "x")];
                                       JDict [("title", JStr "x"); ("color", JInt 10)]])] in
  Spec.store_ok (document w) "1" = true
  /\ Spec.payload_ok data = true
  /\ apply_theme data "1" w
     = (Ok (JDict [("content", JStr "c");
                   ("embeds", JList [JDict [("title", JStr "x"); ("color", JInt 255)];
                                     JDict [("title", JStr "x"); ("color", JInt 10)]])]), w).
Proof.
  split; [reflexivity | split; [reflexivity|]].
  exact (apply_theme_merges
           (Scenario.world_with
              (JDict [("1", JDict [("theme", JDict [("primary", JInt 255); ("secondary", JNull)])])]))
           (JDict [("content", JStr "c");
                   ("embeds", JList [JDict [("title", JStr "x")];
                                     JDict [("title", JStr "x"); ("color", JInt 10)]])])
           "1" eq_refl eq_refl).
Defined.

(** C10: for every guild whose stored theme has primary color 0, the theme
    merger returns every payload unchanged, as if no primary color were
    configured: the test on the stored color is a truthiness test. *)
Theorem apply_theme_ignores_zero {Embed : Type} (w : world Embed) (data : json) (guild_id : string) :
  Spec.stored_primary (document w) guild_id = Some (JInt 0) ->
  apply_theme data guild_id w = (Ok data, w).
Proof.
  intros H. unfold apply_theme, bind. rewrite load_config_document by store_is_readable.
  unfold lift. f_equal. unfold Spec.stored_primary in H.
  destruct (document w) as [| | | | | |guilds]; try discriminate.
  unfold py_not_in at 1. cbn [py_in bind_result py_getitem]. unfold PyDict.has_key.
  destruct (PyDict.lookup guild_id guilds) as [[| | | | | |entry]|]; try discriminate.
  cbn [negb bind_result]. unfold py_not_in. cbn [py_in bind_result py_getitem].
  unfold PyDict.has_key.
  destruct (PyDict.lookup "theme" entry) as [[| | | | | |theme]|]; try discriminate.
  cbn [negb bind_result py_get].
  destruct (PyDict.lookup "primary" theme) as [c|]; [|discriminate].
  injection H as ->. reflexivity.
Qed.

Lemma apply_theme_ignores_zero_witness :
  let w := Scenario.world_with Scenario.black_theme_store in
  let data := JDict [("embeds", JList [JDict [("title", JStr "x")]])] in
  Spec.stored_primary (document w) "1" = Some (JInt 0)
  /\ apply_theme data "1" w = (Ok data, w).
Proof.
  split; [reflexivity|].
  apply apply_theme_ignores_zero. reflexivity.
Defined.

(** ** C5 and C6: the theme command *)

Lemma set_set (k : string) (v v0 : json) (kvs : list (string * json)) :
  PyDict.set k v (PyDict.set k v0 kvs) = PyDict.set k v kvs.
Proof.
  induction kvs as [|[k' v'] l IH]; cbn [PyDict.set].
  - now rewrite String.eqb_refl.
  - destruct (String.eqb k' k) eqn:E; cbn [PyDict.set]; rewrite E; [reflexivity|].
    now rewrite IH.
Qed.

(** [int(s, 16)] raises nothing but [ValueError]. *)
Lemma int16_ascii_raises (s : string) (e : exc) :
  PyStr.int16_ascii s = Raise e -> e = ValueError.
Proof.
  unfold PyStr.int16_ascii.
  repeat match goal with
         | |- context [match ?x with _ => _ end] => destruct x
         end; congruence.
Qed.

Lemma int16_raises (s : string) (e : exc) :
  PyStr.int16 s = Raise e -> e = ValueError.
Proof.
  unfold PyStr.int16. destruct (PyStr.ascii_form s); [apply int16_ascii_raises | congruence].
Qed.

(** The lazy creation of the guild's entry, [if guild_id not in config:
    config[guild_id] = {}], followed by the read of the entry and the
    write-back of its changed fields. *)
Lemma entry_roundtrip (config : json) (guild_id : string)
    (change : list (string * json) -> list (string * json)) :
  Spec.entry_ok config guild_id = true ->
  (let* absent := py_not_in guild_id config in
   let* config' := if absent then py_setitem config guild_id (JDict []) else Ok config in
   let* entry := py_getitem config' guild_id in
   match entry with
   | JDict fields => py_setitem config' guild_id (JDict (change fields))
   | _ => Raise TypeError
   end)
  = Ok (Spec.with_entry config guild_id (change (Spec.entry_of config guild_id))).
Proof.
  unfold Spec.entry_ok, Spec.entry_of, Spec.with_entry, py_not_in.
  destruct config as [| | | | | |guilds]; try discriminate.
  cbn [py_in bind_result]. unfold PyDict.has_key.
  destruct (PyDict.lookup guild_id guilds) as [entry|] eqn:E.
  - destruct entry; try discriminate. intros _.
    cbn [negb bind_result py_getitem]. rewrite E. reflexivity.
  - intros _. cbn [negb py_setitem bind_result py_getitem].
    rewrite lookup_set_same. cbn [py_setitem bind_result]. now rewrite set_set.
Qed.

Section Commands.

Variable json_loads : string -> result json.
Variable Embed : Type.
Variable Embed_from_dict : json -> result Embed.
Variable exc_str : exc -> string.

(** C5 (amended): starting from an empty config store (the file absent, or
    holding the empty object), the theme command with primary [#FF5733]
    and no secondary for guild [1] leaves the store equal to
    [{"1": {"theme": {"primary": 16734003, "secondary": null}}}]
    (16734003 is FF5733 read in base 16) and answers with the confirmation
    embed in that color. *)
Theorem theme_command_on_empty_store (channel : Channel.t) (done : list (event Embed)) :
  let i := {| Interaction.guild_id := Some 1%Z; Interaction.channel := channel |} in
  let store :=
    JDict [("1", JDict [("theme", JDict [("primary", JInt 16734003); ("secondary", JNull)])])] in
  let after :=
    {| config_file := Holds store;
       trace := done ++ [RespondEmbed "Theme Updated" "Primary color set to #FF5733" 16734003 []] |} in
  theme_command exc_str i "#FF5733" None {| config_file := Absent; trace := done |}
    = (Ok tt, after)
  /\ theme_command exc_str i "#FF5733" None {| config_file := Holds (JDict []); trace := done |}
    = (Ok tt, after).
Proof. split; reflexivity. Qed.


(** ** C7: the embed command on text that is not JSON *)


(** ** C8: the welcome command *)

Lemma update_welcome_fields (channel : Channel.t) (data : json) (role : option Role.t)
    (entry : list (string * json)) :
  let entry' := PyDict.update (Spec.welcome_fields channel data role) entry in
  PyDict.lookup "channel_id" entry' = Some (JInt (Channel.id channel))
  /\ PyDict.lookup "embed_data" entry' = Some data
  /\ PyDict.lookup "role_id" entry'
     = Some (match role with Some r => JInt (Role.id r) | None => JNull end)
  /\ forall k, k <> "channel_id" -> k <> "embed_data" -> k <> "role_id" ->
       PyDict.lookup k entry' = PyDict.lookup k entry.
Proof.
  cbn [PyDict.update Spec.welcome_fields fold_left fst snd]. repeat split.
  - rewrite !lookup_set_other by discriminate. apply lookup_set_same.
  - rewrite lookup_set_other by discriminate. apply lookup_set_same.
  - apply lookup_set_same.
  - intros k H1 H2 H3. now rewrite !lookup_set_other by assumption.
Qed.

(** C8 (amended): for every JSON object parsed by the welcome command, on
    a store whose entry for the guild is well built: if at least one of
    the keys [content], [embeds], [title] holds a truthy value (a
    non-empty string, list or object, a non-zero number, or true) the
    command persists the channel id, the payload and the role id (null
    when no role is given) in the guild's entry, keeping its other fields
    and the other guilds, and confirms; otherwise it answers "Invalid
    JSON." to the caller only and leaves the store unchanged.  The store
    is persisted when [json.dump] can write it.  (It can write what
    [json.load] and [json.loads] return and the identifiers of the
    platform, none of which holds an integer of more than 4300 digits;
    for a store it cannot write, the command raises [ValueError] and
    leaves [config.json] cut off.) *)
Theorem welcome_command_persists (i : Interaction.t) (channel : Channel.t)
    (embed_json : string) (role : option Role.t) (kvs : list (string * json))
    (w : world Embed) :
  let guild_id := str_of_id (Interaction.guild_id i) in
  let store :=
    Spec.with_entry (document w) guild_id
      (PyDict.update (Spec.welcome_fields channel (JDict kvs) role)
         (Spec.entry_of (document w) guild_id)) in
  json_loads embed_json = Ok (JDict kvs) ->
  Spec.entry_ok (document w) guild_id = true ->
  welcome_command json_loads i channel embed_json role w
  = if Spec.has_welcome_content kvs
    then
      if dumpable store
      then
        (Ok tt,
         {| config_file := Holds store;
            trace := trace w ++
                     [Respond ("Welcome message set to " ++ Channel.mention channel ++ ".") false] |})
      else
        (Raise ValueError,
         {| config_file := Unreadable JSONDecodeError; trace := trace w |})
    else
      (Ok tt,
       {| config_file := config_file w;
          trace := trace w ++ [Respond "Invalid JSON." true] |}).
Proof.
  intros guild_id store Hloads Hok. subst store.
  unfold welcome_command, try_except, bind at 1, lift at 1. rewrite Hloads.
  unfold bind at 1, lift at 1.
  assert (Eg : py_get (JDict kvs) "content" = Ok (Spec.get "content" kvs)).
  { unfold Spec.get. cbn [py_get]. now destruct (PyDict.lookup "content" kvs). }
  rewrite Eg. clear Eg.
  assert (Eu :
    (if truthy (Spec.get "content" kvs) then ret true
     else
       bind (lift (py_get (JDict kvs) "embeds"))
         (fun embeds =>
            if truthy embeds then ret true
            else bind (lift (py_get (JDict kvs) "title")) (fun title => ret (truthy title)))) w
    = (Ok (Spec.has_welcome_content kvs), w) :> result bool * world Embed).
  { unfold Spec.has_welcome_content, Spec.get, bind, lift, ret. cbn [py_get].
    destruct (PyDict.lookup "content" kvs) as [c|];
      destruct (PyDict.lookup "embeds" kvs) as [e|];
      destruct (PyDict.lookup "title" kvs) as [t|];
      repeat match goal with
             | |- context [truthy ?v] => destruct (truthy v)
             end; reflexivity. }
  unfold bind at 1. rewrite Eu. clear Eu.
  all: destruct (Spec.has_welcome_content kvs); [|reflexivity].
  all: cbn [negb]; unfold bind at 1; rewrite load_config_document by store_is_readable; fold guild_id.
  all: pose proof (entry_roundtrip (document w) guild_id
                     (PyDict.update (Spec.welcome_fields channel (JDict kvs) role)) Hok) as R.
  all: unfold bind, lift, py_not_in in *.
  all: destruct (py_in guild_id (document w)) as [b|]; [|discriminate].
  all: cbn [bind_result] in *.
  all: destruct (negb b); unfold ret; cbn beta iota; cbn [bind_result] in R.
  all: repeat match type of R with
         | bind_result ?x _ = _ => destruct x; cbn [bind_result] in R; try discriminate
         end.
  all: match type of R with
       | match ?entry with _ => _ end = _ => destruct entry; try discriminate
       end.
  all: unfold Spec.welcome_fields in R.
  all: match goal with
       | |- context [py_update (JDict ?k) ?o] =>
           change (py_update (JDict k) o) with (Ok (JDict (PyDict.update o k)))
       end.
  all: cbv iota beta; rewrite R; cbv iota beta zeta; unfold save_config, Spec.welcome_fields.
  all: match goal with
       | |- context [dumpable ?x] => destruct (dumpable x)
       end; reflexivity.
Qed.

(** ** C9: a member joins a guild with a welcome message configured *)

(** C9: when the guild's welcome configuration is [channel_id=42],
    [embed_data={"content": "hi {user}"}], [role_id=null], and a member
    whose mention token is [<@99>] joins, the channel the guild knows
    under the identifier 42 receives a message with content [hi <@99>]
    and no embeds; that send is the only call made: no role assignment is
    attempted, and the store is not written. *)
Theorem on_member_join_welcomes (member : Member.t) (ch : Channel.t)
    (guilds : list (string * json)) (done : list (event Embed)) :
  Member.mention member = "<@99>" ->
  Guild.get_channel (Member.guild member) (JInt 42) = Ok (Some ch) ->
  PyDict.lookup (PyStr.of_int (Guild.id (Member.guild member))) guilds
  = Some (JDict [("channel_id", JInt 42);
                 ("embed_data", JDict [("content", JStr "hi {user}")]);
                 ("role_id", JNull)]) ->
  on_member_join Embed_from_dict exc_str member
    {| config_file := Holds (JDict guilds); trace := done |}
  = (Ok tt,
     {| config_file := Holds (JDict guilds);
        trace := done ++ [ChannelSend ch (JStr "hi <@99>") []] |}).
Proof.
  intros Hmention Hchannel Hentry.
  assert (Hexpand :
    replace_placeholders (JDict [("content", JStr "hi {user}")]) member
    = JDict [("content", JStr "hi <@99>")]).
  { cbn [replace_placeholders map]. now rewrite Hmention. }
  unfold on_member_join, bind at 1. cbn [load_config config_file Member.guild].
  unfold bind at 1, lift at 1, py_not_in. cbn [py_in bind_result].
  unfold PyDict.has_key. rewrite Hentry. cbn [negb].
  unfold bind at 1, lift at 1. cbn [py_getitem]. rewrite Hentry.
  unfold bind at 1, lift at 1. cbn.
  rewrite Hchannel. unfold try_except, bind, lift, apply_theme, bind, lift.
  cbn [load_config config_file]. unfold py_not_in. cbn [py_in bind_result].
  unfold PyDict.has_key. rewrite Hentry. cbn [negb py_getitem bind_result].
  rewrite Hentry. cbn -[replace_placeholders]. rewrite Hexpand. reflexivity.
Qed.

End Commands.

(** ** The scenarios, the failing instances of the claims as stated, and
    instances of the theorems *)

(** C5, as stated, fails: FF5733 in base 16 is 16734003; the store the
    claim gives holds 16733491 (which is FF5533). *)
Lemma C5_counterexample :
  config_file
    (snd (theme_command Runtime.exc_str (Scenario.interaction 1 5) "#FF5733" None
            Scenario.fresh_world))
  <> Holds (JDict [("1", JDict [("theme", JDict [("primary", JInt 16733491);
                                                ("secondary", JNull)])])]).
Proof. vm_compute. discriminate. Qed.

(** The store used against C4 and for C10 is the one the theme command
    leaves for black. *)
Example theme_command_black :
  config_file
    (snd (theme_command Runtime.exc_str (Scenario.interaction 1 5) "#000000" None
            Scenario.fresh_world))
  = Holds Scenario.black_theme_store.
Proof. reflexivity. Qed.




(** The last scenario of the specification: the guild's theme has primary
    color 255; an embed without a color is sent with [color: 255], an
    embed with [color: 10] keeps it. *)
Example embed_command_theme_scenario :
  let w := Scenario.world_with
             (JDict [("1", JDict [("theme", JDict [("primary", JInt 255); ("secondary", JNull)])])]) in
  let i := Scenario.interaction 1 5 in
  trace (snd (embed_command Runtime.loads Runtime.from_dict Runtime.exc_str i
                (Runtime.q "{'embeds':[{'title':'x'}]}") w))
  = [Respond "Embed posted successfully." true;
     ChannelSend (Scenario.channel 5) JNull [JDict [("title", JStr "x"); ("color", JInt 255)]]]
  /\ trace (snd (embed_command Runtime.loads Runtime.from_dict Runtime.exc_str i
                   (Runtime.q "{'embeds':[{'title':'x','color':10}]}") w))
  = [Respond "Embed posted successfully." true;
     ChannelSend (Scenario.channel 5) JNull [JDict [("title", JStr "x"); ("color", JInt 10)]]].
Proof. split; reflexivity. Qed.

(** C8, as stated, fails: the object [{"content": ""}] contains the key
    [content], so the claim asks for the configuration to be persisted;
    the command tests the value, finds it empty, answers "Invalid JSON."
    and leaves the store as it was. *)
Lemma C8_counterexample :
  let text := Runtime.q "{'content': ''}" in
  Runtime.loads text = Ok (JDict [("content", JStr "")])
  /\ Spec.has_welcome_key [("content", JStr "")] = true
  /\ welcome_command Runtime.loads (Scenario.interaction 1 5) (Scenario.channel 42) text None
       Scenario.fresh_world
     = (Ok tt, {| config_file := Absent; trace := [Respond "Invalid JSON." true] |}).
Proof. repeat split. Qed.

Lemma welcome_command_persists_witness :
  let text := Runtime.q "{'content': 'hi {user}'}" in
  let w := Scenario.world_with Scenario.black_theme_store in
  let i := Scenario.interaction 1 5 in
  Runtime.loads text = Ok (JDict [("content", JStr "hi {user}")])
  /\ Spec.entry_ok (document w) (str_of_id (Interaction.guild_id i)) = true
  /\ welcome_command Runtime.loads i (Scenario.channel 42) text None w
     = (Ok tt,
        {| config_file :=
             Holds (JDict [("1", JDict [("theme", JDict [("primary", JInt 0); ("secondary", JNull)]);
                                       ("channel_id", JInt 42);
                                       ("embed_data", JDict [("content", JStr "hi {user}")]);
                                       ("role_id", JNull)])]);
           trace := [Respond "Welcome message set to <#42>." false] |}).
Proof.
  split; [reflexivity | split; [reflexivity|]].
  exact (welcome_command_persists Runtime.loads Runtime.Embed (Scenario.interaction 1 5)
           (Scenario.channel 42) (Runtime.q "{'content': 'hi {user}'}") None
           [("content", JStr "hi {user}")]
           (Scenario.world_with Scenario.black_theme_store) eq_refl eq_refl).
Defined.

Lemma on_member_join_welcomes_witness :
  let g := Scenario.guild 7 [] [42%Z] in
  let m := Scenario.member 99 "neo" g in
  let entry := JDict [("channel_id", JInt 42);
                      ("embed_data", JDict [("content", JStr "hi {user}")]);
                      ("role_id", JNull)] in
  Member.mention m = "<@99>"
  /\ Guild.get_channel (Member.guild m) (JInt 42) = Ok (Some (Scenario.channel 42))
  /\ PyDict.lookup (PyStr.of_int (Guild.id (Member.guild m))) [("7", entry)] = Some entry
  /\ on_member_join Runtime.from_dict Runtime.exc_str m (Scenario.world_with (JDict [("7", entry)]))
     = (Ok tt,
        {| config_file := Holds (JDict [("7", entry)]);
           trace := [ChannelSend (Scenario.channel 42) (JStr "hi <@99>") []] |}).
Proof.
  split; [reflexivity | split; [reflexivity | split; [reflexivity|]]].
  exact (on_member_join_welcomes Runtime.Embed Runtime.from_dict Runtime.exc_str
           (Scenario.member 99 "neo" (Scenario.guild 7 [] [42%Z])) (Scenario.channel 42)
           [("7", JDict [("channel_id", JInt 42);
                         ("embed_data", JDict [("content", JStr "hi {user}")]);
                         ("role_id", JNull)])]
           [] eq_refl eq_refl eq_refl).
Defined.

(** * Further properties of the program *)

(** ** The expander leaves no token behind *)

Lemma contains_through (a : ascii) (p m x : string) :
  Spec.has_char a m = false ->
  PyStr.contains (String a p) (m ++ x)%string = PyStr.contains (String a p) x.
Proof.
  induction m as [|b m IH]; intros H; [reflexivity|].
  apply has_char_false_cons in H as [Hba Hm].
  change (String b m ++ x)%string with (String b (m ++ x)%string).
  cbn [PyStr.contains]. rewrite prefix_cons.
  destruct (Ascii.eqb_spec a b); [congruence|]. cbn [andb orb]. now apply IH.
Qed.

Lemma has_char_username_parts (h : ascii) :
  Spec.has_char h "{username}" = false ->
  Spec.has_char h "user}" = false /\ Spec.has_char h "username}" = false.
Proof.
  cbn [Spec.has_char]. intros H.
  repeat (apply orb_false_elim in H as [? H]).
  repeat match goal with
         | E : Ascii.eqb _ h = false |- _ => rewrite E; clear E
         end.
  split; reflexivity.
Qed.

Section TokenFree.

Variable member : Member.t.
Hypothesis mention_plain : Spec.plain_mention (Member.mention member) = true.
Hypothesis name_plain : Spec.plain_mention (Member.name member) = true.

(** A pattern made of characters of the tokens shows at the head of the
    expansion only if it was at the head of the leaf. *)
Lemma prefix_of_expand (q : string) :
  (forall h, Spec.has_char h "{username}" = false -> Spec.has_char h q = false) ->
  forall s, String.prefix q (Spec.expand member s) = true -> String.prefix q s = true.
Proof.
  destruct (Member.mention member) as [|hm m'] eqn:Em; [discriminate|].
  destruct (Member.name member) as [|hn n'] eqn:En; [discriminate|].
  cbn [Spec.plain_mention] in mention_plain, name_plain.
  apply andb_prop in mention_plain as [Hm _], name_plain as [Hn _].
  apply negb_true_iff in Hm, Hn.
  induction q as [|a q IH]; intros Hq s H; [now destruct s|].
  assert (Hq' : forall h, Spec.has_char h "{username}" = false -> Spec.has_char h q = false).
  { intros h Hh. now apply Hq, has_char_false_cons in Hh. }
  destruct s as [|c s]; [discriminate|].
  destruct (String.prefix "{user}" (String c s)) eqn:HT.
  - rewrite (prefix_split _ _ HT), expand_hit_user, Em in H.
    change (String hm m' ++ ?t)%string with (String hm (m' ++ t)%string) in H.
    rewrite prefix_cons in H. apply andb_prop in H as [H _]. apply Ascii.eqb_eq in H.
    apply Hq, has_char_false_cons in Hm. now destruct Hm.
  - destruct (String.prefix "{username}" (String c s)) eqn:HU.
    + rewrite (prefix_split _ _ HU), expand_hit_username, En in H.
      change (String hn n' ++ ?t)%string with (String hn (n' ++ t)%string) in H.
      rewrite prefix_cons in H. apply andb_prop in H as [H _]. apply Ascii.eqb_eq in H.
      apply Hq, has_char_false_cons in Hn. now destruct Hn.
    + rewrite expand_miss in H by assumption.
      rewrite prefix_cons in H |- *. apply andb_prop in H as [Hac H].
      rewrite Hac. cbn [andb]. now apply IH.
Qed.

Lemma expand_leaves_no_token_bounded (n : nat) :
  forall s, (String.length s <= n)%nat -> Spec.has_token (Spec.expand member s) = false.
Proof.
  assert (Hm : Spec.has_char "{" (Member.mention member) = false).
  { revert mention_plain. destruct (Member.mention member); [discriminate|].
    cbn [Spec.plain_mention]. intros H. apply andb_prop in H as [_ H].
    now apply negb_true_iff in H. }
  assert (Hn : Spec.has_char "{" (Member.name member) = false).
  { revert name_plain. destruct (Member.name member); [discriminate|].
    cbn [Spec.plain_mention]. intros H. apply andb_prop in H as [_ H].
    now apply negb_true_iff in H. }
  unfold Spec.has_token.
  induction n as [|n IH]; intros s Hlen.
  - destruct s; [reflexivity | simpl in Hlen; lia].
  - destruct s as [|c s]; [reflexivity|].
    destruct (String.prefix "{user}" (String c s)) eqn:HT.
    + pose proof (prefix_split _ _ HT) as E. cbn [String.length] in E.
      remember (PyStr.drop 6 (String c s)) as rest eqn:Er. rewrite E.
      rewrite expand_hit_user, !contains_through by exact Hm.
      apply IH. apply (f_equal String.length) in E. simpl in E, Hlen. lia.
    + destruct (String.prefix "{username}" (String c s)) eqn:HU.
      * pose proof (prefix_split _ _ HU) as E. cbn [String.length] in E.
        remember (PyStr.drop 10 (String c s)) as rest eqn:Er. rewrite E.
        rewrite expand_hit_username, !contains_through by exact Hn.
        apply IH. apply (f_equal String.length) in E. simpl in E, Hlen. lia.
      * rewrite expand_miss by assumption. cbn [PyStr.contains].
        assert (IHs : PyStr.contains "{user}" (Spec.expand member s)
                      || PyStr.contains "{username}" (Spec.expand member s) = false)
          by (apply IH; simpl in Hlen; lia).
        apply orb_false_elim in IHs as [IT IU]. rewrite IT, IU, !orb_false_r.
        apply orb_false_intro.
        -- destruct (String.prefix "{user}" (String c (Spec.expand member s))) eqn:P;
             [|reflexivity].
           rewrite prefix_cons in P. apply andb_prop in P as [Pc P].
           apply prefix_of_expand in P;
             [|intros h Hh; now apply has_char_username_parts in Hh].
           rewrite prefix_cons, Pc, P in HT. discriminate.
        -- destruct (String.prefix "{username}" (String c (Spec.expand member s))) eqn:P;
             [|reflexivity].
           rewrite prefix_cons in P. apply andb_prop in P as [Pc P].
           apply prefix_of_expand in P;
             [|intros h Hh; now apply has_char_username_parts in Hh].
           rewrite prefix_cons, Pc, P in HU. discriminate.
Qed.

Lemma expanded_leaf_has_no_token (s : string) :
  Spec.has_token
    (PyStr.replace "{username}" (Member.name member)
       (PyStr.replace "{user}" (Member.mention member) s)) = false.
Proof.
  rewrite sequential_is_one_pass by exact mention_plain.
  apply (expand_leaves_no_token_bounded (String.length s)). lia.
Qed.

End TokenFree.

(** X1: when the mention token and the plain name are both plain (each
    begins with a character that does not occur in [{username}] and holds
    no [{]), no string leaf of an expanded value contains a token, so
    expanding a second time changes nothing, for every JSON value. *)
Theorem replace_placeholders_settles (v : json) (member : Member.t) :
  Spec.plain_mention (Member.mention member) = true ->
  Spec.plain_mention (Member.name member) = true ->
  Spec.token_free (replace_placeholders v member) = true
  /\ replace_placeholders (replace_placeholders v member) member
     = replace_placeholders v member.
Proof.
  intros Hm Hn.
  induction v as [| | | | s | items IH | kvs IH] using json_tree_ind;
    try (split; reflexivity).
  - pose proof (expanded_leaf_has_no_token member Hm Hn s) as H.
    cbn [replace_placeholders Spec.token_free]. split; [now rewrite H|].
    f_equal. now apply replace_without_token.
  - cbn [replace_placeholders Spec.token_free].
    enough (forallb Spec.token_free (map (fun item => replace_placeholders item member) items) = true
            /\ map (fun item => replace_placeholders item member)
                 (map (fun item => replace_placeholders item member) items)
               = map (fun item => replace_placeholders item member) items)
      as [H1 H2] by (split; [exact H1 | now rewrite H2]).
    induction IH as [|x l [Hx Hx'] _ [IH1 IH2]]; [split; reflexivity|].
    cbn [map forallb]. split; [now rewrite Hx, IH1 | now rewrite Hx', IH2].
  - cbn [replace_placeholders Spec.token_free].
    set (f := fun kv : string * json => let '(k, x) := kv in (k, replace_placeholders x member)).
    enough (forallb (fun kv => Spec.token_free (snd kv)) (map f kvs) = true
            /\ map f (map f kvs) = map f kvs)
      as [H1 H2] by (split; [exact H1 | now rewrite H2]).
    induction IH as [|[k x] l [Hx Hx'] _ [IH1 IH2]]; [split; reflexivity|].
    cbn [map forallb f fst snd] in *. split; [now rewrite Hx, IH1 | now rewrite Hx', IH2].
Qed.

Lemma replace_placeholders_settles_witness :
  let m := Scenario.member 99 "Zoe" (Scenario.guild 1 [] []) in
  let v := JList [JStr "{user{user}}"; JDict [("t", JStr "{username}{user}name}")]] in
  Spec.plain_mention (Member.mention m) = true
  /\ Spec.plain_mention (Member.name m) = true
  /\ Spec.token_free (replace_placeholders v m) = true
  /\ replace_placeholders (replace_placeholders v m) m = replace_placeholders v m.
Proof.
  split; [reflexivity | split; [reflexivity|]].
  apply replace_placeholders_settles; reflexivity.
Defined.

(** ** The theme merger on every payload *)

Lemma apply_theme_loaded {Embed : Type} (w : world Embed) (data : json) (guild_id : string) :
  apply_theme data guild_id w
  = (let* config := loaded w in themed config guild_id data, w).
Proof.
  unfold apply_theme, bind. rewrite load_config_loaded.
  destruct (loaded w) as [config|e]; [|reflexivity].
  unfold lift. cbn [bind_result]. f_equal.
  unfold themed, color_to_merge, color_payload.
  destruct (py_not_in guild_id config) as [no_guild|]; [|reflexivity].
  cbn [bind_result].
  destruct (if no_guild then Ok true
            else let* entry := py_getitem config guild_id in py_not_in "theme" entry)
    as [no_theme|]; [|reflexivity].
  cbn [bind_result]. destruct no_theme; [reflexivity|].
  destruct (py_getitem config guild_id) as [entry|]; [|reflexivity].
  cbn [bind_result]. destruct (py_getitem entry "theme") as [theme|]; [|reflexivity].
  cbn [bind_result]. destruct (py_get theme "primary") as [primary_color|]; [|reflexivity].
  cbn [bind_result]. now destruct (truthy primary_color).
Qed.

Lemma apply_theme_split {Embed : Type} (w : world Embed) (data : json) (guild_id : string) :
  readable w = true ->
  apply_theme data guild_id w
  = (let* c := color_to_merge (document w) guild_id in
     match c with
     | Some primary_color => color_payload primary_color data
     | None => Ok data
     end, w).
Proof.
  intros H. rewrite apply_theme_loaded, loaded_document by exact H. reflexivity.
Qed.

Lemma color_to_merge_ok (config : json) (guild_id : string) :
  Spec.store_ok config guild_id = true ->
  color_to_merge config guild_id = Ok (Obs.merged_color config guild_id).
Proof.
  unfold Spec.store_ok, Obs.merged_color, Spec.stored_primary, color_to_merge.
  destruct config as [| | | | | |guilds]; try discriminate.
  unfold py_not_in at 1. cbn [py_in bind_result py_getitem]. unfold PyDict.has_key.
  destruct (PyDict.lookup guild_id guilds) as [[| | | | | |entry]|];
    try discriminate; [|reflexivity].
  cbn [negb bind_result]. unfold py_not_in. cbn [py_in bind_result py_getitem].
  unfold PyDict.has_key.
  destruct (PyDict.lookup "theme" entry) as [[| | | | | |theme]|];
    try discriminate; [|reflexivity].
  intros _. cbn [negb bind_result py_get].
  destruct (PyDict.lookup "primary" theme) as [c|]; cbn [bind_result];
    [now destruct (truthy c) | reflexivity].
Qed.

Lemma color_payload_ok (c data : json) :
  Spec.payload_ok data = true -> color_payload c data = Ok (Spec.merge_color c data).
Proof.
  unfold Spec.payload_ok, Spec.merge_color, color_payload.
  destruct data as [| | | | | |kvs]; try discriminate.
  cbn [py_in bind_result py_getitem]. unfold PyDict.has_key at 1.
  destruct (PyDict.lookup "embeds" kvs) as [embeds|].
  - destruct embeds as [| | | | |embeds|]; try discriminate. intros H.
    cbn [bind_result py_iter]. now rewrite set_color_all by exact H.
  - intros _. rewrite any_embed_key. cbn [bind_result].
    destruct (PyDict.has_key "title" kvs || PyDict.has_key "description" kvs
              || PyDict.has_key "fields" kvs); [|reflexivity].
    apply set_color_dict.
Qed.

(** X2: on a well-built store whose guild has no theme, or a theme whose
    primary color is absent, null, 0 or otherwise falsy, the merger
    returns every payload unchanged and does not raise, also a payload
    that is no object at all. *)
Theorem apply_theme_without_color {Embed : Type} (w : world Embed) (data : json)
    (guild_id : string) :
  Spec.store_ok (document w) guild_id = true ->
  Obs.merged_color (document w) guild_id = None ->
  apply_theme data guild_id w = (Ok data, w).
Proof.
  intros Hstore Hnone. rewrite apply_theme_split by store_is_readable. rewrite color_to_merge_ok by exact Hstore.
  now rewrite Hnone.
Qed.

Lemma apply_theme_without_color_witness :
  let w := Scenario.world_with
             (JDict [("1", JDict [("theme", JDict [("primary", JStr ""); ("secondary", JInt 5)])]);
                     ("2", JDict [("channel_id", JInt 42)])]) in
  (Spec.store_ok (document w) "1" = true
   /\ Obs.merged_color (document w) "1" = None
   /\ apply_theme (JList [JInt 1]) "1" w = (Ok (JList [JInt 1]), w))
  /\ (Spec.store_ok (document w) "2" = true
      /\ Obs.merged_color (document w) "2" = None
      /\ apply_theme (JStr "embeds") "2" w = (Ok (JStr "embeds"), w)).
Proof.
  split; (split; [reflexivity | split; [reflexivity|]]).
  - apply apply_theme_without_color; reflexivity.
  - apply apply_theme_without_color; reflexivity.
Defined.

Lemma has_key_set_same (k : string) (v : json) (kvs : list (string * json)) :
  PyDict.has_key k (PyDict.set k v kvs) = true.
Proof. unfold PyDict.has_key. now rewrite lookup_set_same. Qed.

Lemma has_key_set_other (k k0 : string) (v : json) (kvs : list (string * json)) :
  k0 <> k -> PyDict.has_key k0 (PyDict.set k v kvs) = PyDict.has_key k0 kvs.
Proof. intros H. unfold PyDict.has_key. now rewrite lookup_set_other. Qed.

Lemma color_if_absent_again (c e : json) :
  Spec.color_if_absent c (Spec.color_if_absent c e) = Spec.color_if_absent c e.
Proof.
  destruct e as [| | | | | |kvs]; try reflexivity.
  cbn [Spec.color_if_absent]. destruct (PyDict.has_key "color" kvs) eqn:E.
  - cbn [Spec.color_if_absent]. now rewrite E.
  - cbn [Spec.color_if_absent]. now rewrite has_key_set_same.
Qed.

Lemma color_if_absent_is_dict (c e : json) :
  Spec.is_dict (Spec.color_if_absent c e) = Spec.is_dict e.
Proof.
  destruct e as [| | | | | |kvs]; try reflexivity.
  cbn [Spec.color_if_absent]. now destruct (PyDict.has_key "color" kvs).
Qed.

Lemma merge_color_payload_ok (c data : json) :
  Spec.payload_ok data = true -> Spec.payload_ok (Spec.merge_color c data) = true.
Proof.
  unfold Spec.payload_ok, Spec.merge_color.
  destruct data as [| | | | | |kvs]; try discriminate.
  destruct (PyDict.lookup "embeds" kvs) as [embeds|] eqn:E.
  - destruct embeds as [| | | | |embeds|]; try discriminate. intros H.
    rewrite lookup_set_same. rewrite forallb_forall in H |- *.
    intros e He. apply in_map_iff in He as (e0 & <- & He0).
    rewrite color_if_absent_is_dict. now apply H.
  - intros _.
    destruct (PyDict.has_key "title" kvs || PyDict.has_key "description" kvs
              || PyDict.has_key "fields" kvs); [|now rewrite E].
    cbn [Spec.color_if_absent]. destruct (PyDict.has_key "color" kvs); [now rewrite E|].
    now rewrite lookup_set_other, E by discriminate.
Qed.

Lemma merge_color_again (c data : json) :
  Spec.merge_color c (Spec.merge_color c data) = Spec.merge_color c data.
Proof.
  unfold Spec.merge_color at 2 3.
  destruct data as [| | | | | |kvs]; try reflexivity.
  destruct (PyDict.lookup "embeds" kvs) as [embeds|] eqn:E.
  - destruct embeds as [| | | | |embeds|]; cbn [Spec.merge_color]; try now rewrite E.
    rewrite lookup_set_same, set_set, map_map. do 3 f_equal.
    apply map_ext. intros e. apply color_if_absent_again.
  - destruct (PyDict.has_key "title" kvs || PyDict.has_key "description" kvs
              || PyDict.has_key "fields" kvs) eqn:K;
      [|cbn [Spec.merge_color]; now rewrite E, K].
    cbn [Spec.color_if_absent]. destruct (PyDict.has_key "color" kvs) eqn:C.
    + cbn [Spec.merge_color Spec.color_if_absent]. now rewrite E, K, C.
    + cbn [Spec.merge_color Spec.color_if_absent].
      rewrite lookup_set_other, E by discriminate.
      rewrite !has_key_set_other, K by discriminate.
      now rewrite has_key_set_same.
Qed.

(** X3: on a well-built store and payload the merger is idempotent:
    merging the theme into a payload that went through the merger
    returns it as it is. *)
Theorem apply_theme_idempotent {Embed : Type} (w : world Embed) (data : json)
    (guild_id : string) :
  Spec.store_ok (document w) guild_id = true ->
  Spec.payload_ok data = true ->
  exists themed,
    apply_theme data guild_id w = (Ok themed, w)
    /\ apply_theme themed guild_id w = (Ok themed, w).
Proof.
  intros Hstore Hdata.
  assert (Run : forall d,
            apply_theme d guild_id w
            = (match Obs.merged_color (document w) guild_id with
               | Some c => color_payload c d
               | None => Ok d
               end, w)).
  { intros d. rewrite apply_theme_split by store_is_readable.
    now rewrite color_to_merge_ok by exact Hstore. }
  destruct (Obs.merged_color (document w) guild_id) as [c|].
  - exists (Spec.merge_color c data). rewrite !Run.
    rewrite !color_payload_ok by (try apply merge_color_payload_ok; exact Hdata).
    now rewrite merge_color_again.
  - exists data. now rewrite Run.
Qed.

Lemma apply_theme_idempotent_witness :
  let w := Scenario.world_with
             (JDict [("1", JDict [("theme", JDict [("primary", JInt 255); ("secondary", JNull)])])]) in
  let data := JDict [("title", JStr "x"); ("description", JStr "y")] in
  Spec.store_ok (document w) "1" = true
  /\ Spec.payload_ok data = true
  /\ exists themed,
       apply_theme data "1" w = (Ok themed, w)
       /\ apply_theme themed "1" w = (Ok themed, w).
Proof.
  split; [reflexivity | split; [reflexivity|]].
  apply apply_theme_idempotent; reflexivity.
Defined.

Lemma color_if_absent_all_fields (c : json) (embeds : list json) :
  forallb Spec.is_dict embeds = true ->
  Forall2
    (fun e e' =>
       exists fields fields',
         e = JDict fields /\ e' = JDict fields'
         /\ forall k, k <> "color" -> PyDict.lookup k fields' = PyDict.lookup k fields)
    embeds (map (Spec.color_if_absent c) embeds).
Proof.
  induction embeds as [|e l IH]; intros H; [constructor|].
  cbn [forallb] in H. apply andb_prop in H as [He Hl].
  destruct e as [| | | | | |fields]; try discriminate.
  cbn [map]. constructor; [|now apply IH].
  destruct (color_if_absent_fields c fields) as (fields' & E & _ & Hk).
  exists fields, fields'. now rewrite E.
Qed.

Lemma same_fields_all (embeds : list json) :
  forallb Spec.is_dict embeds = true ->
  Forall2
    (fun e e' =>
       exists fields fields',
         e = JDict fields /\ e' = JDict fields'
         /\ forall k, k <> "color" -> PyDict.lookup k fields' = PyDict.lookup k fields)
    embeds embeds.
Proof.
  induction embeds as [|e l IH]; intros H; [constructor|].
  cbn [forallb] in H. apply andb_prop in H as [He Hl].
  destruct e as [| | | | | |fields]; try discriminate.
  constructor; [|now apply IH]. now exists fields, fields.
Qed.

(** X4: on a well-built store and payload the merger touches nothing but
    colors: every top-level field other than [embeds] and [color] is
    returned as it was (the content among them), the list under [embeds]
    keeps its length, and each embed in it keeps every field other than
    [color]; a payload without [embeds] gets none. *)
Theorem apply_theme_frame {Embed : Type} (w : world Embed)
    (kvs : list (string * json)) (guild_id : string) :
  Spec.store_ok (document w) guild_id = true ->
  Spec.payload_ok (JDict kvs) = true ->
  exists kvs',
    apply_theme (JDict kvs) guild_id w = (Ok (JDict kvs'), w)
    /\ (forall k, k <> "embeds" -> k <> "color" ->
          PyDict.lookup k kvs' = PyDict.lookup k kvs)
    /\ (PyDict.lookup "embeds" kvs = None -> PyDict.lookup "embeds" kvs' = None)
    /\ (forall embeds,
          PyDict.lookup "embeds" kvs = Some (JList embeds) ->
          exists embeds',
            PyDict.lookup "embeds" kvs' = Some (JList embeds')
            /\ Forall2
                 (fun e e' =>
                    exists fields fields',
                      e = JDict fields /\ e' = JDict fields'
                      /\ forall k, k <> "color" ->
                           PyDict.lookup k fields' = PyDict.lookup k fields)
                 embeds embeds').
Proof.
  intros Hstore Hdata.
  rewrite apply_theme_split by store_is_readable. rewrite color_to_merge_ok by exact Hstore. cbn [bind_result].
  assert (Same :
    (forall k, k <> "embeds" -> k <> "color" -> PyDict.lookup k kvs = PyDict.lookup k kvs)
    /\ (PyDict.lookup "embeds" kvs = None -> PyDict.lookup "embeds" kvs = None)
    /\ (forall embeds,
          PyDict.lookup "embeds" kvs = Some (JList embeds) ->
          exists embeds',
            PyDict.lookup "embeds" kvs = Some (JList embeds')
            /\ Forall2
                 (fun e e' =>
                    exists fields fields',
                      e = JDict fields /\ e' = JDict fields'
                      /\ forall k, k <> "color" ->
                           PyDict.lookup k fields' = PyDict.lookup k fields)
                 embeds embeds')).
  { repeat split; [trivial|]. intros embeds E. exists embeds. split; [exact E|].
    apply same_fields_all. cbn [Spec.payload_ok] in Hdata. now rewrite E in Hdata. }
  destruct (Obs.merged_color (document w) guild_id) as [c|];
    [|exists kvs; split; [reflexivity | exact Same]].
  rewrite color_payload_ok by exact Hdata. cbn [Spec.merge_color Spec.payload_ok] in *.
  destruct (PyDict.lookup "embeds" kvs) as [embeds|] eqn:E.
  - destruct embeds as [| | | | |embeds|]; try discriminate.
    exists (PyDict.set "embeds" (JList (map (Spec.color_if_absent c) embeds)) kvs).
    split; [reflexivity|]. split; [|split].
    + intros k Hk _. now apply lookup_set_other.
    + discriminate.
    + intros embeds0 E0. injection E0 as <-.
      exists (map (Spec.color_if_absent c) embeds). split; [apply lookup_set_same|].
      now apply color_if_absent_all_fields.
  - destruct (PyDict.has_key "title" kvs || PyDict.has_key "description" kvs
              || PyDict.has_key "fields" kvs);
      [|exists kvs; split; [reflexivity | split; [trivial | split; [trivial | discriminate]]]].
    destruct (color_if_absent_fields c kvs) as (kvs' & Ec & _ & Hk).
    exists kvs'. rewrite Ec. split; [reflexivity|]. split; [|split].
    + intros k _ Hc. now apply Hk.
    + intros _. rewrite Hk by discriminate. exact E.
    + discriminate.
Qed.

Lemma apply_theme_frame_witness :
  let w := Scenario.world_with
             (JDict [("1", JDict [("theme", JDict [("primary", JInt 255); ("secondary", JNull)])])]) in
  let kvs := [("content", JStr "c"); ("embeds", JList [JDict [("title", JStr "x")]])] in
  Spec.store_ok (document w) "1" = true
  /\ Spec.payload_ok (JDict kvs) = true
  /\ exists kvs',
       apply_theme (JDict kvs) "1" w = (Ok (JDict kvs'), w)
       /\ PyDict.lookup "content" kvs' = PyDict.lookup "content" kvs.
Proof.
  split; [reflexivity | split; [reflexivity|]].
  destruct (apply_theme_frame
              (Scenario.world_with
                 (JDict [("1", JDict [("theme", JDict [("primary", JInt 255);
                                                       ("secondary", JNull)])])]))
              [("content", JStr "c"); ("embeds", JList [JDict [("title", JStr "x")]])]
              "1" eq_refl eq_refl) as (kvs' & Run & Keep & _).
  exists kvs'. split; [exact Run|]. apply Keep; discriminate.
Defined.

(** ** The merger and the expander, one after the other *)

Section ExpandFields.

Variable member : Member.t.

Local Abbreviation expand_value := (fun v => replace_placeholders v member).
Local Abbreviation expand_field :=
  (fun kv : string * json => let '(k, v) := kv in (k, replace_placeholders v member)).

Lemma lookup_expanded (k : string) (kvs : list (string * json)) :
  PyDict.lookup k (map expand_field kvs) = option_map expand_value (PyDict.lookup k kvs).
Proof.
  induction kvs as [|[k' v] l IH]; [reflexivity|].
  cbn [map PyDict.lookup]. now destruct (String.eqb k' k).
Qed.

Lemma has_key_expanded (k : string) (kvs : list (string * json)) :
  PyDict.has_key k (map expand_field kvs) = PyDict.has_key k kvs.
Proof.
  unfold PyDict.has_key. rewrite lookup_expanded. now destruct (PyDict.lookup k kvs).
Qed.

Lemma set_expanded (k : string) (v : json) (kvs : list (string * json)) :
  PyDict.set k (replace_placeholders v member) (map expand_field kvs)
  = map expand_field (PyDict.set k v kvs).
Proof.
  induction kvs as [|[k' v'] l IH]; [reflexivity|].
  cbn [map PyDict.set]. destruct (String.eqb k' k); cbn [map]; [reflexivity|].
  now rewrite IH.
Qed.

Lemma is_dict_expanded (v : json) :
  Spec.is_dict (replace_placeholders v member) = Spec.is_dict v.
Proof. now destruct v. Qed.

Lemma payload_ok_expanded (data : json) :
  Spec.payload_ok (replace_placeholders data member) = Spec.payload_ok data.
Proof.
  destruct data as [| | | | | |kvs]; try reflexivity.
  cbn [replace_placeholders Spec.payload_ok]. rewrite lookup_expanded.
  destruct (PyDict.lookup "embeds" kvs) as [[| | | | |embeds|]|]; try reflexivity.
  cbn [option_map replace_placeholders].
  induction embeds as [|e l IH]; [reflexivity|].
  cbn [map forallb]. now rewrite is_dict_expanded, IH.
Qed.

Lemma color_if_absent_expanded (c e : json) :
  replace_placeholders c member = c ->
  Spec.color_if_absent c (replace_placeholders e member)
  = replace_placeholders (Spec.color_if_absent c e) member.
Proof.
  intros Hc. destruct e as [| | | | | |kvs]; try reflexivity.
  cbn [replace_placeholders Spec.color_if_absent]. rewrite has_key_expanded.
  destruct (PyDict.has_key "color" kvs); [reflexivity|].
  cbn [replace_placeholders]. f_equal. rewrite <- set_expanded. now rewrite Hc.
Qed.

Lemma merge_color_expanded (c data : json) :
  replace_placeholders c member = c ->
  Spec.merge_color c (replace_placeholders data member)
  = replace_placeholders (Spec.merge_color c data) member.
Proof.
  intros Hc. destruct data as [| | | | | |kvs]; try reflexivity.
  cbn [replace_placeholders Spec.merge_color]. rewrite lookup_expanded.
  destruct (PyDict.lookup "embeds" kvs) as [[| | | | |embeds|]|]; try reflexivity.
  - cbn [option_map replace_placeholders]. f_equal.
    rewrite <- set_expanded. cbn [replace_placeholders]. do 2 f_equal.
    rewrite !map_map. apply map_ext. intros e. now apply color_if_absent_expanded.
  - cbn [option_map]. rewrite !has_key_expanded.
    destruct (PyDict.has_key "title" kvs || PyDict.has_key "description" kvs
              || PyDict.has_key "fields" kvs); [|reflexivity].
    now apply (color_if_absent_expanded c (JDict kvs)).
Qed.

End ExpandFields.

(** X5: on a well-built store and payload, with a stored color that the
    expander leaves alone (any number does), merging the theme and
    expanding the placeholders can be done in either order: the merger
    applied to the expanded payload returns the expansion of the merged
    payload. *)
Theorem apply_theme_commutes_with_expansion {Embed : Type} (w : world Embed)
    (data : json) (guild_id : string) (member : Member.t) :
  Spec.store_ok (document w) guild_id = true ->
  Spec.payload_ok data = true ->
  (forall c, Obs.merged_color (document w) guild_id = Some c ->
             replace_placeholders c member = c) ->
  exists themed,
    apply_theme data guild_id w = (Ok themed, w)
    /\ apply_theme (replace_placeholders data member) guild_id w
       = (Ok (replace_placeholders themed member), w).
Proof.
  intros Hstore Hdata Hcolor.
  rewrite !apply_theme_split by store_is_readable. rewrite color_to_merge_ok by exact Hstore. cbn [bind_result].
  destruct (Obs.merged_color (document w) guild_id) as [c|].
  - exists (Spec.merge_color c data).
    rewrite !color_payload_ok by (try rewrite payload_ok_expanded; exact Hdata).
    now rewrite merge_color_expanded by now apply Hcolor.
  - now exists data.
Qed.

Lemma apply_theme_commutes_with_expansion_witness :
  let w := Scenario.world_with
             (JDict [("1", JDict [("theme", JDict [("primary", JInt 255); ("secondary", JNull)])])]) in
  let data := JDict [("content", JStr "hi {user}");
                     ("embeds", JList [JDict [("title", JStr "{username}")]])] in
  let m := Scenario.member 99 "neo" (Scenario.guild 1 [] []) in
  Spec.store_ok (document w) "1" = true
  /\ Spec.payload_ok data = true
  /\ (forall c, Obs.merged_color (document w) "1" = Some c -> replace_placeholders c m = c)
  /\ exists themed,
       apply_theme data "1" w = (Ok themed, w)
       /\ apply_theme (replace_placeholders data m) "1" w
          = (Ok (replace_placeholders themed m), w).
Proof.
  assert (H : forall c,
            Obs.merged_color
              (document
                 (Scenario.world_with
                    (JDict [("1", JDict [("theme", JDict [("primary", JInt 255);
                                                          ("secondary", JNull)])])]))) "1"
            = Some c ->
            replace_placeholders c (Scenario.member 99 "neo" (Scenario.guild 1 [] [])) = c).
  { intros c E. injection E as <-. reflexivity. }
  split; [reflexivity | split; [reflexivity | split; [exact H|]]].
  apply apply_theme_commutes_with_expansion; [reflexivity | reflexivity | exact H].
Defined.

(** ** The merger on a payload it cannot color *)

Lemma set_color_raises (c e : json) (x : exc) :
  set_color c e = Raise x -> x = TypeError.
Proof.
  unfold set_color, py_not_in.
  destruct e; cbn; try congruence.
  - destruct (PyStr.contains "color" s); cbn; congruence.
  - destruct (existsb (str_equals "color") items); cbn; congruence.
  - destruct (PyDict.has_key "color" kvs); cbn; congruence.
Qed.

Lemma set_color_plain_scalar (c e : json) :
  Obs.is_plain_scalar e = true -> set_color c e = Raise TypeError.
Proof. now destruct e. Qed.

Lemma comprehension_plain_scalar (c : json) (embeds : list json) :
  existsb Obs.is_plain_scalar embeds = true ->
  comprehension (set_color c) embeds = Raise TypeError.
Proof.
  induction embeds as [|e l IH]; intros H; [discriminate|].
  cbn [existsb] in H. cbn [comprehension].
  destruct (set_color c e) as [y|x] eqn:E.
  - cbn [bind_result]. destruct (Obs.is_plain_scalar e) eqn:P.
    + rewrite set_color_plain_scalar in E by exact P. discriminate.
    + cbn [orb] in H. now rewrite IH.
  - apply set_color_raises in E. now subst x.
Qed.

(** X6: when a truthy primary color is stored, a payload the merger
    cannot color (a number, a boolean or null; or an object whose
    [embeds] is one of those, or a list holding one of those) makes it
    raise [TypeError]; the world is left as it was. *)
Theorem apply_theme_type_error {Embed : Type} (w : world Embed) (data c : json)
    (guild_id : string) :
  Spec.store_ok (document w) guild_id = true ->
  Obs.merged_color (document w) guild_id = Some c ->
  Obs.unmergeable data = true ->
  apply_theme data guild_id w = (Raise TypeError, w).
Proof.
  intros Hstore Hc Hdata.
  rewrite apply_theme_split by store_is_readable. rewrite color_to_merge_ok, Hc by exact Hstore.
  cbn [bind_result]. f_equal. unfold color_payload, Obs.unmergeable in *.
  destruct data as [| | | | | |kvs]; try reflexivity; try discriminate.
  cbn [py_in bind_result py_getitem]. unfold PyDict.has_key at 1.
  destruct (PyDict.lookup "embeds" kvs) as [embeds|]; [|discriminate].
  cbn [bind_result].
  destruct embeds as [| | | | |embeds|]; try reflexivity; try discriminate.
  cbn [py_iter bind_result]. now rewrite comprehension_plain_scalar.
Qed.

Lemma apply_theme_type_error_witness :
  let w := Scenario.world_with
             (JDict [("1", JDict [("theme", JDict [("primary", JInt 255); ("secondary", JNull)])])]) in
  let data := JDict [("embeds", JList [JDict [("title", JStr "x")]; JInt 7])] in
  Spec.store_ok (document w) "1" = true
  /\ Obs.merged_color (document w) "1" = Some (JInt 255)
  /\ Obs.unmergeable data = true
  /\ apply_theme data "1" w = (Raise TypeError, w).
Proof.
  split; [reflexivity | split; [reflexivity | split; [reflexivity|]]].
  now apply (apply_theme_type_error _ _ (JInt 255)).
Defined.

(** ** What [json.dump] can write *)

Lemma dumpable_lookup (k : string) (kvs : list (string * json)) (v : json) :
  dumpable (JDict kvs) = true -> PyDict.lookup k kvs = Some v -> dumpable v = true.
Proof.
  cbn [dumpable]. induction kvs as [|[k' v'] l IH]; [discriminate|].
  cbn [forallb PyDict.lookup fst snd]. intros H E. apply andb_prop in H as [Hv Hl].
  destruct (String.eqb k' k); [now injection E as <- | now apply IH].
Qed.

Lemma dumpable_set (k : string) (v : json) (kvs : list (string * json)) :
  dumpable (JDict kvs) = true ->
  dumpable (JDict (PyDict.set k v kvs)) = dumpable v.
Proof.
  cbn [dumpable]. induction kvs as [|[k' v'] l IH]; cbn [forallb PyDict.set fst snd].
  - intros _. apply andb_true_r.
  - intros H. apply andb_prop in H as [Hv Hl].
    destruct (String.eqb k' k); cbn [forallb fst snd].
    + now rewrite Hl, andb_true_r.
    + now rewrite Hv, IH.
Qed.

Lemma dumpable_update (other kvs : list (string * json)) :
  dumpable (JDict kvs) = true ->
  dumpable (JDict other) = true ->
  dumpable (JDict (PyDict.update other kvs)) = true.
Proof.
  unfold PyDict.update. revert kvs.
  induction other as [|[k v] l IH]; intros kvs H Ho; [exact H|].
  change (dumpable (JDict ((k, v) :: l))) with (dumpable v && dumpable (JDict l)) in Ho.
  apply andb_prop in Ho as [Hv Hl].
  cbn [fold_left fst snd]. apply IH; [|exact Hl]. now rewrite dumpable_set.
Qed.

Lemma dumpable_entry_of (config : json) (guild_id : string) :
  dumpable config = true -> dumpable (JDict (Spec.entry_of config guild_id)) = true.
Proof.
  unfold Spec.entry_of. destruct config as [| | | | | |guilds]; try reflexivity.
  intros H. destruct (PyDict.lookup guild_id guilds) as [entry|] eqn:E; [|reflexivity].
  apply (dumpable_lookup _ _ _ H) in E. now destruct entry.
Qed.

Lemma dumpable_with_entry (config : json) (guild_id : string) (fields : list (string * json)) :
  dumpable config = true ->
  dumpable (Spec.with_entry config guild_id fields)
  = match config with
    | JDict _ => dumpable (JDict fields)
    | _ => true
    end.
Proof.
  unfold Spec.with_entry. destruct config; try (intros H; exact H).
  intros H. now rewrite dumpable_set.
Qed.

(** The store the theme command writes can be written exactly when the
    two colors are within the limit, the rest having been read from the
    file. *)
Lemma dumpable_theme_store (config : json) (guild_id : string) (p : Z) (s : option Z) :
  Spec.entry_ok config guild_id = true ->
  dumpable config = true ->
  dumpable (Spec.with_entry config guild_id
              (PyDict.set "theme" (Spec.theme_object p s) (Spec.entry_of config guild_id)))
  = dumpable (Spec.theme_object p s).
Proof.
  intros Hok H. rewrite dumpable_with_entry by exact H.
  unfold Spec.entry_ok in Hok. destruct config; try discriminate.
  apply dumpable_set. now apply dumpable_entry_of.
Qed.

(** ** The theme command on every store *)

(** The statements that create the guild's entry when it is missing, read
    it, store one field in it and keep the changed entry in the config:
    they go through exactly on a well-built store, and raise [TypeError]
    otherwise. *)
Lemma entry_field_write (config : json) (guild_id k : string) (v : json) :
  (let* absent := py_not_in guild_id config in
   let* config' := if absent then py_setitem config guild_id (JDict []) else Ok config in
   let* entry := py_getitem config' guild_id in
   let* entry' := py_setitem entry k v in
   py_setitem config' guild_id entry')
  = if Spec.entry_ok config guild_id
    then Ok (Spec.with_entry config guild_id (PyDict.set k v (Spec.entry_of config guild_id)))
    else Raise TypeError.
Proof.
  unfold Spec.entry_ok, Spec.entry_of, Spec.with_entry, py_not_in.
  destruct config as [| | | |s|items|guilds]; try reflexivity.
  - cbn [py_in bind_result]. now destruct (PyStr.contains guild_id s).
  - cbn [py_in bind_result]. now destruct (existsb (str_equals guild_id) items).
  - cbn [py_in bind_result]. unfold PyDict.has_key.
    destruct (PyDict.lookup guild_id guilds) as [entry|] eqn:E.
    + cbn [negb bind_result py_getitem]. rewrite E. cbn [bind_result].
      now destruct entry.
    + cbn [negb py_setitem bind_result py_getitem].
      rewrite lookup_set_same. cbn [py_setitem bind_result]. now rewrite set_set.
Qed.

Section ThemeCommand.

Variable Embed : Type.
Variable exc_str : exc -> string.

(** What the theme command does, store by store and input by input. *)
Lemma theme_command_run (i : Interaction.t) (primary : string)
    (secondary : option string) (w : world Embed) :
  let guild_id := str_of_id (Interaction.guild_id i) in
  let invalid :=
    Respond "Invalid hex color format. Use format like #FF5733." true in
  let failed (e : exc) :=
    (Ok tt,
     {| config_file := config_file w;
        trace := (trace w ++ [LogError ("Theme error: " ++ exc_str e)])
                 ++ [Respond "Failed to save theme." true] |}) in
  theme_command exc_str i primary secondary w
  = match Spec.hex_color primary, Spec.secondary_color secondary with
    | Ok p, Ok s =>
        match loaded w with
        | Ok config =>
            if Spec.entry_ok config guild_id then
              let store :=
                Spec.with_entry config guild_id
                  (PyDict.set "theme" (Spec.theme_object p s)
                     (Spec.entry_of config guild_id)) in
              if dumpable store then
                (Ok tt,
                 {| config_file := Holds store;
                    trace :=
                      trace w ++
                      [RespondEmbed "Theme Updated" ("Primary color set to " ++ primary) p
                         (match s, secondary with
                          | Some n, Some text =>
                              if negb (Z.eqb n 0) then [("Secondary", text)] else []
                          | _, _ => []
                          end)] |})
              else
                (Ok tt,
                 {| config_file := Unreadable JSONDecodeError;
                    trace := trace w ++ [invalid] |})
            else failed TypeError
        | Raise e =>
            if exc_isinstance e ValueError
            then (Ok tt, {| config_file := config_file w; trace := trace w ++ [invalid] |})
            else failed e
        end
    | _, _ => (Ok tt, {| config_file := config_file w; trace := trace w ++ [invalid] |})
    end.
Proof.
  intros guild_id invalid failed. subst invalid failed.
  unfold theme_command, try_except, bind at 1, lift at 1.
  unfold Spec.hex_color at 1.
  destruct (PyStr.int16 (PyStr.strip "#" primary)) as [p|e] eqn:Ep.
  2:{ apply int16_raises in Ep. subst e. reflexivity. }
  unfold bind at 1, lift at 1.
  assert (Es :
    match secondary with
    | Some s =>
        if truthy (JStr s)
        then let* n := PyStr.int16 (PyStr.strip "#" s) in Ok (Some n)
        else Ok None
    | None => Ok None
    end = Spec.secondary_color secondary).
  { destruct secondary as [s|]; [|reflexivity]. cbn [truthy Spec.secondary_color].
    unfold Spec.hex_color. destruct (String.eqb s ""); [reflexivity|].
    cbn [negb]. now destruct (PyStr.int16 (PyStr.strip "#" s)). }
  rewrite Es. clear Es.
  destruct (Spec.secondary_color secondary) as [s|e] eqn:Esec.
  2:{ assert (e = ValueError) as ->; [|reflexivity].
      destruct secondary as [t|]; [|discriminate]. cbn [Spec.secondary_color] in Esec.
      destruct (String.eqb t ""); [discriminate|]. unfold Spec.hex_color in Esec.
      destruct (PyStr.int16 (PyStr.strip "#" t)) eqn:Et; [discriminate|].
      injection Esec as <-. now apply int16_raises in Et. }
  unfold bind at 1. rewrite load_config_loaded. fold guild_id.
  destruct (loaded w) as [config|e].
  2:{ unfold emit, bind. now destruct (exc_isinstance e ValueError). }
  pose proof (entry_field_write config guild_id "theme" (Spec.theme_object p s)) as R.
  unfold Spec.theme_object in R at 1.
  unfold bind, lift, ret, save_config, emit.
  destruct (py_not_in guild_id config) as [[|]|x]; cbn [bind_result] in R;
    cbv beta iota.
  all: repeat match type of R with
         | bind_result ?x _ = _ => destruct x as [?|?]; cbn [bind_result] in R; cbv beta iota
         end.
  all: match type of R with
       | Raise _ = _ =>
           destruct (Spec.entry_ok config guild_id); [discriminate|];
           injection R as ->; reflexivity
       | _ =>
           rewrite R; destruct (Spec.entry_ok config guild_id); [|reflexivity];
           cbv zeta;
           match goal with
           | |- context [dumpable ?x] => destruct (dumpable x)
           end; reflexivity
       end.
Qed.

End ThemeCommand.

(** X7: for every input and every state of the store, the theme command
    does not raise and answers exactly once.  When the answer is a text
    (an error) it is private, and the store is left as it was, save in one
    case: the colors parse but [json.dump] cannot write them, which is
    answered with the validation error and leaves [config.json] cut off.
    When the answer is the confirmation embed, the file holds a
    document. *)
Theorem theme_command_answers_once {Embed : Type} (exc_str : exc -> string)
    (i : Interaction.t) (primary : string) (secondary : option string) (w : world Embed) :
  exists file' evs,
    theme_command exc_str i primary secondary w
    = (Ok tt, {| config_file := file'; trace := trace w ++ evs |})
    /\ Obs.count is_response evs = 1%nat
    /\ (forall text ephemeral,
          In (Respond text ephemeral) evs ->
          ephemeral = true
          /\ (file' = config_file w
              \/ file' = Unreadable JSONDecodeError
                 /\ text = "Invalid hex color format. Use format like #FF5733."))
    /\ (forall title description color fields,
          In (RespondEmbed title description color fields) evs ->
          exists store, file' = Holds store /\ dumpable store = true).
Proof.
  rewrite theme_command_run. cbv zeta.
  destruct (Spec.hex_color primary) as [p|]; [destruct (Spec.secondary_color secondary) as [s|]|].
  1: destruct (loaded w) as [config|e];
       [destruct (Spec.entry_ok config (str_of_id (Interaction.guild_id i)));
          [match goal with
           | |- context [dumpable ?x] => destruct (dumpable x) eqn:Hdump
           end|]
       | destruct (exc_isinstance e ValueError)].
  all: rewrite <- ?app_assoc; cbn [app]; do 2 eexists; (split; [reflexivity|]).
  all: split; [reflexivity|].
  all: split; intros; cbn [In] in *.
  all: repeat match goal with
         | H : _ \/ _ |- _ => destruct H as [H|H]
         end; try discriminate; try contradiction.
  all: try (match goal with
            | H : Respond _ _ = Respond _ _ |- _ => injection H as <- <-
            end; split; [reflexivity|]; first [now left | now right]).
  eexists. split; [reflexivity | exact Hdump].
Qed.

(** X8: when the colors parse, the file can be read, but the store is not
    well built (the document is no object, or the guild's entry is no
    object), the theme command logs the error, answers "Failed to save
    theme." in private, and leaves the store as it was. *)
Theorem theme_command_broken_store {Embed : Type} (exc_str : exc -> string)
    (i : Interaction.t) (primary : string) (secondary : option string) (w : world Embed)
    (p : Z) (s : option Z) :
  Spec.hex_color primary = Ok p ->
  Spec.secondary_color secondary = Ok s ->
  readable w = true ->
  Spec.entry_ok (document w) (str_of_id (Interaction.guild_id i)) = false ->
  theme_command exc_str i primary secondary w
  = (Ok tt,
     {| config_file := config_file w;
        trace := trace w ++ [LogError ("Theme error: " ++ exc_str TypeError);
                             Respond "Failed to save theme." true] |}).
Proof.
  intros Hp Hs Hread Hbad. rewrite theme_command_run, Hp, Hs, loaded_document by exact Hread.
  cbv zeta. rewrite Hbad. now rewrite <- app_assoc.
Qed.

Lemma theme_command_broken_store_witness :
  let w := Scenario.world_with (JDict [("1", JList [JStr "theme"])]) in
  let i := Scenario.interaction 1 5 in
  Spec.hex_color "#FF5733" = Ok 16734003%Z
  /\ Spec.secondary_color None = Ok None
  /\ readable w = true
  /\ Spec.entry_ok (document w) (str_of_id (Interaction.guild_id i)) = false
  /\ theme_command Runtime.exc_str i "#FF5733" None w
     = (Ok tt,
        {| config_file := config_file w;
           trace := [LogError "Theme error: TypeError"; Respond "Failed to save theme." true] |}).
Proof.
  split; [reflexivity | split; [reflexivity | split; [reflexivity | split; [reflexivity|]]]].
  exact (theme_command_broken_store Runtime.exc_str (Scenario.interaction 1 5) "#FF5733" None
           (Scenario.world_with (JDict [("1", JList [JStr "theme"])]))
           16734003%Z None eq_refl eq_refl eq_refl eq_refl).
Defined.

Lemma entry_with_entry_same (config : json) (guild_id : string) (fields : list (string * json)) :
  Spec.entry_ok config guild_id = true ->
  Obs.entry (Spec.with_entry config guild_id fields) guild_id = Some (JDict fields).
Proof.
  unfold Spec.entry_ok, Spec.with_entry, Obs.entry.
  destruct config; try discriminate. intros _. apply lookup_set_same.
Qed.

Lemma entry_with_entry_other (config : json) (guild_id g : string)
    (fields : list (string * json)) :
  g <> guild_id ->
  Obs.entry (Spec.with_entry config guild_id fields) g = Obs.entry config g.
Proof.
  intros H. unfold Spec.with_entry, Obs.entry.
  destruct config; try reflexivity. now apply lookup_set_other.
Qed.

(** X9: a theme command that goes through changes one field and nothing
    else.  On a well-built store that [json.dump] can write (as it can
    every document [json.load] returned), with two colors that parse and
    have no more than 4300 decimal digits: every other guild's entry is
    what it was, and the guild's own entry keeps every field other than
    [theme] (its welcome configuration among them), while [theme] now
    holds the two parsed colors. *)
Theorem theme_command_keeps_the_rest {Embed : Type} (exc_str : exc -> string)
    (i : Interaction.t) (primary : string) (secondary : option string) (w : world Embed)
    (p : Z) (s : option Z) :
  let guild_id := str_of_id (Interaction.guild_id i) in
  Spec.hex_color primary = Ok p ->
  Spec.secondary_color secondary = Ok s ->
  Spec.entry_ok (document w) guild_id = true ->
  dumpable (document w) = true ->
  dumpable (Spec.theme_object p s) = true ->
  exists w' fields',
    theme_command exc_str i primary secondary w = (Ok tt, w')
    /\ (forall g, g <> guild_id -> Obs.entry (document w') g = Obs.entry (document w) g)
    /\ Obs.entry (document w') guild_id = Some (JDict fields')
    /\ PyDict.lookup "theme" fields'
       = Some (JDict [("primary", JInt p);
                      ("secondary", match s with Some n => JInt n | None => JNull end)])
    /\ (forall k, k <> "theme" ->
          PyDict.lookup k fields' = PyDict.lookup k (Spec.entry_of (document w) guild_id)).
Proof.
  intros guild_id Hp Hs Hok Hdoc Hcolors.
  rewrite theme_command_run, Hp, Hs, loaded_document by store_is_readable.
  cbv zeta. fold guild_id. rewrite Hok, dumpable_theme_store, Hcolors by assumption.
  eexists; eexists. split; [reflexivity|]. unfold document at 1 3. cbn [config_file].
  split; [|split; [|split]].
  - intros g Hg. now apply entry_with_entry_other.
  - now apply entry_with_entry_same.
  - apply lookup_set_same.
  - intros k Hk. now apply lookup_set_other.
Qed.

Lemma theme_command_keeps_the_rest_witness :
  let w := Scenario.world_with
             (JDict [("2", JDict [("channel_id", JInt 7)]);
                     ("1", JDict [("channel_id", JInt 42); ("role_id", JNull)])]) in
  let i := Scenario.interaction 1 5 in
  Spec.hex_color "#0000ff" = Ok 255%Z
  /\ Spec.secondary_color (Some "#10") = Ok (Some 16%Z)
  /\ Spec.entry_ok (document w) (str_of_id (Interaction.guild_id i)) = true
  /\ dumpable (document w) = true
  /\ dumpable (Spec.theme_object 255 (Some 16%Z)) = true
  /\ exists w' fields',
       theme_command Runtime.exc_str i "#0000ff" (Some "#10") w = (Ok tt, w')
       /\ Obs.entry (document w') "2" = Obs.entry (document w) "2"
       /\ Obs.entry (document w') "1" = Some (JDict fields')
       /\ PyDict.lookup "channel_id" fields' = Some (JInt 42).
Proof.
  split; [reflexivity | split; [reflexivity | split; [reflexivity|]]].
  split; [reflexivity | split; [reflexivity|]].
  destruct (theme_command_keeps_the_rest Runtime.exc_str (Scenario.interaction 1 5)
              "#0000ff" (Some "#10")
              (Scenario.world_with
                 (JDict [("2", JDict [("channel_id", JInt 7)]);
                         ("1", JDict [("channel_id", JInt 42); ("role_id", JNull)])]))
              255%Z (Some 16%Z) eq_refl eq_refl eq_refl eq_refl eq_refl)
    as (w' & fields' & Run & Others & Own & _ & Keep).
  exists w', fields'. split; [exact Run|]. split; [apply Others; discriminate|].
  split; [exact Own|]. rewrite Keep by discriminate. reflexivity.
Defined.

(** X10: what the theme command stores is what the merger reads back: on
    a well-built store that [json.dump] can write, after a theme command
    whose colors parse and have no more than 4300 decimal digits, the
    merger gives every well-formed payload of that guild the parsed
    primary color where it defines none, and leaves it unchanged when
    that color is 0. *)
Theorem theme_command_then_apply_theme {Embed : Type} (exc_str : exc -> string)
    (i : Interaction.t) (primary : string) (secondary : option string) (w : world Embed)
    (p : Z) (s : option Z) (data : json) :
  let guild_id := str_of_id (Interaction.guild_id i) in
  Spec.hex_color primary = Ok p ->
  Spec.secondary_color secondary = Ok s ->
  Spec.entry_ok (document w) guild_id = true ->
  dumpable (document w) = true ->
  dumpable (Spec.theme_object p s) = true ->
  Spec.payload_ok data = true ->
  exists w',
    theme_command exc_str i primary secondary w = (Ok tt, w')
    /\ apply_theme data guild_id w'
       = (Ok (if Z.eqb p 0 then data else Spec.merge_color (JInt p) data), w').
Proof.
  intros guild_id Hp Hs Hok Hdoc Hcolors Hdata.
  rewrite theme_command_run, Hp, Hs, loaded_document by store_is_readable.
  cbv zeta. fold guild_id. rewrite Hok, dumpable_theme_store, Hcolors by assumption.
  eexists. split; [reflexivity|].
  rewrite apply_theme_split by reflexivity. unfold document at 1. cbn [config_file].
  assert (Hentry : exists guilds, document w = JDict guilds).
  { unfold Spec.entry_ok in Hok. destruct (document w); try discriminate. now eexists. }
  destruct Hentry as [guilds ->]. cbn [Spec.with_entry].
  unfold color_to_merge, py_not_in. cbn [py_in bind_result py_getitem].
  unfold PyDict.has_key. rewrite !lookup_set_same. cbn [negb bind_result py_in py_getitem].
  unfold PyDict.has_key. rewrite !lookup_set_same. cbn [negb bind_result].
  unfold Spec.theme_object. cbn [py_get PyDict.lookup String.eqb Ascii.eqb Bool.eqb bind_result truthy].
  destruct (Z.eqb p 0); cbn [negb bind_result]; [reflexivity|].
  now rewrite color_payload_ok.
Qed.

Lemma theme_command_then_apply_theme_witness :
  let w := Scenario.world_with (JDict [("1", JDict [("channel_id", JInt 42)])]) in
  let i := Scenario.interaction 1 5 in
  let data := JDict [("title", JStr "x")] in
  Spec.hex_color "#FF5733" = Ok 16734003%Z
  /\ Spec.secondary_color None = Ok None
  /\ Spec.entry_ok (document w) (str_of_id (Interaction.guild_id i)) = true
  /\ dumpable (document w) = true
  /\ dumpable (Spec.theme_object 16734003 None) = true
  /\ Spec.payload_ok data = true
  /\ exists w',
       theme_command Runtime.exc_str i "#FF5733" None w = (Ok tt, w')
       /\ apply_theme data "1" w'
          = (Ok (JDict [("title", JStr "x"); ("color", JInt 16734003)]), w').
Proof.
  split; [reflexivity | split; [reflexivity | split; [reflexivity|]]].
  split; [reflexivity | split; [reflexivity | split; [reflexivity|]]].
  exact (theme_command_then_apply_theme Runtime.exc_str (Scenario.interaction 1 5)
           "#FF5733" None
           (Scenario.world_with (JDict [("1", JDict [("channel_id", JInt 42)])]))
           16734003%Z None (JDict [("title", JStr "x")])
           eq_refl eq_refl eq_refl eq_refl eq_refl eq_refl).
Defined.

(** ** Color strings *)

Lemma hex_digit_facts (c : ascii) (d : Z) :
  PyStr.hex_digit c = Some d ->
  PyStr.is_space c = false
  /\ Ascii.eqb c "_" = false /\ Ascii.eqb c "#" = false
  /\ Ascii.eqb c "+" = false /\ Ascii.eqb c "-" = false
  /\ Ascii.eqb c "x" = false /\ Ascii.eqb c "X" = false
  /\ (0 <= d < 16)%Z.
Proof.
  destruct c as [[] [] [] [] [] [] [] []]; vm_compute; intros H;
    try discriminate; injection H as <-; repeat split; congruence.
Qed.

Lemma scan_hex_digits (ds : string) :
  Obs.all_hex ds = true ->
  forall acc n,
    PyStr.scan_hex ds acc n false
    = Some (Obs.hex_value_from acc ds, (n + String.length ds)%nat, EmptyString).
Proof.
  induction ds as [|c r IH]; intros H acc n.
  - cbn. now rewrite Nat.add_0_r.
  - cbn [Obs.all_hex] in H. cbn [PyStr.scan_hex Obs.hex_value_from String.length].
    destruct (PyStr.hex_digit c) as [d|] eqn:E; [|discriminate].
    destruct (hex_digit_facts c d E) as (_ & -> & _).
    rewrite IH by exact H. now rewrite Nat.add_succ_r.
Qed.

Lemma rstrip_hex_digits (ds : string) :
  Obs.all_hex ds = true -> PyStr.rstrip "#" ds = ds.
Proof.
  induction ds as [|c r IH]; intros H; [reflexivity|].
  cbn [Obs.all_hex] in H. cbn [PyStr.rstrip].
  destruct (PyStr.hex_digit c) as [d|] eqn:E; [|discriminate].
  destruct (hex_digit_facts c d E) as (_ & _ & -> & _).
  rewrite IH by exact H. now destruct r.
Qed.

Lemma hex_value_from_bounds (ds : string) :
  forall acc, (0 <= acc)%Z ->
    (0 <= Obs.hex_value_from acc ds
     < (acc + 1) * 16 ^ Z.of_nat (String.length ds))%Z.
Proof.
  induction ds as [|c r IH]; intros acc Hacc.
  - cbn. lia.
  - cbn [Obs.hex_value_from String.length].
    destruct (PyStr.hex_digit c) as [d|] eqn:E.
    + destruct (hex_digit_facts c d E) as (_ & _ & _ & _ & _ & _ & _ & Hd).
      specialize (IH (16 * acc + d)%Z ltac:(lia)).
      rewrite Nat2Z.inj_succ, Z.pow_succ_r by lia.
      assert (0 < 16 ^ Z.of_nat (String.length r))%Z by (apply Z.pow_pos_nonneg; lia).
      nia.
    + rewrite Nat2Z.inj_succ, Z.pow_succ_r by lia.
      assert (0 < 16 ^ Z.of_nat (String.length r))%Z by (apply Z.pow_pos_nonneg; lia).
      nia.
Qed.

(** [int(s, 16)] on a string of digits, with or without a minus sign. *)
Lemma int16_ascii_hex_digits (ds : string) :
  ds <> EmptyString -> Obs.all_hex ds = true ->
  PyStr.int16_ascii ds = Ok (Obs.hex_value ds)
  /\ PyStr.int16_ascii (String "-" ds) = Ok (- Obs.hex_value ds)%Z.
Proof.
  intros Hne Hall. destruct ds as [|c r]; [contradiction|].
  pose proof (scan_hex_digits _ Hall 0%Z 0%nat) as R.
  fold (Obs.hex_value (String c r)) in R. cbn [String.length Nat.add] in R.
  cbn [Obs.all_hex] in Hall.
  destruct (PyStr.hex_digit c) as [d|] eqn:E; [|discriminate].
  assert (Hzero : forall x r0, r = String x r0 ->
            Ascii.eqb x "x" = false /\ Ascii.eqb x "X" = false).
  { intros x r0 ->. cbn [Obs.all_hex] in Hall.
    destruct (PyStr.hex_digit x) as [dx|] eqn:Ex; [|discriminate].
    destruct (hex_digit_facts x dx Ex) as (_ & _ & _ & _ & _ & Hx & HX & _). now split. }
  clear Hall Hne.
  destruct c as [[] [] [] [] [] [] [] []]; vm_compute in E; try discriminate E; clear E;
    unfold PyStr.int16_ascii; cbn [PyStr.skip_spaces];
    repeat match goal with
           | |- context [PyStr.is_space ?c] =>
               let b := eval vm_compute in (PyStr.is_space c) in
               change (PyStr.is_space c) with b
           end;
    cbv beta iota zeta.
  all: try (rewrite !R; cbv beta iota; cbn [PyStr.skip_spaces]; split; f_equal; lia).
  (* the digit 0: what follows it is a digit, not the x of a prefix *)
  destruct r as [|x r0]; [split; reflexivity|].
  destruct (Hzero x r0 eq_refl) as [-> ->]. cbn [orb]. cbv beta iota zeta.
  rewrite !R. cbv beta iota. cbn [PyStr.skip_spaces]. split; f_equal; lia.
Qed.

(** The digits are ASCII text, which [int] reads as it is. *)
Lemma hex_digit_ascii (c : ascii) (d : Z) :
  PyStr.hex_digit c = Some d -> (Z.of_nat (nat_of_ascii c) <? 128)%Z = true.
Proof.
  destruct c as [[] [] [] [] [] [] [] []]; vm_compute; intros H;
    try discriminate; reflexivity.
Qed.

Lemma ascii_form_hex_digits (ds : string) :
  Obs.all_hex ds = true -> PyStr.ascii_form ds = Some ds.
Proof.
  unfold PyStr.ascii_form. induction ds as [|c r IH]; intros H; [reflexivity|].
  cbn [Obs.all_hex] in H. cbn [PyStr.ascii_form_from]. cbv zeta.
  destruct (PyStr.hex_digit c) as [d|] eqn:E; [|discriminate].
  rewrite (hex_digit_ascii c d E), IH by exact H. reflexivity.
Qed.

Lemma int16_hex_digits (ds : string) :
  ds <> EmptyString -> Obs.all_hex ds = true ->
  PyStr.int16 ds = Ok (Obs.hex_value ds)
  /\ PyStr.int16 (String "-" ds) = Ok (- Obs.hex_value ds)%Z.
Proof.
  intros Hne Hall. destruct (int16_ascii_hex_digits ds Hne Hall) as [P N].
  unfold PyStr.int16.
  change (PyStr.ascii_form (String "-" ds))
    with (option_map (String "-") (PyStr.ascii_form ds)).
  rewrite ascii_form_hex_digits by exact Hall. cbn [option_map]. now split.
Qed.

(** Digit strings of 3571 characters or fewer write numbers that [str]
    converts: [16 ^ 3571] has 4300 decimal digits. *)
Lemma hex_value_convertible (ds : string) :
  (String.length ds <= 3571)%nat ->
  PyInt.convertible (Obs.hex_value ds) = true
  /\ PyInt.convertible (- Obs.hex_value ds) = true.
Proof.
  intros Hlen.
  pose proof (hex_value_from_bounds ds 0%Z ltac:(lia)) as B.
  fold (Obs.hex_value ds) in B. rewrite Z.add_0_l, Z.mul_1_l in B.
  assert (Hpow : (16 ^ Z.of_nat (String.length ds) <= 16 ^ 3571)%Z)
    by (apply Z.pow_le_mono_r; lia).
  assert (Hbound : (16 ^ 3571 < PyInt.str_bound)%Z) by (vm_compute; reflexivity).
  unfold PyInt.convertible. rewrite Z.abs_opp, Z.abs_eq by apply B.
  assert (Obs.hex_value ds < PyInt.str_bound)%Z.
  { eapply Z.lt_le_trans; [apply B|]. eapply Z.le_trans; [exact Hpow|]. now apply Z.lt_le_incl. }
  split; now apply Z.ltb_lt.
Qed.

Lemma strip_hash_digits (ds : string) :
  ds <> EmptyString -> Obs.all_hex ds = true ->
  PyStr.strip "#" (String "#" ds) = ds
  /\ PyStr.strip "#" ds = ds
  /\ PyStr.strip "#" (String "-" ds) = String "-" ds.
Proof.
  intros Hne Hall. pose proof (rstrip_hex_digits ds Hall) as R.
  destruct ds as [|c r]; [contradiction|].
  pose proof Hall as Hall'. cbn [Obs.all_hex] in Hall'.
  destruct (PyStr.hex_digit c) as [d|] eqn:E; [|discriminate].
  destruct (hex_digit_facts c d E) as (_ & _ & Hhash & _).
  unfold PyStr.strip. cbn [PyStr.lstrip]. rewrite Ascii.eqb_refl, Hhash.
  change (Ascii.eqb "-" "#") with false. cbv iota.
  repeat split; try exact R.
  cbn [PyStr.rstrip] in R |- *.
  destruct (PyStr.rstrip "#" r); rewrite R; reflexivity.
Qed.

(** X11: a [#] followed by at most 3571 base-16 digits (or the digits
    alone) is read as the number the digits write: on a well-built store
    that [json.dump] can write, the theme command stores that number as
    the primary color and confirms in it; for [n] digits it lies between 0
    and [16^n - 1], so six digits give a 24-bit color. *)
Theorem theme_command_hex_digits {Embed : Type} (exc_str : exc -> string)
    (i : Interaction.t) (ds : string) (w : world Embed) :
  let guild_id := str_of_id (Interaction.guild_id i) in
  let stored text :=
    (Ok tt,
     {| config_file :=
          Holds (Spec.with_entry (document w) guild_id
                  (PyDict.set "theme"
                     (JDict [("primary", JInt (Obs.hex_value ds)); ("secondary", JNull)])
                     (Spec.entry_of (document w) guild_id)));
        trace := trace w ++
                 [RespondEmbed "Theme Updated" ("Primary color set to " ++ text)
                    (Obs.hex_value ds) []] |}) in
  ds <> EmptyString ->
  Obs.all_hex ds = true ->
  (String.length ds <= 3571)%nat ->
  Spec.entry_ok (document w) guild_id = true ->
  dumpable (document w) = true ->
  theme_command exc_str i (String "#" ds) None w = stored (String "#" ds)
  /\ theme_command exc_str i ds None w = stored ds
  /\ (0 <= Obs.hex_value ds < 16 ^ Z.of_nat (String.length ds))%Z.
Proof.
  intros guild_id stored Hne Hall Hlen Hok Hdoc.
  destruct (strip_hash_digits ds Hne Hall) as (S1 & S2 & _).
  destruct (int16_hex_digits ds Hne Hall) as [P _].
  destruct (hex_value_convertible ds Hlen) as [C _].
  assert (Hcolor : dumpable (Spec.theme_object (Obs.hex_value ds) None) = true).
  { cbn [Spec.theme_object dumpable forallb snd]. now rewrite C. }
  split; [|split].
  - rewrite theme_command_run. unfold Spec.hex_color. rewrite S1, P.
    cbn [Spec.secondary_color]. rewrite loaded_document by store_is_readable.
    cbv zeta. fold guild_id. now rewrite Hok, dumpable_theme_store, Hcolor.
  - rewrite theme_command_run. unfold Spec.hex_color. rewrite S2, P.
    cbn [Spec.secondary_color]. rewrite loaded_document by store_is_readable.
    cbv zeta. fold guild_id. now rewrite Hok, dumpable_theme_store, Hcolor.
  - pose proof (hex_value_from_bounds ds 0%Z ltac:(lia)) as B.
    unfold Obs.hex_value. lia.
Qed.

Lemma theme_command_hex_digits_witness :
  let w := Scenario.world_with (JDict [("1", JDict [("channel_id", JInt 42)])]) in
  let i := Scenario.interaction 1 5 in
  "c0ffEE" <> EmptyString
  /\ Obs.all_hex "c0ffEE" = true
  /\ (String.length "c0ffEE" <= 3571)%nat
  /\ Spec.entry_ok (document w) (str_of_id (Interaction.guild_id i)) = true
  /\ dumpable (document w) = true
  /\ config_file (snd (theme_command Runtime.exc_str i "#c0ffEE" None w))
     = Holds (JDict [("1", JDict [("channel_id", JInt 42);
                                 ("theme", JDict [("primary", JInt 12648430);
                                                  ("secondary", JNull)])])])
  /\ (0 <= Obs.hex_value "c0ffEE" < 16 ^ 6)%Z.
Proof.
  split; [discriminate | split; [reflexivity | split; [simpl; lia|]]].
  split; [reflexivity | split; [reflexivity|]].
  destruct (theme_command_hex_digits Runtime.exc_str (Scenario.interaction 1 5) "c0ffEE"
              (Scenario.world_with (JDict [("1", JDict [("channel_id", JInt 42)])]))
              ltac:(discriminate) eq_refl ltac:(simpl; lia) eq_refl eq_refl)
    as (Run & _ & Bound).
  split; [now rewrite Run | exact Bound].
Defined.

(** X12: the theme command checks no range: a minus sign before the
    digits (at most 3571 of them) is accepted, and the negative number is
    stored as the primary color and used for the confirmation. *)
Theorem theme_command_negative {Embed : Type} (exc_str : exc -> string)
    (i : Interaction.t) (ds : string) (w : world Embed) :
  let guild_id := str_of_id (Interaction.guild_id i) in
  ds <> EmptyString ->
  Obs.all_hex ds = true ->
  (String.length ds <= 3571)%nat ->
  Spec.entry_ok (document w) guild_id = true ->
  dumpable (document w) = true ->
  theme_command exc_str i (String "-" ds) None w
  = (Ok tt,
     {| config_file :=
          Holds (Spec.with_entry (document w) guild_id
                  (PyDict.set "theme"
                     (JDict [("primary", JInt (- Obs.hex_value ds)); ("secondary", JNull)])
                     (Spec.entry_of (document w) guild_id)));
        trace := trace w ++
                 [RespondEmbed "Theme Updated" ("Primary color set to " ++ String "-" ds)
                    (- Obs.hex_value ds) []] |})
  /\ (- Obs.hex_value ds <= 0)%Z.
Proof.
  intros guild_id Hne Hall Hlen Hok Hdoc.
  destruct (strip_hash_digits ds Hne Hall) as (_ & _ & S3).
  destruct (int16_hex_digits ds Hne Hall) as [_ P].
  destruct (hex_value_convertible ds Hlen) as [_ C].
  assert (Hcolor : dumpable (Spec.theme_object (- Obs.hex_value ds) None) = true).
  { cbn [Spec.theme_object dumpable forallb snd]. now rewrite C. }
  split.
  - rewrite theme_command_run. unfold Spec.hex_color. rewrite S3, P.
    cbn [Spec.secondary_color]. rewrite loaded_document by store_is_readable.
    cbv zeta. fold guild_id. now rewrite Hok, dumpable_theme_store, Hcolor.
  - pose proof (hex_value_from_bounds ds 0%Z ltac:(lia)) as B.
    unfold Obs.hex_value. lia.
Qed.

Lemma theme_command_negative_witness :
  let w := Scenario.fresh_world in
  let i := Scenario.interaction 1 5 in
  "ff" <> EmptyString
  /\ Obs.all_hex "ff" = true
  /\ (String.length "ff" <= 3571)%nat
  /\ Spec.entry_ok (document w) (str_of_id (Interaction.guild_id i)) = true
  /\ dumpable (document w) = true
  /\ config_file (snd (theme_command Runtime.exc_str i "-ff" None w))
     = Holds (JDict [("1", JDict [("theme", JDict [("primary", JInt (-255));
                                                  ("secondary", JNull)])])]).
Proof.
  split; [discriminate | split; [reflexivity | split; [simpl; lia|]]].
  split; [reflexivity | split; [reflexivity|]].
  destruct (theme_command_negative Runtime.exc_str (Scenario.interaction 1 5) "ff"
              Scenario.fresh_world ltac:(discriminate) eq_refl ltac:(simpl; lia)
              eq_refl eq_refl) as (Run & _).
  now rewrite Run.
Defined.

(** X27: a color [json.dump] cannot write is not refused before the
    file is opened.  On a well-built store that could be written, when the
    colors parse and one of them has more than 4300 decimal digits, the
    theme command answers with the validation error, in private, and
    leaves [config.json] cut off, so that the configuration of every
    guild can no longer be read. *)
Theorem theme_command_write_fails {Embed : Type} (exc_str : exc -> string)
    (i : Interaction.t) (primary : string) (secondary : option string) (w : world Embed)
    (p : Z) (s : option Z) :
  let guild_id := str_of_id (Interaction.guild_id i) in
  Spec.hex_color primary = Ok p ->
  Spec.secondary_color secondary = Ok s ->
  Spec.entry_ok (document w) guild_id = true ->
  dumpable (document w) = true ->
  dumpable (Spec.theme_object p s) = false ->
  theme_command exc_str i primary secondary w
  = (Ok tt,
     {| config_file := Unreadable JSONDecodeError;
        trace := trace w ++
                 [Respond "Invalid hex color format. Use format like #FF5733." true] |}).
Proof.
  intros guild_id Hp Hs Hok Hdoc Hcolors.
  rewrite theme_command_run, Hp, Hs, loaded_document by store_is_readable.
  cbv zeta. fold guild_id. now rewrite Hok, dumpable_theme_store, Hcolors by assumption.
Qed.

Lemma theme_command_write_fails_witness :
  let w := Scenario.world_with
             (JDict [("2", JDict [("channel_id", JInt 7)]);
                     ("1", JDict [("channel_id", JInt 42)])]) in
  let i := Scenario.interaction 1 5 in
  let primary := String "#" (Scenario.copies 3572 "f") in
  Spec.hex_color primary = Ok (16 ^ 3572 - 1)%Z
  /\ Spec.secondary_color None = Ok None
  /\ Spec.entry_ok (document w) (str_of_id (Interaction.guild_id i)) = true
  /\ dumpable (document w) = true
  /\ dumpable (Spec.theme_object (16 ^ 3572 - 1) None) = false
  /\ theme_command Runtime.exc_str i primary None w
     = (Ok tt,
        {| config_file := Unreadable JSONDecodeError;
           trace := [Respond "Invalid hex color format. Use format like #FF5733." true] |}).
Proof.
  assert (Hp : Spec.hex_color (String "#" (Scenario.copies 3572 "f")) = Ok (16 ^ 3572 - 1)%Z)
    by (vm_compute; reflexivity).
  assert (Hc : dumpable (Spec.theme_object (16 ^ 3572 - 1) None) = false)
    by (vm_compute; reflexivity).
  split; [exact Hp | split; [reflexivity | split; [reflexivity | split; [reflexivity|]]]].
  split; [exact Hc|].
  exact (theme_command_write_fails Runtime.exc_str (Scenario.interaction 1 5)
              (String "#" (Scenario.copies 3572 "f")) None
              (Scenario.world_with
                 (JDict [("2", JDict [("channel_id", JInt 7)]);
                         ("1", JDict [("channel_id", JInt 42)])]))
              (16 ^ 3572 - 1)%Z None Hp eq_refl eq_refl eq_refl Hc).
Defined.

(** ** The embed command on every input *)

Lemma apply_theme_themed {Embed : Type} (w : world Embed) (data : json) (guild_id : string) :
  readable w = true ->
  apply_theme data guild_id w = (themed (document w) guild_id data, w).
Proof. apply apply_theme_split. Qed.

Section EmbedCommand.

Variable json_loads : string -> result json.
Variable Embed : Type.
Variable Embed_from_dict : json -> result Embed.
Variable exc_str : exc -> string.

Lemma embed_command_run (i : Interaction.t) (embed_json : string) (w : world Embed) :
  embed_command json_loads Embed_from_dict exc_str i embed_json w
  = (Ok tt,
     {| config_file := config_file w;
        trace := trace w ++ embed_events Embed_from_dict exc_str i (loaded w)
                              (json_loads embed_json) |}).
Proof.
  unfold embed_command, embed_events, try_except, bind at 1, lift at 1.
  destruct (json_loads embed_json) as [v|e]; cbn [bind_result].
  2:{ destruct (exc_isinstance e JSONDecodeError); [reflexivity|].
      unfold bind, emit. cbn [config_file trace]. now rewrite <- app_assoc. }
  unfold bind at 1. rewrite apply_theme_loaded.
  destruct (loaded w) as [config|e]; cbn [bind_result].
  2:{ destruct (exc_isinstance e JSONDecodeError); [reflexivity|].
      unfold bind, emit. cbn [config_file trace]. now rewrite <- app_assoc. }
  destruct (themed config (str_of_id (Interaction.guild_id i)) v) as [data|e];
    cbn [bind_result].
  2:{ destruct (exc_isinstance e JSONDecodeError); [reflexivity|].
      unfold bind, emit. cbn [config_file trace]. now rewrite <- app_assoc. }
  unfold message_of, bind, lift.
  destruct (py_get data "content") as [content|e]; cbn [bind_result].
  2:{ destruct (exc_isinstance e JSONDecodeError); [reflexivity|].
      unfold emit. cbn [config_file trace]. now rewrite <- app_assoc. }
  destruct (embeds_of Embed_from_dict data) as [embeds|e]; cbn [bind_result].
  2:{ destruct (exc_isinstance e JSONDecodeError); [reflexivity|].
      unfold emit. cbn [config_file trace]. now rewrite <- app_assoc. }
  destruct (negb (truthy content) && match embeds with [] => true | _ => false end);
    [reflexivity|].
  unfold emit. cbn [config_file trace]. now rewrite <- app_assoc.
Qed.

End EmbedCommand.

(** X13: for every decoder, input and state of the store the embed
    command does not raise, leaves the store as it was, and answers
    exactly once, in private; it never assigns a role. *)
Theorem embed_command_answers_once (json_loads : string -> result json) {Embed : Type}
    (Embed_from_dict : json -> result Embed) (exc_str : exc -> string)
    (i : Interaction.t) (embed_json : string) (w : world Embed) :
  exists evs,
    embed_command json_loads Embed_from_dict exc_str i embed_json w
    = (Ok tt, {| config_file := config_file w; trace := trace w ++ evs |})
    /\ Obs.count is_response evs = 1%nat
    /\ Obs.count Obs.is_private evs = 1%nat
    /\ Obs.count Obs.is_role_attempt evs = 0%nat.
Proof.
  rewrite embed_command_run. eexists. split; [reflexivity|].
  unfold embed_events.
  destruct (let* v := json_loads embed_json in
            let* config := loaded w in
            let* data := themed config (str_of_id (Interaction.guild_id i)) v in
            message_of Embed_from_dict data) as [[content embeds]|e].
  - destruct (negb (truthy content) && match embeds with [] => true | _ => false end);
      repeat split.
  - destruct (exc_isinstance e JSONDecodeError); repeat split.
Qed.

(** X14: the embed command sends at most one message; it goes to the
    channel the command was invoked in, carries at most ten embeds, and
    is sent only when the caller is told "Embed posted successfully.". *)
Theorem embed_command_sends_at_most_once (json_loads : string -> result json) {Embed : Type}
    (Embed_from_dict : json -> result Embed) (exc_str : exc -> string)
    (i : Interaction.t) (embed_json : string) (w : world Embed) :
  exists evs,
    embed_command json_loads Embed_from_dict exc_str i embed_json w
    = (Ok tt, {| config_file := config_file w; trace := trace w ++ evs |})
    /\ (Obs.count Obs.is_send evs <= 1)%nat
    /\ (forall ch content embeds,
          In (ChannelSend ch content embeds) evs ->
          ch = Interaction.channel i
          /\ (List.length embeds <= 10)%nat
          /\ In (Respond "Embed posted successfully." true) evs).
Proof.
  rewrite embed_command_run. eexists. split; [reflexivity|].
  unfold embed_events.
  assert (Quiet : forall text : string,
            (Obs.count Obs.is_send [Respond (Embed := Embed) text true] <= 1)%nat
            /\ forall ch content (embeds : list Embed),
                 In (ChannelSend ch content embeds) [Respond text true] ->
                 ch = Interaction.channel i
                 /\ (List.length embeds <= 10)%nat
                 /\ In (Respond "Embed posted successfully." true) [Respond (Embed := Embed) text true]).
  { intros text. split; [cbn; lia|]. intros ch c es [H|[]]. discriminate. }
  destruct (let* v := json_loads embed_json in
            let* config := loaded w in
            let* data := themed config (str_of_id (Interaction.guild_id i)) v in
            message_of Embed_from_dict data) as [[content embeds]|e].
  - destruct (negb (truthy content) && match embeds with [] => true | _ => false end);
      [apply Quiet|].
    split; [cbn; lia|]. intros ch c es [H|[H|[]]]; [discriminate|].
    injection H as <- <- <-. split; [reflexivity|]. split; [|now left].
    exact (firstn_le_length 10 embeds).
  - destruct (exc_isinstance e JSONDecodeError); [apply Quiet|].
    split; [cbn; lia|]. intros ch c es [H|[H|[]]]; discriminate.
Qed.

(** The operations on JSON values raise nothing but [TypeError],
    [AttributeError] and [KeyError]; so does the merger. *)
Lemma color_to_merge_raises (config : json) (guild_id : string) (e : exc) :
  color_to_merge config guild_id = Raise e -> Obs.is_lookup_error e = true.
Proof.
  unfold color_to_merge, py_not_in, py_in, py_getitem, py_get.
  repeat match goal with
         | |- context [match ?x with _ => _ end] => destruct x; cbn [bind_result negb]
         | |- context [if ?x then _ else _] => destruct x; cbn [bind_result negb]
         end; intros H; try discriminate; now injection H as <-.
Qed.

Lemma comprehension_set_color_raises (c : json) (items : list json) (e : exc) :
  comprehension (set_color c) items = Raise e -> e = TypeError.
Proof.
  induction items as [|x l IH]; [discriminate|]. cbn [comprehension].
  destruct (set_color c x) as [y|x0] eqn:E; cbn [bind_result].
  - destruct (comprehension (set_color c) l); cbn [bind_result]; [discriminate|].
    intros H. injection H as <-. now apply IH.
  - intros H. injection H as <-. now apply set_color_raises in E.
Qed.

Lemma py_in_raises (k : string) (x : json) (e : exc) :
  py_in k x = Raise e -> e = TypeError.
Proof. destruct x; cbn; congruence. Qed.

Lemma py_getitem_raises (x : json) (k : string) (e : exc) :
  py_getitem x k = Raise e -> Obs.is_lookup_error e = true.
Proof.
  destruct x; cbn; try (intros H; now injection H as <-).
  destruct (PyDict.lookup k kvs); [discriminate|]. intros H. now injection H as <-.
Qed.

Lemma py_iter_raises (x : json) (e : exc) :
  py_iter x = Raise e -> e = TypeError.
Proof. destruct x; cbn; congruence. Qed.

Lemma py_any_in_raises (keys : list string) (x : json) (e : exc) :
  py_any_in keys x = Raise e -> e = TypeError.
Proof.
  induction keys as [|k l IH]; [discriminate|]. cbn [py_any_in].
  destruct (py_in k x) as [[|]|y] eqn:E; cbn [bind_result]; try discriminate.
  - exact IH.
  - intros H. injection H as <-. now apply py_in_raises in E.
Qed.

Lemma py_setitem_raises (x : json) (k : string) (v : json) (e : exc) :
  py_setitem x k v = Raise e -> e = TypeError.
Proof. destruct x; cbn; congruence. Qed.

Lemma color_payload_raises (c data : json) (e : exc) :
  color_payload c data = Raise e -> Obs.is_lookup_error e = true.
Proof.
  unfold color_payload.
  destruct (py_in "embeds" data) as [[|]|x] eqn:Ein; cbn [bind_result].
  - destruct (py_getitem data "embeds") as [embeds|x] eqn:Eg; cbn [bind_result].
    + destruct (py_iter embeds) as [items|x] eqn:Ei; cbn [bind_result].
      * destruct (comprehension (set_color c) items) as [colored|x] eqn:Ec; cbn [bind_result].
        -- intros H. now apply py_setitem_raises in H as ->.
        -- intros H. injection H as <-. now apply comprehension_set_color_raises in Ec as ->.
      * intros H. injection H as <-. now apply py_iter_raises in Ei as ->.
    + intros H. injection H as <-. now apply py_getitem_raises in Eg.
  - destruct (py_any_in ["title"; "description"; "fields"] data) as [[|]|x] eqn:Ea;
      cbn [bind_result]; try discriminate.
    + intros H. now apply set_color_raises in H as ->.
    + intros H. injection H as <-. now apply py_any_in_raises in Ea as ->.
  - intros H. injection H as <-. now apply py_in_raises in Ein as ->.
Qed.

Lemma themed_raises (config : json) (guild_id : string) (data : json) (e : exc) :
  themed config guild_id data = Raise e -> Obs.is_lookup_error e = true.
Proof.
  unfold themed. destruct (color_to_merge config guild_id) as [[c|]|x] eqn:E;
    cbn [bind_result].
  - apply color_payload_raises.
  - discriminate.
  - intros H. injection H as <-. now apply color_to_merge_raises in E.
Qed.

(** On a payload that is no object the merger, when it returns, returns
    the payload. *)
Lemma themed_not_an_object (config : json) (guild_id : string) (data data' : json) :
  Spec.is_dict data = false ->
  themed config guild_id data = Ok data' -> data' = data.
Proof.
  intros Hd. unfold themed.
  destruct (color_to_merge config guild_id) as [[c|]|x]; cbn [bind_result];
    [|congruence|discriminate].
  unfold color_payload.
  destruct data as [| | | |s|items|kvs]; try discriminate; cbn [py_in bind_result].
  - destruct (PyStr.contains "embeds" s); [discriminate|].
    destruct (py_any_in ["title"; "description"; "fields"] (JStr s)) as [[|]|];
      cbn [bind_result]; try congruence.
    unfold set_color, py_not_in. cbn [py_in bind_result].
    destruct (PyStr.contains "color" s); cbn; congruence.
  - destruct (existsb (str_equals "embeds") items); [discriminate|].
    destruct (py_any_in ["title"; "description"; "fields"] (JList items)) as [[|]|];
      cbn [bind_result]; try congruence.
    unfold set_color, py_not_in. cbn [py_in bind_result].
    destruct (existsb (str_equals "color") items); cbn; congruence.
Qed.

(** X15: when the text decodes to JSON that is no object (a list, a
    string, a number, ...), the embed command logs the exception, answers
    "Error parsing data: ..." in private, and sends nothing, whatever
    document the store holds; the exception is a [TypeError] or an
    [AttributeError] or a [KeyError]. *)
Theorem embed_command_not_an_object (json_loads : string -> result json) {Embed : Type}
    (Embed_from_dict : json -> result Embed) (exc_str : exc -> string)
    (i : Interaction.t) (embed_json : string) (v : json) (w : world Embed) :
  json_loads embed_json = Ok v ->
  Spec.is_dict v = false ->
  readable w = true ->
  exists e,
    Obs.is_lookup_error e = true
    /\ embed_command json_loads Embed_from_dict exc_str i embed_json w
       = (Ok tt,
          {| config_file := config_file w;
             trace := trace w ++ [LogError ("Embed error: " ++ exc_str e);
                                  Respond ("Error parsing data: " ++ exc_str e) true] |}).
Proof.
  intros Hloads Hv Hread. rewrite embed_command_run, Hloads, loaded_document by exact Hread.
  unfold embed_events. cbn [bind_result].
  destruct (themed (document w) (str_of_id (Interaction.guild_id i)) v) as [data|e] eqn:E;
    cbn [bind_result].
  - apply themed_not_an_object in E; [|exact Hv]. subst data.
    exists AttributeError. split; [reflexivity|]. now destruct v.
  - exists e. pose proof (themed_raises _ _ _ _ E) as He. split; [exact He|].
    now destruct e.
Qed.

Lemma embed_command_not_an_object_witness :
  let text := Runtime.q "['embeds', {'title': 'x'}]" in
  let w := Scenario.world_with
             (JDict [("1", JDict [("theme", JDict [("primary", JInt 255); ("secondary", JNull)])])]) in
  Runtime.loads text = Ok (JList [JStr "embeds"; JDict [("title", JStr "x")]])
  /\ Spec.is_dict (JList [JStr "embeds"; JDict [("title", JStr "x")]]) = false
  /\ readable w = true
  /\ exists e,
       Obs.is_lookup_error e = true
       /\ embed_command Runtime.loads Runtime.from_dict Runtime.exc_str
            (Scenario.interaction 1 5) text w
          = (Ok tt,
             {| config_file := config_file w;
                trace := trace w ++
                         [LogError ("Embed error: " ++ Runtime.exc_str e);
                          Respond ("Error parsing data: " ++ Runtime.exc_str e) true] |}).
Proof.
  split; [reflexivity | split; [reflexivity | split; [reflexivity|]]].
  exact (embed_command_not_an_object Runtime.loads Runtime.from_dict Runtime.exc_str
           (Scenario.interaction 1 5) (Runtime.q "['embeds', {'title': 'x'}]")
           (JList [JStr "embeds"; JDict [("title", JStr "x")]])
           (Scenario.world_with
              (JDict [("1", JDict [("theme", JDict [("primary", JInt 255);
                                                    ("secondary", JNull)])])]))
           eq_refl eq_refl eq_refl).
Defined.

Lemma themed_ok (config : json) (guild_id : string) (data : json) :
  Spec.store_ok config guild_id = true ->
  Spec.payload_ok data = true ->
  themed config guild_id data
  = Ok (match Obs.merged_color config guild_id with
        | Some c => Spec.merge_color c data
        | None => data
        end).
Proof.
  intros Hs Hd. unfold themed. rewrite color_to_merge_ok by exact Hs. cbn [bind_result].
  destruct (Obs.merged_color config guild_id); [now apply color_payload_ok | reflexivity].
Qed.

Lemma no_embed_keys_inv (kvs : list (string * json)) :
  Obs.no_embed_keys kvs = true ->
  PyDict.lookup "embeds" kvs = None
  /\ PyDict.has_key "embeds" kvs = false /\ PyDict.has_key "title" kvs = false
  /\ PyDict.has_key "description" kvs = false /\ PyDict.has_key "fields" kvs = false
  /\ PyDict.has_key "color" kvs = false.
Proof.
  unfold Obs.no_embed_keys. intros H. apply negb_true_iff in H.
  repeat (apply orb_false_elim in H as [H ?]).
  repeat split; try assumption.
  unfold PyDict.has_key in H. now destruct (PyDict.lookup "embeds" kvs).
Qed.

(** X16: a payload that is an object with none of the keys [embeds],
    [title], [description], [fields], [color] is a plain message: on a
    well-built store the embed command sends its content, untouched by
    the theme and without embeds, when the content is truthy, and
    otherwise sends nothing and answers "JSON must contain 'content' or
    'embeds'.". *)
Theorem embed_command_plain_message (json_loads : string -> result json) {Embed : Type}
    (Embed_from_dict : json -> result Embed) (exc_str : exc -> string)
    (i : Interaction.t) (embed_json : string) (kvs : list (string * json))
    (w : world Embed) :
  json_loads embed_json = Ok (JDict kvs) ->
  Spec.store_ok (document w) (str_of_id (Interaction.guild_id i)) = true ->
  Obs.no_embed_keys kvs = true ->
  embed_command json_loads Embed_from_dict exc_str i embed_json w
  = (Ok tt,
     {| config_file := config_file w;
        trace :=
          trace w ++
          (if truthy (Spec.get "content" kvs)
           then [Respond "Embed posted successfully." true;
                 ChannelSend (Interaction.channel i) (Spec.get "content" kvs) []]
           else [Respond "JSON must contain 'content' or 'embeds'." true]) |}).
Proof.
  intros Hloads Hstore Hkeys.
  destruct (no_embed_keys_inv kvs Hkeys) as (Hl & He & Ht & Hd & Hf & Hc).
  rewrite embed_command_run, Hloads, loaded_document by store_is_readable.
  unfold embed_events. cbn [bind_result].
  rewrite themed_ok by (try exact Hstore; cbn [Spec.payload_ok]; now rewrite Hl).
  assert (Same : match Obs.merged_color (document w) (str_of_id (Interaction.guild_id i)) with
                 | Some c => Spec.merge_color c (JDict kvs)
                 | None => JDict kvs
                 end = JDict kvs).
  { destruct (Obs.merged_color _ _); [|reflexivity].
    cbn [Spec.merge_color]. now rewrite Hl, Ht, Hd, Hf. }
  rewrite Same. cbn [bind_result]. unfold message_of, embeds_of.
  cbn [py_get py_in py_any_in bind_result]. rewrite He, Ht, Hd, Hf, Hc.
  fold (Spec.get "content" kvs).
  replace (match PyDict.lookup "content" kvs with Some v => Ok v | None => Ok JNull end)
    with (Ok (Spec.get "content" kvs))
    by (unfold Spec.get; now destruct (PyDict.lookup "content" kvs)).
  cbn [bind_result]. now destruct (truthy (Spec.get "content" kvs)).
Qed.

Lemma embed_command_plain_message_witness :
  let text := Runtime.q "{'content': 'hello', 'tts': false}" in
  let w := Scenario.world_with
             (JDict [("1", JDict [("theme", JDict [("primary", JInt 255); ("secondary", JNull)])])]) in
  let i := Scenario.interaction 1 5 in
  Runtime.loads text = Ok (JDict [("content", JStr "hello"); ("tts", JBool false)])
  /\ Spec.store_ok (document w) (str_of_id (Interaction.guild_id i)) = true
  /\ Obs.no_embed_keys [("content", JStr "hello"); ("tts", JBool false)] = true
  /\ embed_command Runtime.loads Runtime.from_dict Runtime.exc_str i text w
     = (Ok tt,
        {| config_file := config_file w;
           trace := [Respond "Embed posted successfully." true;
                     ChannelSend (Scenario.channel 5) (JStr "hello") []] |}).
Proof.
  split; [reflexivity | split; [reflexivity | split; [reflexivity|]]].
  exact (embed_command_plain_message Runtime.loads Runtime.from_dict Runtime.exc_str
           (Scenario.interaction 1 5) (Runtime.q "{'content': 'hello', 'tts': false}")
           [("content", JStr "hello"); ("tts", JBool false)]
           (Scenario.world_with
              (JDict [("1", JDict [("theme", JDict [("primary", JInt 255);
                                                    ("secondary", JNull)])])]))
           eq_refl eq_refl eq_refl).
Defined.

(** ** The welcome command on every input and store *)

Lemma entry_update_write (config : json) (guild_id : string)
    (other : list (string * json)) :
  (let* absent := py_not_in guild_id config in
   let* config' := if absent then py_setitem config guild_id (JDict []) else Ok config in
   let* entry := py_getitem config' guild_id in
   let* entry' := py_update entry other in
   py_setitem config' guild_id entry')
  = if Spec.entry_ok config guild_id
    then Ok (Spec.with_entry config guild_id
               (PyDict.update other (Spec.entry_of config guild_id)))
    else Raise (Obs.update_error config).
Proof.
  unfold Spec.entry_ok, Spec.entry_of, Spec.with_entry, Obs.update_error, py_not_in.
  destruct config as [| | | |s|items|guilds]; try reflexivity.
  - cbn [py_in bind_result]. now destruct (PyStr.contains guild_id s).
  - cbn [py_in bind_result]. now destruct (existsb (str_equals guild_id) items).
  - cbn [py_in bind_result]. unfold PyDict.has_key.
    destruct (PyDict.lookup guild_id guilds) as [entry|] eqn:E.
    + cbn [negb bind_result py_getitem]. rewrite E. cbn [bind_result].
      now destruct entry.
    + cbn [negb py_setitem bind_result py_getitem].
      rewrite lookup_set_same. cbn [py_update py_setitem bind_result]. now rewrite set_set.
Qed.

Lemma dumpable_welcome_store (config : json) (guild_id : string)
    (fields : list (string * json)) :
  dumpable config = true ->
  dumpable (JDict fields) = true ->
  dumpable (Spec.with_entry config guild_id
              (PyDict.update fields (Spec.entry_of config guild_id))) = true.
Proof.
  intros H Hf. rewrite dumpable_with_entry by exact H.
  destruct config; try reflexivity.
  apply dumpable_update; [now apply dumpable_entry_of | exact Hf].
Qed.

Section WelcomeCommand.

Variable json_loads : string -> result json.
Variable Embed : Type.

Lemma welcome_command_run (i : Interaction.t) (channel : Channel.t)
    (embed_json : string) (role : option Role.t) (w : world Embed) :
  let guild_id := str_of_id (Interaction.guild_id i) in
  let caught (e : exc) :=
    if exc_isinstance e JSONDecodeError
    then (Ok tt,
          {| config_file := config_file w;
             trace := trace w ++ [Respond "Error: Invalid JSON format." true] |})
    else (Raise e, w) in
  welcome_command json_loads i channel embed_json role w
  = match json_loads embed_json with
    | Raise e => caught e
    | Ok (JDict kvs) =>
        if Spec.has_welcome_content kvs then
          match loaded w with
          | Raise e => caught e
          | Ok config =>
              if Spec.entry_ok config guild_id then
                let store :=
                  Spec.with_entry config guild_id
                    (PyDict.update (Spec.welcome_fields channel (JDict kvs) role)
                       (Spec.entry_of config guild_id)) in
                if dumpable store then
                  (Ok tt,
                   {| config_file := Holds store;
                      trace := trace w ++
                               [Respond ("Welcome message set to "
                                           ++ Channel.mention channel ++ ".") false] |})
                else
                  (Raise ValueError,
                   {| config_file := Unreadable JSONDecodeError; trace := trace w |})
              else (Raise (Obs.update_error config), w)
          end
        else
          (Ok tt,
           {| config_file := config_file w;
              trace := trace w ++ [Respond "Invalid JSON." true] |})
    | Ok _ => (Raise AttributeError, w)
    end.
Proof.
  intros guild_id caught. subst caught.
  unfold welcome_command, try_except, bind at 1, lift at 1.
  destruct (json_loads embed_json) as [v|e].
  2:{ now destruct (exc_isinstance e JSONDecodeError). }
  destruct v as [| | | | | |kvs]; try reflexivity.
  unfold bind at 1, lift at 1.
  assert (Eg : py_get (JDict kvs) "content" = Ok (Spec.get "content" kvs)).
  { unfold Spec.get. cbn [py_get]. now destruct (PyDict.lookup "content" kvs). }
  rewrite Eg. clear Eg.
  assert (Eu :
    (if truthy (Spec.get "content" kvs) then ret true
     else
       bind (lift (py_get (JDict kvs) "embeds"))
         (fun embeds =>
            if truthy embeds then ret true
            else bind (lift (py_get (JDict kvs) "title")) (fun title => ret (truthy title)))) w
    = (Ok (Spec.has_welcome_content kvs), w) :> result bool * world Embed).
  { unfold Spec.has_welcome_content, Spec.get, bind, lift, ret. cbn [py_get].
    destruct (PyDict.lookup "content" kvs) as [c|];
      destruct (PyDict.lookup "embeds" kvs) as [e|];
      destruct (PyDict.lookup "title" kvs) as [t|];
      repeat match goal with
             | |- context [truthy ?v] => destruct (truthy v)
             end; reflexivity. }
  unfold bind at 1. rewrite Eu. clear Eu.
  destruct (Spec.has_welcome_content kvs); [|reflexivity].
  cbn [negb]. unfold bind at 1. rewrite load_config_loaded. fold guild_id.
  destruct (loaded w) as [config|e].
  2:{ now destruct (exc_isinstance e JSONDecodeError). }
  pose proof (entry_update_write config guild_id
                (Spec.welcome_fields channel (JDict kvs) role)) as R.
  unfold Spec.welcome_fields in R at 1.
  unfold bind, lift, ret, save_config, emit.
  destruct (py_not_in guild_id config) as [[|]|x]; cbn [bind_result] in R;
    cbv beta iota.
  all: repeat match type of R with
         | bind_result ?x _ = _ => destruct x as [?|?]; cbn [bind_result] in R; cbv beta iota
         end.
  all: match type of R with
       | Raise _ = _ =>
           destruct (Spec.entry_ok config guild_id); [discriminate|];
           injection R as ->; now destruct config
       | _ =>
           rewrite R; destruct (Spec.entry_ok config guild_id);
           [cbv zeta;
            match goal with
            | |- context [dumpable ?x] => destruct (dumpable x)
            end; reflexivity
           | now destruct config]
       end.
Qed.

End WelcomeCommand.

(** X17: for every decoder, input and state of the store the welcome
    command either returns, having answered exactly once, or raises
    without answering an exception that is no [JSONDecodeError].  When
    the answer is private (an error message) the store is left as it was:
    the store is written only together with the public confirmation.
    When the command raises, the store is left as it was, save in one
    case: [json.dump] could not write the new store, the exception is its
    [ValueError], and [config.json] is left cut off. *)
Theorem welcome_command_outcomes (json_loads : string -> result json) {Embed : Type}
    (i : Interaction.t) (channel : Channel.t) (embed_json : string)
    (role : option Role.t) (w : world Embed) :
  (exists file' evs,
     welcome_command json_loads i channel embed_json role w
     = (Ok tt, {| config_file := file'; trace := trace w ++ evs |})
     /\ Obs.count is_response evs = 1%nat
     /\ (Obs.count Obs.is_private evs = 1%nat -> file' = config_file w))
  \/ (exists e file',
        welcome_command json_loads i channel embed_json role w
        = (Raise e, {| config_file := file'; trace := trace w |})
        /\ exc_isinstance e JSONDecodeError = false
        /\ (file' = config_file w
            \/ e = ValueError /\ file' = Unreadable JSONDecodeError)).
Proof.
  rewrite welcome_command_run. cbv zeta.
  assert (Caught : forall e,
    (exists file' evs,
       (if exc_isinstance e JSONDecodeError
        then (Ok tt,
              {| config_file := config_file w;
                 trace := trace w ++ [Respond "Error: Invalid JSON format." true] |})
        else (Raise e, w))
       = (Ok tt, {| config_file := file'; trace := trace w ++ evs |})
       /\ Obs.count is_response evs = 1%nat
       /\ (Obs.count Obs.is_private evs = 1%nat -> file' = config_file w))
    \/ (exists e' file',
          (if exc_isinstance e JSONDecodeError
           then (Ok tt,
                 {| config_file := config_file w;
                    trace := trace w ++ [Respond "Error: Invalid JSON format." true] |})
           else (Raise e, w))
          = (Raise e', {| config_file := file'; trace := trace w |})
          /\ exc_isinstance e' JSONDecodeError = false
          /\ (file' = config_file w
              \/ e' = ValueError /\ file' = Unreadable JSONDecodeError))).
  { intros e. destruct (exc_isinstance e JSONDecodeError) eqn:E.
    - left. do 2 eexists. repeat split.
    - right. exists e, (config_file w). split; [now destruct w|]. split; [exact E | now left]. }
  assert (Raised : forall e,
    exc_isinstance e JSONDecodeError = false ->
    exists e' file',
      (Raise e, w) = (Raise e', {| config_file := file'; trace := trace w |}) :> result unit * world Embed
      /\ exc_isinstance e' JSONDecodeError = false
      /\ (file' = config_file w
          \/ e' = ValueError /\ file' = Unreadable JSONDecodeError)).
  { intros e E. exists e, (config_file w). split; [now destruct w|]. split; [exact E | now left]. }
  destruct (json_loads embed_json) as [v|e]; [|apply Caught].
  destruct v as [| | | | | |kvs]; try (right; now apply Raised).
  destruct (Spec.has_welcome_content kvs).
  2:{ left. do 2 eexists. repeat split. }
  destruct (loaded w) as [config|e]; [|apply Caught].
  destruct (Spec.entry_ok config (str_of_id (Interaction.guild_id i))).
  - match goal with
    | |- context [dumpable ?x] => destruct (dumpable x)
    end.
    + left. do 2 eexists. split; [reflexivity|]. split; [reflexivity|]. discriminate.
    + right. do 2 eexists. split; [reflexivity|]. split; [reflexivity|]. right. now split.
  - right. apply Raised. unfold Obs.update_error. now destruct config.
Qed.

(** X18: for every input string that [json.loads] rejects as no JSON, the
    welcome command answers "Error: Invalid JSON format." in private and
    leaves the store as it was. *)
Theorem welcome_command_invalid_json (json_loads : string -> result json) {Embed : Type}
    (i : Interaction.t) (channel : Channel.t) (embed_json : string)
    (role : option Role.t) (w : world Embed) :
  json_loads embed_json = Raise JSONDecodeError ->
  welcome_command json_loads i channel embed_json role w
  = (Ok tt,
     {| config_file := config_file w;
        trace := trace w ++ [Respond "Error: Invalid JSON format." true] |}).
Proof. intros H. now rewrite welcome_command_run, H. Qed.

Lemma welcome_command_invalid_json_witness :
  Runtime.loads "{not json" = Raise JSONDecodeError
  /\ welcome_command Runtime.loads (Scenario.interaction 1 5) (Scenario.channel 42)
       "{not json" (Some (Scenario.role 3)) Scenario.fresh_world
     = (Ok tt, {| config_file := Absent;
                  trace := [Respond "Error: Invalid JSON format." true] |}).
Proof.
  split; [reflexivity|].
  exact (welcome_command_invalid_json Runtime.loads (Scenario.interaction 1 5)
           (Scenario.channel 42) "{not json" (Some (Scenario.role 3))
           Scenario.fresh_world eq_refl).
Defined.

(** X19: when the text decodes to JSON that is no object, or to an
    accepted object while the file is read and the store is not well
    built, the welcome command raises ([AttributeError] for the payload;
    for the store [AttributeError] when the guild's entry is no object and
    [TypeError] when the document is none) without answering and without
    touching the store: the exception is left to the command tree. *)
Theorem welcome_command_raises (json_loads : string -> result json) {Embed : Type}
    (i : Interaction.t) (channel : Channel.t) (embed_json : string)
    (role : option Role.t) (v : json) (w : world Embed) :
  json_loads embed_json = Ok v ->
  (Spec.is_dict v = false ->
   welcome_command json_loads i channel embed_json role w = (Raise AttributeError, w))
  /\ (forall kvs,
        v = JDict kvs ->
        Spec.has_welcome_content kvs = true ->
        readable w = true ->
        Spec.entry_ok (document w) (str_of_id (Interaction.guild_id i)) = false ->
        welcome_command json_loads i channel embed_json role w
        = (Raise (Obs.update_error (document w)), w)).
Proof.
  intros Hloads. rewrite welcome_command_run, Hloads. cbv zeta. split.
  - now destruct v.
  - intros kvs -> Hc Hread Hbad. now rewrite Hc, loaded_document, Hbad by exact Hread.
Qed.

Lemma welcome_command_raises_witness :
  let text := Runtime.q "[{'content': 'hi'}]" in
  Runtime.loads text = Ok (JList [JDict [("content", JStr "hi")]])
  /\ Spec.is_dict (JList [JDict [("content", JStr "hi")]]) = false
  /\ welcome_command Runtime.loads (Scenario.interaction 1 5) (Scenario.channel 42) text None
       Scenario.fresh_world
     = (Raise AttributeError, Scenario.fresh_world).
Proof.
  split; [reflexivity | split; [reflexivity|]].
  exact (proj1 (welcome_command_raises Runtime.loads (Scenario.interaction 1 5)
                  (Scenario.channel 42) (Runtime.q "[{'content': 'hi'}]") None
                  (JList [JDict [("content", JStr "hi")]]) Scenario.fresh_world eq_refl)
           eq_refl).
Defined.

(** X20: a welcome command that goes through changes three fields and
    nothing else.  On a well-built store, the store and the three values
    being such as [json.dump] can write (as it can what [json.load] and
    [json.loads] return, and identifiers): every other guild's entry is
    what it was, and the guild's own entry keeps every other field (its
    theme among them), while [channel_id], [embed_data] and [role_id] now
    hold the channel's id, the payload as decoded, and the role's id or
    null. *)
Theorem welcome_command_keeps_the_rest (json_loads : string -> result json) {Embed : Type}
    (i : Interaction.t) (channel : Channel.t) (embed_json : string)
    (role : option Role.t) (kvs : list (string * json)) (w : world Embed) :
  let guild_id := str_of_id (Interaction.guild_id i) in
  json_loads embed_json = Ok (JDict kvs) ->
  Spec.has_welcome_content kvs = true ->
  Spec.entry_ok (document w) guild_id = true ->
  dumpable (document w) = true ->
  dumpable (JDict (Spec.welcome_fields channel (JDict kvs) role)) = true ->
  exists w' fields',
    welcome_command json_loads i channel embed_json role w = (Ok tt, w')
    /\ (forall g, g <> guild_id -> Obs.entry (document w') g = Obs.entry (document w) g)
    /\ Obs.entry (document w') guild_id = Some (JDict fields')
    /\ PyDict.lookup "channel_id" fields' = Some (JInt (Channel.id channel))
    /\ PyDict.lookup "embed_data" fields' = Some (JDict kvs)
    /\ PyDict.lookup "role_id" fields'
       = Some (match role with Some r => JInt (Role.id r) | None => JNull end)
    /\ (forall k, k <> "channel_id" -> k <> "embed_data" -> k <> "role_id" ->
          PyDict.lookup k fields' = PyDict.lookup k (Spec.entry_of (document w) guild_id))
    /\ Spec.stored_primary (document w') guild_id = Spec.stored_primary (document w) guild_id.
Proof.
  intros guild_id Hloads Hc Hok Hdoc Hfields.
  rewrite welcome_command_run, Hloads, Hc, loaded_document by store_is_readable.
  cbv zeta. fold guild_id. rewrite Hok, dumpable_welcome_store by assumption.
  eexists; eexists. split; [reflexivity|].
  unfold document at 1 3 5. cbn [config_file].
  destruct (update_welcome_fields channel (JDict kvs) role
              (Spec.entry_of (document w) guild_id)) as (H1 & H2 & H3 & H4).
  split; [|split; [|split; [|split; [|split; [|split]]]]].
  - intros g Hg. now apply entry_with_entry_other.
  - now apply entry_with_entry_same.
  - exact H1.
  - exact H2.
  - exact H3.
  - exact H4.
  - specialize (H4 "theme" ltac:(discriminate) ltac:(discriminate) ltac:(discriminate)).
    revert H4 Hok. clear.
    unfold Spec.entry_ok, Spec.entry_of, Spec.with_entry, Spec.stored_primary.
    destruct (document w) as [| | | | | |guilds]; try discriminate.
    unfold document. cbn [config_file]. rewrite lookup_set_same.
    destruct (PyDict.lookup guild_id guilds) as [[| | | | | |entry]|]; try discriminate;
      intros H4 _; now rewrite H4.
Qed.

Lemma welcome_command_keeps_the_rest_witness :
  let text := Runtime.q "{'content': 'hi {user}'}" in
  let w := Scenario.world_with
             (JDict [("1", JDict [("theme", JDict [("primary", JInt 255); ("secondary", JNull)])]);
                     ("2", JDict [("channel_id", JInt 7)])]) in
  let i := Scenario.interaction 1 5 in
  Runtime.loads text = Ok (JDict [("content", JStr "hi {user}")])
  /\ Spec.has_welcome_content [("content", JStr "hi {user}")] = true
  /\ Spec.entry_ok (document w) (str_of_id (Interaction.guild_id i)) = true
  /\ dumpable (document w) = true
  /\ dumpable (JDict (Spec.welcome_fields (Scenario.channel 42)
                        (JDict [("content", JStr "hi {user}")]) None)) = true
  /\ exists w',
       welcome_command Runtime.loads i (Scenario.channel 42) text None w = (Ok tt, w')
       /\ Obs.entry (document w') "2" = Obs.entry (document w) "2"
       /\ Spec.stored_primary (document w') "1" = Some (JInt 255).
Proof.
  split; [reflexivity | split; [reflexivity | split; [reflexivity|]]].
  split; [reflexivity | split; [reflexivity|]].
  destruct (welcome_command_keeps_the_rest Runtime.loads (Scenario.interaction 1 5)
              (Scenario.channel 42) (Runtime.q "{'content': 'hi {user}'}") None
              [("content", JStr "hi {user}")]
              (Scenario.world_with
                 (JDict [("1", JDict [("theme", JDict [("primary", JInt 255);
                                                       ("secondary", JNull)])]);
                         ("2", JDict [("channel_id", JInt 7)])]))
              eq_refl eq_refl eq_refl eq_refl eq_refl)
    as (w' & fields' & Run & Others & _ & _ & _ & _ & _ & Theme).
  exists w'. split; [exact Run|]. split; [apply Others; discriminate|].
  exact Theme.
Defined.

(** ** The member-join handler *)

Section Quiet.

Context {Embed : Type}.

Lemma count_app (p : event Embed -> bool) (l1 l2 : list (event Embed)) :
  Obs.count p (l1 ++ l2) = (Obs.count p l1 + Obs.count p l2)%nat.
Proof. unfold Obs.count. now rewrite filter_app, length_app. Qed.

Lemma quiet_nil : Obs.quiet (Embed := Embed) 0 0 [].
Proof. repeat split; try reflexivity. intros ch c es []. Qed.

Lemma quiet_app (r1 s1 r2 s2 : nat) (l1 l2 : list (event Embed)) :
  Obs.quiet r1 s1 l1 -> Obs.quiet r2 s2 l2 -> Obs.quiet (r1 + r2) (s1 + s2) (l1 ++ l2).
Proof.
  intros (A1 & B1 & C1 & D1) (A2 & B2 & C2 & D2). unfold Obs.quiet.
  rewrite !count_app. repeat split; try lia.
  intros ch c es H. apply in_app_or in H as [H|H]; [now apply (D1 ch c) | now apply (D2 ch c)].
Qed.

Lemma quiet_more (r s r' s' : nat) (l : list (event Embed)) :
  (r <= r')%nat -> (s <= s')%nat -> Obs.quiet r s l -> Obs.quiet r' s' l.
Proof. intros Hr Hs (A & B & C & D). repeat split; try assumption; lia. Qed.

Lemma appends_ret {A : Type} (a : A) : Obs.appends (Obs.quiet 0 0) (ret (Embed := Embed) a).
Proof.
  intros w. exists (Ok a), []. rewrite app_nil_r. split; [now destruct w | apply quiet_nil].
Qed.

Lemma appends_lift {A : Type} (x : result A) :
  Obs.appends (Obs.quiet 0 0) (lift (Embed := Embed) x).
Proof.
  intros w. exists x, []. rewrite app_nil_r. split; [now destruct w | apply quiet_nil].
Qed.

Lemma appends_load_config : Obs.appends (Obs.quiet 0 0) (load_config (Embed := Embed)).
Proof.
  intros w. exists (loaded w), []. rewrite app_nil_r, load_config_loaded.
  split; [now destruct w | apply quiet_nil].
Qed.

Lemma appends_apply_theme (data : json) (guild_id : string) :
  Obs.appends (Obs.quiet 0 0) (apply_theme (Embed := Embed) data guild_id).
Proof.
  intros w. exists (let* config := loaded w in themed config guild_id data), [].
  rewrite app_nil_r, apply_theme_loaded. split; [now destruct w | apply quiet_nil].
Qed.

Lemma appends_emit (r s : nat) (e : event Embed) :
  Obs.quiet r s [e] -> Obs.appends (Obs.quiet r s) (emit e).
Proof. intros H w. exists (Ok tt), [e]. now split. Qed.

Lemma quiet_log (message : string) : Obs.quiet (Embed := Embed) 0 0 [LogError message].
Proof. repeat split; try reflexivity. intros ch c es [H|[]]. discriminate. Qed.

Lemma quiet_role (role : Role.t) : Obs.quiet (Embed := Embed) 1 0 [AddRoles role].
Proof. repeat split; try (cbn; lia). intros ch c es [H|[]]. discriminate. Qed.

Lemma quiet_send (ch : Channel.t) (content : json) (embeds : list Embed) :
  Obs.quiet 0 1 [ChannelSend ch content (firstn 10 embeds)].
Proof.
  repeat split; try (cbn; lia). intros ch' c es [H|[]].
  injection H as <- <- <-. exact (firstn_le_length 10 embeds).
Qed.

Lemma appends_bind {A B : Type} (r1 s1 r2 s2 : nat) (m : M Embed A) (k : A -> M Embed B) :
  Obs.appends (Obs.quiet r1 s1) m ->
  (forall a, Obs.appends (Obs.quiet r2 s2) (k a)) ->
  Obs.appends (Obs.quiet (r1 + r2) (s1 + s2)) (bind m k).
Proof.
  intros Hm Hk w. unfold bind.
  destruct (Hm w) as (r & evs & -> & Q1). destruct r as [a|e].
  - destruct (Hk a {| config_file := config_file w; trace := trace w ++ evs |})
      as (r' & evs' & -> & Q2).
    cbn [config_file trace]. exists r', (evs ++ evs'). rewrite app_assoc.
    split; [reflexivity | now apply quiet_app].
  - exists (Raise e), evs. split; [reflexivity|].
    apply (quiet_more r1 s1); try lia. exact Q1.
Qed.

Lemma appends_try {A : Type} (r1 s1 r2 s2 : nat) (body : M Embed A)
    (handler : exc -> M Embed A) :
  Obs.appends (Obs.quiet r1 s1) body ->
  (forall e, Obs.appends (Obs.quiet r2 s2) (handler e)) ->
  Obs.appends (Obs.quiet (r1 + r2) (s1 + s2)) (try_except body handler).
Proof.
  intros Hb Hh w. unfold try_except.
  destruct (Hb w) as (r & evs & -> & Q1). destruct r as [a|e].
  - exists (Ok a), evs. split; [reflexivity|].
    apply (quiet_more r1 s1); try lia. exact Q1.
  - destruct (Hh e {| config_file := config_file w; trace := trace w ++ evs |})
      as (r' & evs' & -> & Q2).
    cbn [config_file trace]. exists r', (evs ++ evs'). rewrite app_assoc.
    split; [reflexivity | now apply quiet_app].
Qed.

Lemma appends_more {A : Type} (r s r' s' : nat) (m : M Embed A) :
  (r <= r')%nat -> (s <= s')%nat ->
  Obs.appends (Obs.quiet r s) m -> Obs.appends (Obs.quiet r' s') m.
Proof.
  intros Hr Hs Hm w. destruct (Hm w) as (x & evs & E & Q).
  exists x, evs. split; [exact E | now apply (quiet_more r s)].
Qed.

End Quiet.

(** The steps of a handler that add nothing, or one event, to the trace. *)
Ltac silent :=
  first [ apply appends_ret | apply appends_lift | apply appends_load_config
        | apply appends_apply_theme
        | apply appends_emit, quiet_log ].

(** A bind whose first step is silent keeps the budget of what follows. *)
Ltac after_silent :=
  match goal with
  | |- Obs.appends (Obs.quiet ?r ?s) (bind _ _) =>
      apply (appends_bind 0 0 r s); [silent | intros ?]
  end.

(** ** The member-join handler *)

(** X21: whatever the store holds and whatever the platform returns, a
    member joining never changes the store and is never answered; the
    handler tries at most one role assignment and sends at most one
    message, with at most ten embeds. *)
Theorem on_member_join_is_bounded {Embed : Type} (Embed_from_dict : json -> result Embed)
    (exc_str : exc -> string) (member : Member.t) (w : world Embed) :
  exists r evs,
    on_member_join Embed_from_dict exc_str member w
    = (r, {| config_file := config_file w; trace := trace w ++ evs |})
    /\ Obs.count is_response evs = 0%nat
    /\ (Obs.count Obs.is_role_attempt evs <= 1)%nat
    /\ (Obs.count Obs.is_send evs <= 1)%nat
    /\ Obs.embeds_capped evs.
Proof.
  revert w. change (Obs.appends (Obs.quiet 1 1) (on_member_join Embed_from_dict exc_str member)).
  unfold on_member_join.
  do 2 after_silent. destruct a0; [apply (appends_more 0 0); try lia; silent|].
  do 2 after_silent.
  apply (appends_bind 1 0 0 1).
  - (* the role: one attempt at most *)
    destruct (truthy a1); [|apply (appends_more 0 0); try lia; silent].
    apply (appends_bind 0 0 1 0); [silent|]. intros [role|];
      [|apply (appends_more 0 0); try lia; silent].
    apply (appends_try 1 0 0 0).
    + apply (appends_bind 1 0 0 0); [apply appends_emit, quiet_role | intros _; silent].
    + intros e. destruct (exc_isinstance e Forbidden); silent.
  - (* the welcome message: one send at most *)
    intros _. after_silent.
    apply (appends_bind 0 0 0 1).
    { destruct (truthy a2); [|silent]. apply (appends_bind 0 0 0 0); [silent|].
      intros ?. silent. }
    intros configured. destruct configured; [|apply (appends_more 0 0); try lia; silent].
    after_silent. destruct a3 as [ch|]; [|apply (appends_more 0 0); try lia; silent].
    apply (appends_try 0 1 0 0).
    + do 4 after_silent. apply appends_emit, quiet_send.
    + intros e. silent.
Qed.

Lemma entry_inv (config : json) (guild_id : string) (fields : list (string * json)) :
  Obs.entry config guild_id = Some (JDict fields) ->
  py_not_in guild_id config = Ok false
  /\ py_getitem config guild_id = Ok (JDict fields).
Proof.
  unfold Obs.entry, py_not_in. destruct config as [| | | | | |guilds]; try discriminate.
  intros H. cbn [py_in py_getitem bind_result]. unfold PyDict.has_key. now rewrite H.
Qed.

Lemma py_get_fields (fields : list (string * json)) (k : string) :
  py_get (JDict fields) k = Ok (Spec.get k fields).
Proof. unfold Spec.get. cbn [py_get]. now destruct (PyDict.lookup k fields). Qed.

(** X22: when the guild's entry names no role, a channel the guild knows
    and a well-formed payload, on a well-built store, a joining member
    gets exactly one thing done: the payload, with the theme merged in
    and then the placeholders expanded, is sent to that channel (its
    content and its first ten embeds); if building the embeds fails, the
    failure is logged instead.  The handler returns normally either way. *)
Theorem on_member_join_delivers {Embed : Type} (Embed_from_dict : json -> result Embed)
    (exc_str : exc -> string) (member : Member.t) (w : world Embed)
    (fields : list (string * json)) (channel_id data : json) (ch : Channel.t) :
  let guild_id := PyStr.of_int (Guild.id (Member.guild member)) in
  let payload :=
    replace_placeholders
      (match Obs.merged_color (document w) guild_id with
       | Some c => Spec.merge_color c data
       | None => data
       end) member in
  Spec.store_ok (document w) guild_id = true ->
  Obs.entry (document w) guild_id = Some (JDict fields) ->
  truthy (Spec.get "role_id" fields) = false ->
  PyDict.lookup "channel_id" fields = Some channel_id ->
  truthy channel_id = true ->
  PyDict.lookup "embed_data" fields = Some data ->
  truthy data = true ->
  Spec.payload_ok data = true ->
  Guild.get_channel (Member.guild member) channel_id = Ok (Some ch) ->
  on_member_join Embed_from_dict exc_str member w
  = (Ok tt,
     {| config_file := config_file w;
        trace :=
          trace w ++
          [match message_of Embed_from_dict payload with
           | Ok (content, embeds) => ChannelSend ch content (firstn 10 embeds)
           | Raise e => LogError ("Failed to send welcome message: " ++ exc_str e)
           end] |}).
Proof.
  intros guild_id payload Hstore Hentry Hrole Hcid Hcid' Hdata Hdata' Hpayload Hch.
  destruct (entry_inv _ _ _ Hentry) as [Hin Hget].
  unfold on_member_join. fold guild_id.
  unfold bind at 1. rewrite load_config_document by store_is_readable.
  unfold bind at 1, lift at 1. rewrite Hin.
  unfold bind at 1, lift at 1. rewrite Hget.
  unfold bind at 1, lift at 1. rewrite py_get_fields.
  unfold bind at 1. rewrite Hrole. unfold ret at 1.
  unfold bind at 1, lift at 1. rewrite py_get_fields.
  assert (Ec : Spec.get "channel_id" fields = channel_id) by (unfold Spec.get; now rewrite Hcid).
  assert (Ed : Spec.get "embed_data" fields = data) by (unfold Spec.get; now rewrite Hdata).
  rewrite Ec, Hcid'. unfold bind at 1 2, lift at 1. rewrite py_get_fields, Ed, Hdata'.
  unfold ret at 1. unfold bind at 1, lift at 1. rewrite Hch.
  unfold try_except, bind at 1, lift at 1. cbn [py_getitem]. rewrite Hdata.
  unfold bind at 1. rewrite apply_theme_themed by store_is_readable. rewrite themed_ok by assumption.
  fold payload. unfold message_of.
  unfold bind, lift, emit.
  destruct (py_get payload "content") as [content|e]; cbn [bind_result]; [|reflexivity].
  destruct (embeds_of Embed_from_dict payload) as [embeds|e]; reflexivity.
Qed.

Lemma on_member_join_delivers_witness :
  let g := Scenario.guild 7 [] [42%Z] in
  let m := Scenario.member 99 "neo" g in
  let data := JDict [("content", JStr "hi {user}");
                     ("embeds", JList [JDict [("title", JStr "{username}")]])] in
  let fields := [("theme", JDict [("primary", JInt 255); ("secondary", JNull)]);
                 ("channel_id", JInt 42); ("embed_data", data); ("role_id", JNull)] in
  let w := Scenario.world_with (JDict [("7", JDict fields)]) in
  Spec.store_ok (document w) "7" = true
  /\ Obs.entry (document w) "7" = Some (JDict fields)
  /\ truthy (Spec.get "role_id" fields) = false
  /\ PyDict.lookup "channel_id" fields = Some (JInt 42)
  /\ truthy (JInt 42) = true
  /\ PyDict.lookup "embed_data" fields = Some data
  /\ truthy data = true
  /\ Spec.payload_ok data = true
  /\ Guild.get_channel (Member.guild m) (JInt 42) = Ok (Some (Scenario.channel 42))
  /\ on_member_join Runtime.from_dict Runtime.exc_str m w
     = (Ok tt,
        {| config_file := config_file w;
           trace := [ChannelSend (Scenario.channel 42) (JStr "hi <@99>")
                       [JDict [("title", JStr "neo"); ("color", JInt 255)]]] |}).
Proof.
  repeat (split; [reflexivity|]).
  exact (on_member_join_delivers Runtime.from_dict Runtime.exc_str
           (Scenario.member 99 "neo" (Scenario.guild 7 [] [42%Z]))
           (Scenario.world_with
              (JDict [("7", JDict [("theme", JDict [("primary", JInt 255); ("secondary", JNull)]);
                                   ("channel_id", JInt 42);
                                   ("embed_data",
                                    JDict [("content", JStr "hi {user}");
                                           ("embeds", JList [JDict [("title", JStr "{username}")]])]);
                                   ("role_id", JNull)])]))
           _ (JInt 42) _ (Scenario.channel 42)
           eq_refl eq_refl eq_refl eq_refl eq_refl eq_refl eq_refl eq_refl eq_refl).
Defined.

(** X23: when the guild's entry names a role the guild knows and the
    assignment raises anything but [Forbidden], the handler stops there:
    the exception leaves the handler after the one attempt, and no
    welcome message is sent. *)
Theorem on_member_join_role_error {Embed : Type} (Embed_from_dict : json -> result Embed)
    (exc_str : exc -> string) (member : Member.t) (w : world Embed)
    (fields : list (string * json)) (role : Role.t) (e : exc) :
  let guild_id := PyStr.of_int (Guild.id (Member.guild member)) in
  Obs.entry (document w) guild_id = Some (JDict fields) ->
  truthy (Spec.get "role_id" fields) = true ->
  Guild.get_role (Member.guild member) (Spec.get "role_id" fields) = Ok (Some role) ->
  Member.add_roles member role = Raise e ->
  exc_isinstance e Forbidden = false ->
  on_member_join Embed_from_dict exc_str member w
  = (Raise e, {| config_file := config_file w; trace := trace w ++ [AddRoles role] |}).
Proof.
  intros guild_id Hentry Hrole Hget_role Hadd Hnot.
  destruct (entry_inv _ _ _ Hentry) as [Hin Hget].
  unfold on_member_join. fold guild_id.
  unfold bind at 1. rewrite load_config_document by store_is_readable.
  unfold bind at 1, lift at 1. rewrite Hin.
  unfold bind at 1, lift at 1. rewrite Hget.
  unfold bind at 1, lift at 1. rewrite py_get_fields.
  unfold bind at 1. rewrite Hrole.
  unfold bind at 1, lift at 1. rewrite Hget_role.
  unfold try_except, bind at 1, emit at 1, lift at 1. rewrite Hadd, Hnot.
  reflexivity.
Qed.

Lemma on_member_join_role_error_witness :
  let g := Scenario.guild 7 [3%Z] [42%Z] in
  let m := {| Member.id := 99; Member.name := "neo"; Member.guild := g;
              Member.add_roles := fun _ => Raise HTTPException |} in
  let fields := [("channel_id", JInt 42);
                 ("embed_data", JDict [("content", JStr "hi")]);
                 ("role_id", JInt 3)] in
  let w := Scenario.world_with (JDict [("7", JDict fields)]) in
  Obs.entry (document w) "7" = Some (JDict fields)
  /\ truthy (Spec.get "role_id" fields) = true
  /\ Guild.get_role (Member.guild m) (Spec.get "role_id" fields) = Ok (Some (Scenario.role 3))
  /\ Member.add_roles m (Scenario.role 3) = Raise HTTPException
  /\ exc_isinstance HTTPException Forbidden = false
  /\ on_member_join Runtime.from_dict Runtime.exc_str m w
     = (Raise HTTPException,
        {| config_file := config_file w; trace := [AddRoles (Scenario.role 3)] |}).
Proof.
  repeat (split; [reflexivity|]).
  exact (on_member_join_role_error Runtime.from_dict Runtime.exc_str
           {| Member.id := 99; Member.name := "neo";
              Member.guild := Scenario.guild 7 [3%Z] [42%Z];
              Member.add_roles := fun _ => Raise HTTPException |}
           (Scenario.world_with
              (JDict [("7", JDict [("channel_id", JInt 42);
                                   ("embed_data", JDict [("content", JStr "hi")]);
                                   ("role_id", JInt 3)])]))
           _ (Scenario.role 3) HTTPException
           eq_refl eq_refl eq_refl eq_refl eq_refl).
Defined.

(** X24: when the guild's entry names a role the guild knows, the role is
    tried first; if the assignment is refused ([Forbidden]) the refusal
    is logged and the welcome message goes out all the same, built as in
    X22; if it succeeds the message follows it directly. *)
Theorem on_member_join_role_then_welcome {Embed : Type}
    (Embed_from_dict : json -> result Embed) (exc_str : exc -> string)
    (member : Member.t) (w : world Embed) (fields : list (string * json))
    (role : Role.t) (channel_id data : json) (ch : Channel.t) (refused : bool) :
  let guild_id := PyStr.of_int (Guild.id (Member.guild member)) in
  let payload :=
    replace_placeholders
      (match Obs.merged_color (document w) guild_id with
       | Some c => Spec.merge_color c data
       | None => data
       end) member in
  Spec.store_ok (document w) guild_id = true ->
  Obs.entry (document w) guild_id = Some (JDict fields) ->
  truthy (Spec.get "role_id" fields) = true ->
  Guild.get_role (Member.guild member) (Spec.get "role_id" fields) = Ok (Some role) ->
  Member.add_roles member role = (if refused then Raise Forbidden else Ok tt) ->
  PyDict.lookup "channel_id" fields = Some channel_id ->
  truthy channel_id = true ->
  PyDict.lookup "embed_data" fields = Some data ->
  truthy data = true ->
  Spec.payload_ok data = true ->
  Guild.get_channel (Member.guild member) channel_id = Ok (Some ch) ->
  on_member_join Embed_from_dict exc_str member w
  = (Ok tt,
     {| config_file := config_file w;
        trace :=
          trace w ++
          AddRoles role
          :: (if refused
              then [LogError ("Cannot assign welcome role in " ++ guild_id)]
              else [])
          ++ [match message_of Embed_from_dict payload with
              | Ok (content, embeds) => ChannelSend ch content (firstn 10 embeds)
              | Raise e => LogError ("Failed to send welcome message: " ++ exc_str e)
              end] |}).
Proof.
  intros guild_id payload Hstore Hentry Hrole Hget_role Hadd Hcid Hcid' Hdata Hdata'
    Hpayload Hch.
  destruct (entry_inv _ _ _ Hentry) as [Hin Hget].
  unfold on_member_join. fold guild_id.
  unfold bind at 1. rewrite load_config_document by store_is_readable.
  unfold bind at 1, lift at 1. rewrite Hin.
  unfold bind at 1, lift at 1. rewrite Hget.
  unfold bind at 1, lift at 1. rewrite py_get_fields.
  unfold bind at 1. rewrite Hrole.
  unfold bind at 1, lift at 1. rewrite Hget_role.
  unfold try_except at 1, bind at 1, emit at 1, lift at 1. rewrite Hadd.
  assert (Ec : Spec.get "channel_id" fields = channel_id) by (unfold Spec.get; now rewrite Hcid).
  assert (Ed : Spec.get "embed_data" fields = data) by (unfold Spec.get; now rewrite Hdata).
  assert (Tail : forall tr : list (event Embed),
    bind (lift (py_get (JDict fields) "channel_id"))
      (fun channel_id0 =>
         bind
           (if truthy channel_id0
            then bind (lift (py_get (JDict fields) "embed_data"))
                   (fun embed_data => ret (truthy embed_data))
            else ret false)
           (fun configured : bool =>
              if configured
              then
                bind (lift (Guild.get_channel (Member.guild member) channel_id0))
                  (fun channel =>
                     match channel with
                     | Some ch0 =>
                         try_except
                           (bind (lift (py_getitem (JDict fields) "embed_data"))
                              (fun raw_data =>
                                 bind (apply_theme raw_data guild_id)
                                   (fun data0 =>
                                      let data1 := replace_placeholders data0 member in
                                      bind (lift (py_get data1 "content"))
                                        (fun content =>
                                           bind (lift (embeds_of Embed_from_dict data1))
                                             (fun embeds =>
                                                emit (ChannelSend ch0 content
                                                        (firstn 10 embeds)))))))
                           (fun e =>
                              emit (LogError ("Failed to send welcome message: "
                                                ++ exc_str e)))
                     | None => ret tt
                     end)
              else ret tt))
      {| config_file := config_file w; trace := tr |}
    = (Ok tt,
       {| config_file := config_file w;
          trace :=
            tr ++ [match message_of Embed_from_dict payload with
                   | Ok (content, embeds) => ChannelSend ch content (firstn 10 embeds)
                   | Raise e => LogError ("Failed to send welcome message: " ++ exc_str e)
                   end] |})).
  { intros tr.
    unfold bind at 1, lift at 1. rewrite py_get_fields, Ec, Hcid'.
    unfold bind at 1 2, lift at 1. rewrite py_get_fields, Ed, Hdata'.
    unfold ret at 1. unfold bind at 1, lift at 1. rewrite Hch.
    unfold try_except, bind at 1, lift at 1. cbn [py_getitem]. rewrite Hdata.
    unfold bind at 1.
    rewrite apply_theme_themed by (change (readable w = true); store_is_readable).
    change (document {| config_file := config_file w; trace := tr |}) with (document w).
    rewrite themed_ok by assumption. fold payload. unfold message_of.
    unfold bind, lift, emit.
    destruct (py_get payload "content") as [content|e]; cbn [bind_result]; [|reflexivity].
    destruct (embeds_of Embed_from_dict payload) as [embeds|e]; reflexivity. }
  destruct refused.
  - refine (eq_trans
              (Tail ((trace w ++ [AddRoles role])
                     ++ [LogError ("Cannot assign welcome role in " ++ guild_id)])) _).
    now rewrite <- !app_assoc.
  - refine (eq_trans (Tail (trace w ++ [AddRoles role])) _).
    now rewrite <- !app_assoc.
Qed.

Lemma on_member_join_role_then_welcome_witness :
  let g := Scenario.guild 7 [3%Z] [42%Z] in
  let m := {| Member.id := 99; Member.name := "neo"; Member.guild := g;
              Member.add_roles := fun _ => Raise Forbidden |} in
  let data := JDict [("content", JStr "hi {username}")] in
  let fields := [("channel_id", JInt 42); ("embed_data", data); ("role_id", JInt 3)] in
  let w := Scenario.world_with (JDict [("7", JDict fields)]) in
  Spec.store_ok (document w) "7" = true
  /\ Obs.entry (document w) "7" = Some (JDict fields)
  /\ truthy (Spec.get "role_id" fields) = true
  /\ Guild.get_role (Member.guild m) (Spec.get "role_id" fields) = Ok (Some (Scenario.role 3))
  /\ Member.add_roles m (Scenario.role 3) = Raise Forbidden
  /\ PyDict.lookup "channel_id" fields = Some (JInt 42)
  /\ truthy (JInt 42) = true
  /\ PyDict.lookup "embed_data" fields = Some data
  /\ truthy data = true
  /\ Spec.payload_ok data = true
  /\ Guild.get_channel (Member.guild m) (JInt 42) = Ok (Some (Scenario.channel 42))
  /\ on_member_join Runtime.from_dict Runtime.exc_str m w
     = (Ok tt,
        {| config_file := config_file w;
           trace := [AddRoles (Scenario.role 3);
                     LogError "Cannot assign welcome role in 7";
                     ChannelSend (Scenario.channel 42) (JStr "hi neo") []] |}).
Proof.
  repeat (split; [reflexivity|]).
  exact (on_member_join_role_then_welcome Runtime.from_dict Runtime.exc_str
           {| Member.id := 99; Member.name := "neo";
              Member.guild := Scenario.guild 7 [3%Z] [42%Z];
              Member.add_roles := fun _ => Raise Forbidden |}
           (Scenario.world_with
              (JDict [("7", JDict [("channel_id", JInt 42);
                                   ("embed_data", JDict [("content", JStr "hi {username}")]);
                                   ("role_id", JInt 3)])]))
           _ (Scenario.role 3) (JInt 42) _ (Scenario.channel 42) true
           eq_refl eq_refl eq_refl eq_refl eq_refl eq_refl eq_refl eq_refl eq_refl
           eq_refl eq_refl).
Defined.

(** X25: a join does nothing at all (no call, no log line, normal return)
    when the store is an object without an entry for the guild, and also
    when the entry names no role and its welcome half is switched off: the
    channel or the payload is missing, null, 0 or empty, or the guild does
    not know the channel. *)
Theorem on_member_join_does_nothing {Embed : Type} (Embed_from_dict : json -> result Embed)
    (exc_str : exc -> string) (member : Member.t) (w : world Embed) :
  let guild_id := PyStr.of_int (Guild.id (Member.guild member)) in
  (Spec.is_dict (document w) = true ->
   Obs.entry (document w) guild_id = None ->
   on_member_join Embed_from_dict exc_str member w = (Ok tt, w))
  /\ (forall fields,
        Obs.entry (document w) guild_id = Some (JDict fields) ->
        truthy (Spec.get "role_id" fields) = false ->
        Obs.welcome_disabled fields = true
        \/ Guild.get_channel (Member.guild member) (Spec.get "channel_id" fields) = Ok None ->
        on_member_join Embed_from_dict exc_str member w = (Ok tt, w)).
Proof.
  intros guild_id. split.
  - intros Hd Hnone. unfold on_member_join. fold guild_id.
    unfold bind at 1. rewrite load_config_document by store_is_readable.
    unfold bind at 1, lift at 1. unfold py_not_in. unfold Obs.entry in Hnone.
    destruct (document w) as [| | | | | |guilds]; try discriminate.
    cbn [py_in bind_result]. unfold PyDict.has_key. now rewrite Hnone.
  - intros fields Hentry Hrole Hoff.
    destruct (entry_inv _ _ _ Hentry) as [Hin Hget].
    unfold on_member_join. fold guild_id.
    unfold bind at 1. rewrite load_config_document by store_is_readable.
    unfold bind at 1, lift at 1. rewrite Hin.
    unfold bind at 1, lift at 1. rewrite Hget.
    unfold bind at 1, lift at 1. rewrite py_get_fields.
    unfold bind at 1. rewrite Hrole. unfold ret at 1.
    unfold bind at 1, lift at 1. rewrite py_get_fields.
    unfold Obs.welcome_disabled in Hoff.
    destruct (truthy (Spec.get "channel_id" fields)) eqn:Tc.
    + unfold bind at 1 2, lift at 1. rewrite py_get_fields. unfold ret at 1.
      destruct (truthy (Spec.get "embed_data" fields)) eqn:Td.
      * destruct Hoff as [Hoff|Hoff]; [discriminate|].
        unfold bind at 1, lift at 1. now rewrite Hoff.
      * reflexivity.
    + reflexivity.
Qed.

Lemma on_member_join_does_nothing_witness :
  let g := Scenario.guild 7 [] [] in
  let m := Scenario.member 99 "neo" g in
  let fields := [("channel_id", JInt 42); ("embed_data", JDict [("content", JStr "hi")]);
                 ("role_id", JNull)] in
  let w := Scenario.world_with (JDict [("7", JDict fields)]) in
  Obs.entry (document w) "7" = Some (JDict fields)
  /\ truthy (Spec.get "role_id" fields) = false
  /\ Guild.get_channel (Member.guild m) (Spec.get "channel_id" fields) = Ok None
  /\ on_member_join Runtime.from_dict Runtime.exc_str m w = (Ok tt, w).
Proof.
  repeat (split; [reflexivity|]).
  refine (proj2 (on_member_join_does_nothing Runtime.from_dict Runtime.exc_str
                   (Scenario.member 99 "neo" (Scenario.guild 7 [] []))
                   (Scenario.world_with
                      (JDict [("7", JDict [("channel_id", JInt 42);
                                           ("embed_data", JDict [("content", JStr "hi")]);
                                           ("role_id", JNull)])])))
            _ eq_refl eq_refl (or_intror eq_refl)).
Defined.

(** ** A store that cannot be read *)

(** X28: while [config.json] holds text that is cut off (as a failed
    write leaves it), nothing works and the answers name the wrong cause:
    the theme command answers every input, valid colors too, with the
    validation error for colors; the embed command answers text that is
    valid JSON with "Error: Invalid JSON format." and sends nothing; so
    does the welcome command for a payload it would accept; and a join
    raises [JSONDecodeError] before anything is done.  None of them
    writes the file, so it stays as it is. *)
Theorem commands_on_a_cut_off_store (json_loads : string -> result json) {Embed : Type}
    (Embed_from_dict : json -> result Embed) (exc_str : exc -> string)
    (i : Interaction.t) (member : Member.t) (w : world Embed) :
  let answer (text : string) :=
    (Ok tt, {| config_file := config_file w; trace := trace w ++ [Respond text true] |}) in
  config_file w = Unreadable JSONDecodeError ->
  (forall primary secondary,
     theme_command exc_str i primary secondary w
     = answer "Invalid hex color format. Use format like #FF5733.")
  /\ (forall embed_json v,
        json_loads embed_json = Ok v ->
        embed_command json_loads Embed_from_dict exc_str i embed_json w
        = answer "Error: Invalid JSON format.")
  /\ (forall channel embed_json role kvs,
        json_loads embed_json = Ok (JDict kvs) ->
        Spec.has_welcome_content kvs = true ->
        welcome_command json_loads i channel embed_json role w
        = answer "Error: Invalid JSON format.")
  /\ on_member_join Embed_from_dict exc_str member w = (Raise JSONDecodeError, w).
Proof.
  intros answer Hfile. subst answer.
  assert (Hload : loaded w = Raise JSONDecodeError) by (unfold loaded; now rewrite Hfile).
  split; [|split; [|split]].
  - intros primary secondary. rewrite theme_command_run, Hload. cbv zeta.
    destruct (Spec.hex_color primary); [|reflexivity].
    now destruct (Spec.secondary_color secondary).
  - intros embed_json v Hv. rewrite embed_command_run, Hv, Hload. reflexivity.
  - intros channel embed_json role kvs Hv Hc.
    rewrite welcome_command_run, Hv, Hc, Hload. reflexivity.
  - unfold on_member_join, bind at 1. now rewrite load_config_loaded, Hload.
Qed.

Lemma commands_on_a_cut_off_store_witness :
  let w := Scenario.torn_world in
  let i := Scenario.interaction 1 5 in
  let text := Runtime.q "{'content': 'hi'}" in
  config_file w = Unreadable JSONDecodeError
  /\ Runtime.loads text = Ok (JDict [("content", JStr "hi")])
  /\ Spec.has_welcome_content [("content", JStr "hi")] = true
  /\ theme_command Runtime.exc_str i "#FF5733" None w
     = (Ok tt,
        {| config_file := Unreadable JSONDecodeError;
           trace := [Respond "Invalid hex color format. Use format like #FF5733." true] |})
  /\ embed_command Runtime.loads Runtime.from_dict Runtime.exc_str i text w
     = (Ok tt,
        {| config_file := Unreadable JSONDecodeError;
           trace := [Respond "Error: Invalid JSON format." true] |})
  /\ welcome_command Runtime.loads i (Scenario.channel 42) text None w
     = (Ok tt,
        {| config_file := Unreadable JSONDecodeError;
           trace := [Respond "Error: Invalid JSON format." true] |})
  /\ on_member_join Runtime.from_dict Runtime.exc_str
       (Scenario.member 99 "neo" (Scenario.guild 1 [] [])) w
     = (Raise JSONDecodeError, w).
Proof.
  split; [reflexivity | split; [reflexivity | split; [reflexivity|]]].
  destruct (commands_on_a_cut_off_store Runtime.loads Runtime.from_dict Runtime.exc_str
              (Scenario.interaction 1 5) (Scenario.member 99 "neo" (Scenario.guild 1 [] []))
              Scenario.torn_world eq_refl) as (Theme & Embed & Welcome & Join).
  split; [apply Theme|]. split; [now apply (Embed _ (JDict [("content", JStr "hi")]))|].
  split; [now apply (Welcome _ _ _ [("content", JStr "hi")])|]. exact Join.
Defined.

(** ** The command tree: permission check and error hook *)

Lemma skipn_all_nil {A : Type} (l : list A) : skipn (List.length l) l = [].
Proof. induction l; [reflexivity | assumption]. Qed.

Lemma welcome_command_raise_trace (json_loads : string -> result json) {Embed : Type}
    (i : Interaction.t) (channel : Channel.t) (embed_json : string)
    (role : option Role.t) (w w' : world Embed) (e : exc) :
  welcome_command json_loads i channel embed_json role w = (Raise e, w') ->
  trace w' = trace w.
Proof.
  rewrite welcome_command_run. cbv zeta.
  assert (Caught : forall x,
    (if exc_isinstance x JSONDecodeError
     then (Ok tt,
           {| config_file := config_file w;
              trace := trace w ++ [Respond "Error: Invalid JSON format." true] |})
     else (Raise x, w)) = (Raise e, w') -> trace w' = trace w).
  { intros x. destruct (exc_isinstance x JSONDecodeError); intros H; [discriminate|].
    now injection H as _ <-. }
  destruct (json_loads embed_json) as [v|x]; [|apply Caught].
  destruct v as [| | | | | |kvs]; try (intros H; now injection H as _ <-).
  destruct (Spec.has_welcome_content kvs); [|discriminate].
  destruct (loaded w) as [config|x]; [|apply Caught].
  destruct (Spec.entry_ok config (str_of_id (Interaction.guild_id i)));
    [|intros H; now injection H as _ <-].
  match goal with
  | |- context [dumpable ?x] => destruct (dumpable x)
  end; [discriminate|].
  intros H. now injection H as _ <-.
Qed.

Lemma welcome_command_return_trace (json_loads : string -> result json) {Embed : Type}
    (i : Interaction.t) (channel : Channel.t) (embed_json : string)
    (role : option Role.t) (w w' : world Embed) :
  welcome_command json_loads i channel embed_json role w = (Ok tt, w') ->
  exists evs, trace w' = trace w ++ evs /\ Obs.count is_response evs = 1%nat.
Proof.
  rewrite welcome_command_run. cbv zeta.
  assert (Caught : forall x,
    (if exc_isinstance x JSONDecodeError
     then (Ok tt,
           {| config_file := config_file w;
              trace := trace w ++ [Respond "Error: Invalid JSON format." true] |})
     else (Raise x, w)) = (Ok tt, w') ->
    exists evs, trace w' = trace w ++ evs /\ Obs.count is_response evs = 1%nat).
  { intros x. destruct (exc_isinstance x JSONDecodeError); intros H; [|discriminate].
    injection H as <-. now eexists. }
  destruct (json_loads embed_json) as [v|x]; [|apply Caught].
  destruct v as [| | | | | |kvs]; try discriminate.
  destruct (Spec.has_welcome_content kvs).
  2:{ intros H. injection H as <-. now eexists. }
  destruct (loaded w) as [config|x]; [|apply Caught].
  destruct (Spec.entry_ok config (str_of_id (Interaction.guild_id i))); [|discriminate].
  match goal with
  | |- context [dumpable ?x] => destruct (dumpable x)
  end; [|discriminate].
  intros H. injection H as <-. now eexists.
Qed.

(** X26: run by the command tree, each of the three commands is answered
    exactly once, whoever calls it and whatever the input and the store
    are, and nothing is raised past the tree.  A caller without the
    administrator permission gets "You need Administrator permissions to
    use this command.", in private, and nothing else happens: the store
    is left as it was.  An exception that leaves the welcome command is
    logged and answered with "An internal error occurred.", in private,
    after what the command did to the store. *)
Theorem run_command_answers_once (json_loads : string -> result json) {Embed : Type}
    (Embed_from_dict : json -> result Embed) (exc_str : exc -> string)
    (error_str : app_error -> string) (administrator : bool) (i : Interaction.t)
    (w : world Embed) :
  let answered (body : M Embed unit) :=
    exists file' evs,
      run_command error_str administrator body w
      = (Ok tt, {| config_file := file'; trace := trace w ++ evs |})
      /\ Obs.count is_response evs = 1%nat
      /\ (administrator = false ->
          file' = config_file w
          /\ evs = [Respond "You need Administrator permissions to use this command." true]) in
  let handed_on (body : M Embed unit) :=
    forall e w',
      administrator = true ->
      body w = (Raise e, w') ->
      run_command error_str administrator body w
      = (Ok tt,
         {| config_file := config_file w';
            trace := trace w ++
                     [LogError ("Interaction error: " ++ error_str (CommandInvokeError e));
                      Respond "An internal error occurred." true] |}) in
  (forall primary secondary, answered (theme_command exc_str i primary secondary))
  /\ (forall embed_json,
        answered (embed_command json_loads Embed_from_dict exc_str i embed_json))
  /\ (forall channel embed_json role,
        answered (welcome_command json_loads i channel embed_json role)
        /\ handed_on (welcome_command json_loads i channel embed_json role)).
Proof.
  intros answered handed_on. unfold answered, handed_on, run_command.
  assert (Hook : forall (e : exc) (w' : world Embed),
            trace w' = trace w ->
            on_tree_error error_str
              (existsb is_response (skipn (List.length (trace w)) (trace w')))
              (CommandInvokeError e) w'
            = (Ok tt,
               {| config_file := config_file w';
                  trace := trace w ++
                           [LogError ("Interaction error: "
                                        ++ error_str (CommandInvokeError e));
                            Respond "An internal error occurred." true] |})).
  { intros e w' Ht. rewrite Ht, skipn_all_nil. cbn [existsb].
    unfold on_tree_error, bind, emit. cbn [negb config_file trace].
    now rewrite <- app_assoc, Ht. }
  destruct administrator; cbn [negb].
  2:{ repeat split; intros; try discriminate; do 2 eexists; repeat split. }
  split; [|split].
  - intros primary secondary. rewrite theme_command_run. cbv zeta.
    destruct (Spec.hex_color primary) as [p|];
      [destruct (Spec.secondary_color secondary) as [s|]|].
    1: destruct (loaded w) as [config|e];
         [destruct (Spec.entry_ok config (str_of_id (Interaction.guild_id i)));
            [match goal with
             | |- context [dumpable ?x] => destruct (dumpable x)
             end|]
         | destruct (exc_isinstance e ValueError)].
    all: rewrite <- ?app_assoc; do 2 eexists; (split; [reflexivity|]).
    all: split; [reflexivity | discriminate].
  - intros embed_json. rewrite embed_command_run. do 2 eexists.
    split; [reflexivity|]. split; [|discriminate]. unfold embed_events.
    destruct (let* v := json_loads embed_json in
              let* config := loaded w in
              let* data := themed config (str_of_id (Interaction.guild_id i)) v in
              message_of Embed_from_dict data) as [[content embeds]|e].
    + now destruct (negb (truthy content) && match embeds with [] => true | _ => false end).
    + now destruct (exc_isinstance e JSONDecodeError).
  - intros channel embed_json role.
    destruct (welcome_command json_loads i channel embed_json role w) as [[[]|e] w'] eqn:Run.
    + destruct (welcome_command_return_trace _ _ _ _ _ _ _ Run) as (evs & Ht & Hc).
      split; [|discriminate].
      exists (config_file w'), evs. rewrite <- Ht.
      split; [now destruct w' | split; [exact Hc | discriminate]].
    + pose proof (welcome_command_raise_trace _ _ _ _ _ _ _ _ Run) as Ht.
      split.
      * do 2 eexists. split; [now apply Hook|]. split; [reflexivity | discriminate].
      * intros e0 w0 _ E. injection E as <- <-. now apply Hook.
Qed.
